(** * chat-service: sessions, tokens, credentials and accounts

    A shallow embedding of the authentication core of the chat service
    (internal/entity, internal/adapter, internal/service, internal/usecase)
    together with the properties its specification states about it.

    Go values are modelled as follows.
    - [string] and [[]byte] are Rocq strings (sequences of 8-bit characters);
      [len] is [String.length].
    - [uuid.UUID] is a 128-bit number ([N]); [uuid.Nil] is 0.
    - [time.Time] is a number of nanoseconds ([Z]); [Before] is [<].
    - a pair [(T, error)] returned by a function is a [Result T]: the
      repositories and services return either a value and a nil error, or a
      nil value and an error.
    - everything outside the process (the PostgreSQL tables, the wall clock,
      the failures of the database driver, the random source) lives in a
      [World] that every effectful function threads through. *)

From Stdlib Require Import ZArith NArith List String Ascii Bool Lia DecimalString.
Import ListNotations.

Set Implicit Arguments.

Open Scope string_scope.
Open Scope Z_scope.

(** ** Go values *)

Definition UUID := N.
Definition Time := Z.

Module uuid.
Definition Nil : UUID := 0%N.
Definition eqb (a b : UUID) : bool := N.eqb a b.
End uuid.

Module time.
Definition Nanosecond : Z := 1.
Definition Second : Z := 1000000000.
Definition Hour : Z := 3600 * Second.
(** [time.Time{}], January 1 of year 1, in nanoseconds before the epoch. *)
Definition Zero : Time := -62135596800 * Second.
Definition Before (t u : Time) : bool := t <? u.
Definition Add (t : Time) (d : Z) : Time := t + d.
Definition IsZero (t : Time) : bool := t =? Zero.
End time.

Definition len (s : string) : Z := Z.of_nat (String.length s).

(** The dynamic types of the [error] values the code builds or receives. *)
Inductive error : Type :=
| entity_ValidationError (Message : string)
| postgres_ValidationError (Message : string)
| postgres_NotFoundError (Message : string)
| user_BusinessError (Message : string)
| session_BusinessError (Message : string)
| handler_UnauthorizedErrorImpl (Message : string)
| fmt_Errorf (prefix : string) (wrapped : error)
| errors_New (Message : string)
| pgx_ErrNoRows
| pgx_Error (Message : string)
| jwt_Error (Message : string)
| bcrypt_Error (Message : string).

Inductive Result (A : Type) : Type :=
| Ok (a : A)
| Err (e : error).
Arguments Ok {A} a.
Arguments Err {A} e.

Definition is_ok {A} (r : Result A) : bool :=
  match r with Ok _ => true | Err _ => false end.

(** ** Entities (internal/entity) *)

Module User.
Record t := mk {
    ID : UUID;
    Username : string;
    Email : string;
    Password : string;
    CreatedAt : Time;
    UpdatedAt : Time
  }.

Definition Validate (u : t) : option error :=
    if (Username u =? "")%string then Some (entity_ValidationError "username is required")
    else if len (Username u) <? 3 then
      Some (entity_ValidationError "username must be at least 3 characters")
    else if (Email u =? "")%string then Some (entity_ValidationError "email is required")
    else if (Password u =? "")%string then Some (entity_ValidationError "password is required")
    else if len (Password u) <? 6 then
      Some (entity_ValidationError "password must be at least 6 characters")
    else None.

(** [ValidateForUpdate]: the password is not looked at. *)
Definition ValidateForUpdate (u : t) : option error :=
    if (Username u =? "")%string then Some (entity_ValidationError "username is required")
    else if len (Username u) <? 3 then
      Some (entity_ValidationError "username must be at least 3 characters")
    else if (Email u =? "")%string then Some (entity_ValidationError "email is required")
    else None.

(** The assignment [user.Password = ""]. *)
Definition clearPassword (u : t) : t :=
    mk (ID u) (Username u) (Email u) "" (CreatedAt u) (UpdatedAt u).
End User.

Module Session.
Record t := mk {
    ID : UUID;
    UserID : UUID;
    Token : string;
    ExpiresAt : Time;
    CreatedAt : Time
  }.

End Session.

Module Message.
Record t := mk {
    ID : UUID;
    UserID : UUID;
    Content : string;
    CreatedAt : Time;
    UpdatedAt : Time
  }.
Definition Validate (m : t) : option error :=
    if uuid.eqb (UserID m) uuid.Nil then Some (entity_ValidationError "user_id is required")
    else if (Content m =? "")%string then Some (entity_ValidationError "content is required")
    else if 1000 <? len (Content m) then
      Some (entity_ValidationError "content must be less than 1000 characters")
    else None.

End Message.

(** ** The world outside the process *)

(** The three tables of the migrations. *)
Record Database := mkDatabase {
  users : list User.t;
  sessions : list Session.t;
  messages : list Message.t
}.

Record World := mkWorld {
  db : Database;          (* the committed contents of the tables *)
  clock : Time;           (* the last reading of the wall clock *)
  ticks : list N;         (* time that passes before each coming reading *)
  faults : list bool;     (* whether each coming database round trip fails *)
  entropy : list N        (* the coming outputs of the random source *)
}.

Definition M (A : Type) : Type := World -> A * World.

Definition ret {A} (a : A) : M A := fun w => (a, w).

Definition bind {A B} (m : M A) (k : A -> M B) : M B :=
  fun w => let (a, w') := m w in k a w'.

Declare Scope go_scope.
Delimit Scope go_scope with go.
Notation "x <- m ;; k" := (bind m (fun x => k))
  (at level 61, m at next level, right associativity) : go_scope.
Notation "m ;;; k" := (bind m (fun _ => k))
  (at level 61, right associativity) : go_scope.
Open Scope go_scope.

(** [time.Now()]: the clock never runs backwards. *)
Definition time_Now : M Time :=
  fun w =>
    let t := clock w + Z.of_N (hd 0%N (ticks w)) in
    (t, mkWorld (db w) t (tl (ticks w)) (faults w) (entropy w)).

(** Sixteen bytes of [crypto/rand], as a number below [2^128]. *)
Definition rand_Read16 : M N :=
  fun w =>
    (N.modulo (hd 0%N (entropy w)) (2 ^ 128),
     mkWorld (db w) (clock w) (ticks w) (faults w) (tl (entropy w))).

(** [uuid.New()]: a random (version 4) identifier; the version and variant
    bits are forced, so the result is never [uuid.Nil]. *)
Definition uuid_New : M UUID :=
  r <- rand_Read16 ;;
  ret (N.lor (N.land r (N.lnot (N.lor (N.shiftl 15 76) (N.shiftl 3 62)) 128))
             (N.lor (N.shiftl 4 76) (N.shiftl 2 62))).


(** [Session.Validate] of internal/entity; the clock is read only once
    the first three checks have passed. *)
Definition Session_Validate (s : Session.t) : M (option error) :=
  if uuid.eqb (Session.UserID s) uuid.Nil then
    ret (Some (entity_ValidationError "user_id is required"))
  else if (Session.Token s =? "")%string then
    ret (Some (entity_ValidationError "token is required"))
  else if time.IsZero (Session.ExpiresAt s) then
    ret (Some (entity_ValidationError "expires_at is required"))
  else
    now <- time_Now ;;
    if time.Before (Session.ExpiresAt s) now then
      ret (Some (entity_ValidationError "token is expired"))
    else ret None.

(** One round trip to the database: whether the driver fails this time. *)
Definition next_fault : M bool :=
  fun w =>
    (hd false (faults w),
     mkWorld (db w) (clock w) (ticks w) (tl (faults w)) (entropy w)).

Definition get_db : M Database := fun w => (db w, w).

Definition put_db (d : Database) : M unit :=
  fun w => (tt, mkWorld d (clock w) (ticks w) (faults w) (entropy w)).

(** ** Interfaces of the use cases (internal/usecase, internal/service)

    The methods the modelled use cases call, and the other methods of the
    session store. *)

Module UserRepository.
Record t := mk {
  Create : User.t -> M (option error);
  GetByID : UUID -> M (Result User.t);
  GetByEmail : string -> M (Result User.t);
  Delete : UUID -> M (option error)
}.
End UserRepository.

Module SessionRepository.
Record t := mk {
  Create : Session.t -> M (option error);
  GetByToken : string -> M (Result Session.t);
  GetByUserID : UUID -> M (Result Session.t);
  Delete : UUID -> M (option error);
  DeleteByToken : string -> M (option error)
}.
End SessionRepository.

Module MessageRepository.
Record t := mk {
  Create : Message.t -> M (option error);
  GetByID : UUID -> M (Result Message.t);
  GetByUserID : UUID -> M (Result (list Message.t));
  GetAll : M (Result (list Message.t));
  Delete : UUID -> M (option error)
}.
End MessageRepository.


Module HashService.
Record t := mk {
  HashPassword : string -> M (Result string);
  CheckPasswordHash : string -> string -> M bool
}.
End HashService.

Module JWTService.
Record t := mk {
  GenerateToken : UUID -> M (Result string);
  ValidateToken : string -> M (Result UUID)
}.
End JWTService.

(** ** The PostgreSQL tables and their statements (migrations) *)

Module sql.

(** [char_length] of a text in UTF-8, as [VARCHAR(n)] counts it: the bytes
    that do not continue a character.  Texts are taken to be valid UTF-8. *)
Definition char_length (s : string) : Z :=
  Z.of_nat (List.length
              (filter (fun c => negb ((128 <=? N_of_ascii c)%N && (N_of_ascii c <? 192)%N))
                 (list_ascii_of_string s))).

Definition too_long : error := pgx_Error "value too long for type character varying".

(** [SELECT ... FROM users WHERE id = $1 LIMIT 1] *)
Definition select_user_by_id (id : UUID) (d : Database) : Result User.t * Database :=
  match find (fun u => uuid.eqb (User.ID u) id) (users d) with
  | Some u => (Ok u, d)
  | None => (Err pgx_ErrNoRows, d)
  end.

(** [SELECT ... FROM users WHERE email = $1 LIMIT 1] *)
Definition select_user_by_email (email : string) (d : Database)
  : Result User.t * Database :=
  match find (fun u => (User.Email u =? email)%string) (users d) with
  | Some u => (Ok u, d)
  | None => (Err pgx_ErrNoRows, d)
  end.

(** [INSERT INTO users ... RETURNING id]: [VARCHAR(50)] for the username,
    [VARCHAR(255)] for email and password; the primary key and the two
    [UNIQUE] columns reject a duplicate. *)
Definition insert_user (u : User.t) (d : Database) : Result UUID * Database :=
  if (50 <? char_length (User.Username u)) || (255 <? char_length (User.Email u))
     || (255 <? char_length (User.Password u))
  then (Err too_long, d)
  else if existsb (fun v => uuid.eqb (User.ID v) (User.ID u)
                       || (User.Username v =? User.Username u)%string
                       || (User.Email v =? User.Email u)%string) (users d)
  then (Err (pgx_Error "duplicate key value violates unique constraint"), d)
  else (Ok (User.ID u), mkDatabase (users d ++ [u]) (sessions d) (messages d)).

(** [DELETE FROM messages WHERE user_id = $1] *)
Definition delete_messages_by_user (id : UUID) (d : Database) : Database :=
  mkDatabase (users d) (sessions d)
    (filter (fun m => negb (uuid.eqb (Message.UserID m) id)) (messages d)).

(** [DELETE FROM sessions WHERE user_id = $1] *)
Definition delete_sessions_by_user (id : UUID) (d : Database) : Database :=
  mkDatabase (users d)
    (filter (fun s => negb (uuid.eqb (Session.UserID s) id)) (sessions d))
    (messages d).

(** [DELETE FROM users WHERE id = $1 RETURNING id]; the foreign keys of
    sessions and messages are declared [ON DELETE CASCADE]. *)
Definition delete_user_by_id (id : UUID) (d : Database) : Result UUID * Database :=
  match find (fun u => uuid.eqb (User.ID u) id) (users d) with
  | None => (Err pgx_ErrNoRows, d)
  | Some _ =>
      (Ok id,
       mkDatabase
         (filter (fun u => negb (uuid.eqb (User.ID u) id)) (users d))
         (filter (fun s => negb (uuid.eqb (Session.UserID s) id)) (sessions d))
         (filter (fun m => negb (uuid.eqb (Message.UserID m) id)) (messages d)))
  end.

(** [SELECT ... FROM sessions WHERE token = $1 LIMIT 1] *)
Definition select_session_by_token (token : string) (d : Database)
  : Result Session.t * Database :=
  match find (fun s => (Session.Token s =? token)%string) (sessions d) with
  | Some s => (Ok s, d)
  | None => (Err pgx_ErrNoRows, d)
  end.

(** The row with the greatest [created_at] (the first of them). *)
Fixpoint newest (l : list Session.t) : option Session.t :=
  match l with
  | [] => None
  | s :: l' =>
      match newest l' with
      | Some s' => if Session.CreatedAt s <? Session.CreatedAt s' then Some s' else Some s
      | None => Some s
      end
  end.

(** [SELECT ... FROM sessions WHERE user_id = $1 ORDER BY created_at DESC
    LIMIT 1] *)
Definition select_session_by_user (id : UUID) (d : Database)
  : Result Session.t * Database :=
  match newest (filter (fun s => uuid.eqb (Session.UserID s) id) (sessions d)) with
  | Some s => (Ok s, d)
  | None => (Err pgx_ErrNoRows, d)
  end.

(** [INSERT INTO sessions ... RETURNING id]: [VARCHAR(512)] for the token,
    the primary key, the [UNIQUE] token and the foreign key to users. *)
Definition insert_session (s : Session.t) (d : Database) : Result UUID * Database :=
  if 512 <? char_length (Session.Token s) then (Err too_long, d)
  else if existsb (fun v => uuid.eqb (Session.ID v) (Session.ID s)
                       || (Session.Token v =? Session.Token s)%string) (sessions d)
  then (Err (pgx_Error "duplicate key value violates unique constraint"), d)
  else if negb (existsb (fun u => uuid.eqb (User.ID u) (Session.UserID s)) (users d))
  then (Err (pgx_Error "insert or update violates foreign key constraint"), d)
  else (Ok (Session.ID s), mkDatabase (users d) (sessions d ++ [s]) (messages d)).

(** [DELETE FROM sessions WHERE id = $1 RETURNING id] *)
Definition delete_session_by_id (id : UUID) (d : Database) : Result UUID * Database :=
  match find (fun s => uuid.eqb (Session.ID s) id) (sessions d) with
  | None => (Err pgx_ErrNoRows, d)
  | Some s =>
      (Ok (Session.ID s),
       mkDatabase (users d)
         (filter (fun s => negb (uuid.eqb (Session.ID s) id)) (sessions d))
         (messages d))
  end.

(** [DELETE FROM sessions WHERE token = $1 RETURNING id] *)
Definition delete_session_by_token (token : string) (d : Database)
  : Result UUID * Database :=
  match find (fun s => (Session.Token s =? token)%string) (sessions d) with
  | None => (Err pgx_ErrNoRows, d)
  | Some s =>
      (Ok (Session.ID s),
       mkDatabase (users d)
         (filter (fun s => negb (Session.Token s =? token)%string) (sessions d))
         (messages d))
  end.

(** [SELECT ... FROM messages WHERE id = $1 LIMIT 1] *)
Definition select_message_by_id (id : UUID) (d : Database)
  : Result Message.t * Database :=
  match find (fun m => uuid.eqb (Message.ID m) id) (messages d) with
  | Some m => (Ok m, d)
  | None => (Err pgx_ErrNoRows, d)
  end.

(** [INSERT INTO messages ... RETURNING id]: the primary key and the foreign
    key to users; [content] is [TEXT], of any length. *)
Definition insert_message (m : Message.t) (d : Database) : Result UUID * Database :=
  if existsb (fun v => uuid.eqb (Message.ID v) (Message.ID m)) (messages d)
  then (Err (pgx_Error "duplicate key value violates unique constraint"), d)
  else if negb (existsb (fun u => uuid.eqb (User.ID u) (Message.UserID m)) (users d))
  then (Err (pgx_Error "insert or update violates foreign key constraint"), d)
  else (Ok (Message.ID m), mkDatabase (users d) (sessions d) (messages d ++ [m])).

(** [ORDER BY created_at DESC]: rows with the same [created_at] stay in the
    order of the table (PostgreSQL promises no order among them). *)
Fixpoint insert_by_created_at (m : Message.t) (l : list Message.t) : list Message.t :=
  match l with
  | [] => [m]
  | x :: l' =>
      if Message.CreatedAt m <? Message.CreatedAt x then x :: insert_by_created_at m l'
      else m :: l
  end.

(** Two rows in that order: the first is not older than the second. *)
Definition newest_first (a b : Message.t) : Prop :=
  Message.CreatedAt b <= Message.CreatedAt a.

Definition order_by_created_at_desc (l : list Message.t) : list Message.t :=
  fold_right insert_by_created_at [] l.

(** [SELECT ... FROM messages WHERE user_id = $1 ORDER BY created_at DESC] *)
Definition select_messages_by_user (id : UUID) (d : Database) : list Message.t :=
  order_by_created_at_desc
    (filter (fun m => uuid.eqb (Message.UserID m) id) (messages d)).

(** [SELECT ... FROM messages ORDER BY created_at DESC] *)
Definition select_messages (d : Database) : list Message.t :=
  order_by_created_at_desc (messages d).

(** [DELETE FROM messages WHERE id = $1 RETURNING id] *)
Definition delete_message_by_id (id : UUID) (d : Database) : Result UUID * Database :=
  match find (fun m => uuid.eqb (Message.ID m) id) (messages d) with
  | None => (Err pgx_ErrNoRows, d)
  | Some m =>
      (Ok (Message.ID m),
       mkDatabase (users d) (sessions d)
         (filter (fun m => negb (uuid.eqb (Message.ID m) id)) (messages d)))
  end.

End sql.

(** ** The PostgreSQL adapter (internal/adapter)

    The query builder cannot fail on the fixed statements of the
    repositories, so its error branches are left out. *)

Module postgres.

(** A transaction works on its own copy of the tables until it commits. *)
Record Tx := mkTx { work : Database }.

Definition driver_failure : error := pgx_Error "driver failure".

(** [PostgresAdapter.BeginTx] *)
Definition BeginTx : M (Result Tx) :=
  failed <- next_fault ;;
  if failed then ret (Err driver_failure)
  else d <- get_db ;; ret (Ok (mkTx d)).

(** [PostgresAdapter.QueryRow(...).Scan(...)]; the two clock readings time
    the statement for the log. *)
Definition QueryRow {A} (query : Database -> Result A * Database) : M (Result A) :=
  _ <- time_Now ;;
  failed <- next_fault ;;
  r <- (if failed then ret (Err driver_failure)
        else d <- get_db ;;
             let (r, d') := query d in
             put_db d' ;;; ret r) ;;
  _ <- time_Now ;;
  ret r.

(** [PostgresAdapter.ExecTx] *)
Definition ExecTx (tx : Tx) (stmt : Database -> Database) : M (option error * Tx) :=
  _ <- time_Now ;;
  failed <- next_fault ;;
  _ <- time_Now ;;
  if failed then ret (Some driver_failure, tx)
  else ret (None, mkTx (stmt (work tx))).

(** [PostgresAdapter.QueryRowTx(...).Scan(...)] *)
Definition QueryRowTx {A} (tx : Tx) (query : Database -> Result A * Database)
  : M (Result A * Tx) :=
  _ <- time_Now ;;
  failed <- next_fault ;;
  _ <- time_Now ;;
  if failed then ret (Err driver_failure, tx)
  else let (r, d') := query (work tx) in ret (r, mkTx d').

(** [tx.Commit]: the copy becomes the contents of the tables, unless the
    round trip fails. *)
Definition Commit (tx : Tx) : M (option error) :=
  failed <- next_fault ;;
  if failed then ret (Some driver_failure)
  else put_db (work tx) ;;; ret None.

(** [tx.Rollback]: the copy is dropped; the outcome of the round trip is
    not looked at. *)
Definition Rollback (tx : Tx) : M unit :=
  _ <- next_fault ;;
  ret tt.

(** *** userRepo *)

Module userRepo.

Definition validateUser (user : User.t) : option error :=
  if (User.Username user =? "")%string then
    Some (postgres_ValidationError "username is required")
  else if len (User.Username user) <? 3 then
    Some (postgres_ValidationError "username must be at least 3 characters")
  else if (User.Email user =? "")%string then
    Some (postgres_ValidationError "email is required")
  else if (User.Password user =? "")%string then
    Some (postgres_ValidationError "password is required")
  else if len (User.Password user) <? 6 then
    Some (postgres_ValidationError "password must be at least 6 characters")
  else None.

Definition Create (user : User.t) : M (option error) :=
  match validateUser user with
  | Some err => ret (Some err)
  | None =>
      r <- QueryRow (sql.insert_user user) ;;
      match r with
      | Err err => ret (Some (fmt_Errorf "failed to insert user" err))
      | Ok _ => ret None
      end
  end.

Definition GetByID (id : UUID) : M (Result User.t) :=
  if uuid.eqb id uuid.Nil then ret (Err (postgres_ValidationError "invalid user ID"))
  else
    r <- QueryRow (sql.select_user_by_id id) ;;
    match r with
    | Err pgx_ErrNoRows => ret (Err (postgres_NotFoundError "user not found"))
    | Err err => ret (Err (fmt_Errorf "failed to query user" err))
    | Ok user => ret (Ok user)
    end.

Definition GetByEmail (email : string) : M (Result User.t) :=
  if (email =? "")%string then ret (Err (postgres_ValidationError "email is required"))
  else
    r <- QueryRow (sql.select_user_by_email email) ;;
    match r with
    | Err pgx_ErrNoRows => ret (Err (postgres_NotFoundError "user not found"))
    | Err err => ret (Err (fmt_Errorf "failed to query user" err))
    | Ok user => ret (Ok user)
    end.

(** [userRepo.Delete]: messages, sessions and the account are removed in
    one transaction; the deferred function rolls it back whenever [err] is
    not nil when the function returns.  After [Commit] the transaction is
    closed, and the deferred [Rollback] does not reach the database. *)
Definition Delete (id : UUID) : M (option error) :=
  if uuid.eqb id uuid.Nil then ret (Some (postgres_ValidationError "invalid user ID"))
  else
    b <- BeginTx ;;
    match b with
    | Err err => ret (Some (fmt_Errorf "failed to begin transaction" err))
    | Ok tx =>
        m <- ExecTx tx (sql.delete_messages_by_user id) ;;
        match m with
        | (Some err, tx) =>
            Rollback tx ;;; ret (Some (fmt_Errorf "failed to delete user messages" err))
        | (None, tx) =>
            s <- ExecTx tx (sql.delete_sessions_by_user id) ;;
            match s with
            | (Some err, tx) =>
                Rollback tx ;;;
                ret (Some (fmt_Errorf "failed to delete user sessions" err))
            | (None, tx) =>
                u <- QueryRowTx tx (sql.delete_user_by_id id) ;;
                match u with
                | (Err pgx_ErrNoRows, tx) =>
                    Rollback tx ;;; ret (Some (postgres_NotFoundError "user not found"))
                | (Err err, tx) =>
                    Rollback tx ;;; ret (Some (fmt_Errorf "failed to delete user" err))
                | (Ok _, tx) =>
                    c <- Commit tx ;;
                    match c with
                    | Some err =>
                        ret (Some (fmt_Errorf "failed to commit transaction" err))
                    | None => ret None
                    end
                end
            end
        end
    end.

End userRepo.

Definition NewUserRepository : UserRepository.t :=
  UserRepository.mk userRepo.Create userRepo.GetByID userRepo.GetByEmail
    userRepo.Delete.

(** *** sessionRepo *)

Module sessionRepo.

Definition validateSession (session : Session.t) : M (option error) :=
  if uuid.eqb (Session.UserID session) uuid.Nil then
    ret (Some (postgres_ValidationError "user_id is required"))
  else if (Session.Token session =? "")%string then
    ret (Some (postgres_ValidationError "token is required"))
  else if time.IsZero (Session.ExpiresAt session) then
    ret (Some (postgres_ValidationError "expires_at is required"))
  else
    now <- time_Now ;;
    if time.Before (Session.ExpiresAt session) now then
      ret (Some (postgres_ValidationError "cannot create expired session"))
    else ret None.

Definition Create (session : Session.t) : M (option error) :=
  v <- validateSession session ;;
  match v with
  | Some err => ret (Some err)
  | None =>
      r <- QueryRow (sql.insert_session session) ;;
      match r with
      | Err err => ret (Some (fmt_Errorf "failed to insert session" err))
      | Ok _ => ret None
      end
  end.

Definition GetByToken (token : string) : M (Result Session.t) :=
  if (token =? "")%string then ret (Err (postgres_ValidationError "token is required"))
  else
    r <- QueryRow (sql.select_session_by_token token) ;;
    match r with
    | Err pgx_ErrNoRows => ret (Err (postgres_NotFoundError "session not found"))
    | Err err => ret (Err (fmt_Errorf "failed to query session" err))
    | Ok session =>
        now <- time_Now ;;
        if time.Before (Session.ExpiresAt session) now then
          ret (Err (postgres_ValidationError "session expired"))
        else ret (Ok session)
    end.

Definition GetByUserID (userID : UUID) : M (Result Session.t) :=
  if uuid.eqb userID uuid.Nil then ret (Err (postgres_ValidationError "invalid user ID"))
  else
    r <- QueryRow (sql.select_session_by_user userID) ;;
    match r with
    | Err pgx_ErrNoRows => ret (Err (postgres_NotFoundError "session not found"))
    | Err err => ret (Err (fmt_Errorf "failed to query session" err))
    | Ok session =>
        now <- time_Now ;;
        if time.Before (Session.ExpiresAt session) now then
          ret (Err (postgres_ValidationError "session expired"))
        else ret (Ok session)
    end.

Definition Delete (id : UUID) : M (option error) :=
  if uuid.eqb id uuid.Nil then ret (Some (postgres_ValidationError "invalid session ID"))
  else
    r <- QueryRow (sql.delete_session_by_id id) ;;
    match r with
    | Err pgx_ErrNoRows => ret (Some (postgres_NotFoundError "session not found"))
    | Err err => ret (Some (fmt_Errorf "failed to delete session" err))
    | Ok _ => ret None
    end.

Definition DeleteByToken (token : string) : M (option error) :=
  if (token =? "")%string then ret (Some (postgres_ValidationError "token is required"))
  else
    r <- QueryRow (sql.delete_session_by_token token) ;;
    match r with
    | Err pgx_ErrNoRows => ret (Some (postgres_NotFoundError "session not found"))
    | Err err => ret (Some (fmt_Errorf "failed to delete session" err))
    | Ok _ => ret None
    end.

End sessionRepo.

Definition NewSessionRepository : SessionRepository.t :=
  SessionRepository.mk sessionRepo.Create sessionRepo.GetByToken
    sessionRepo.GetByUserID sessionRepo.Delete sessionRepo.DeleteByToken.

(** [PostgresAdapter.Query]: the rows of a statement, or the failure of the
    round trip. *)
Definition Query {A} (query : Database -> list A) : M (Result (list A)) :=
  _ <- time_Now ;;
  failed <- next_fault ;;
  r <- (if failed then ret (Err driver_failure)
        else d <- get_db ;; ret (Ok (query d))) ;;
  _ <- time_Now ;;
  ret r.

(** The loop over [rows.Next] and the check of [rows.Err] after it: the
    reading of the rows is a round trip of its own.  The columns scanned
    have the types of the table, so [rows.Scan] does not fail. *)
Definition scan_rows {A} (rows : list A) : M (Result (list A)) :=
  failed <- next_fault ;;
  if failed then ret (Err driver_failure) else ret (Ok rows).

(** *** messageRepo *)

Module messageRepo.

Definition validateMessage (message : Message.t) : option error :=
  if uuid.eqb (Message.UserID message) uuid.Nil then
    Some (postgres_ValidationError "user_id is required")
  else if (Message.Content message =? "")%string then
    Some (postgres_ValidationError "content is required")
  else if 1000 <? len (Message.Content message) then
    Some (postgres_ValidationError "content must be less than 1000 characters")
  else None.

Definition Create (message : Message.t) : M (option error) :=
  match validateMessage message with
  | Some err => ret (Some err)
  | None =>
      r <- QueryRow (sql.insert_message message) ;;
      match r with
      | Err err => ret (Some (fmt_Errorf "failed to insert message" err))
      | Ok _ => ret None
      end
  end.

Definition GetByID (id : UUID) : M (Result Message.t) :=
  if uuid.eqb id uuid.Nil then ret (Err (postgres_ValidationError "invalid message ID"))
  else
    r <- QueryRow (sql.select_message_by_id id) ;;
    match r with
    | Err pgx_ErrNoRows => ret (Err (postgres_NotFoundError "message not found"))
    | Err err => ret (Err (fmt_Errorf "failed to query message" err))
    | Ok message => ret (Ok message)
    end.

Definition GetByUserID (userID : UUID) : M (Result (list Message.t)) :=
  if uuid.eqb userID uuid.Nil then ret (Err (postgres_ValidationError "invalid user ID"))
  else
    q <- Query (sql.select_messages_by_user userID) ;;
    match q with
    | Err err => ret (Err (fmt_Errorf "failed to query messages" err))
    | Ok rows =>
        r <- scan_rows rows ;;
        match r with
        | Err err => ret (Err (fmt_Errorf "error during rows iteration" err))
        | Ok messages => ret (Ok messages)
        end
    end.

Definition GetAll : M (Result (list Message.t)) :=
  q <- Query sql.select_messages ;;
  match q with
  | Err err => ret (Err (fmt_Errorf "failed to query messages" err))
  | Ok rows =>
      r <- scan_rows rows ;;
      match r with
      | Err err => ret (Err (fmt_Errorf "error during rows iteration" err))
      | Ok messages => ret (Ok messages)
      end
  end.

Definition Delete (id : UUID) : M (option error) :=
  if uuid.eqb id uuid.Nil then ret (Some (postgres_ValidationError "invalid message ID"))
  else
    r <- QueryRow (sql.delete_message_by_id id) ;;
    match r with
    | Err pgx_ErrNoRows => ret (Some (postgres_NotFoundError "message not found"))
    | Err err => ret (Some (fmt_Errorf "failed to delete message" err))
    | Ok _ => ret None
    end.

End messageRepo.

Definition NewMessageRepository : MessageRepository.t :=
  MessageRepository.mk messageRepo.Create messageRepo.GetByID messageRepo.GetByUserID
    messageRepo.GetAll messageRepo.Delete.

End postgres.

(** ** The session use case (internal/usecase/session) *)

Module session.

Record sessionUsecase := mk {
  sessionRepo : SessionRepository.t;
  jwtService : JWTService.t
}.

Definition CreateSession (s : sessionUsecase) (userID : UUID) : M (Result Session.t) :=
  g <- JWTService.GenerateToken (jwtService s) userID ;;
  match g with
  | Err err => ret (Err err)
  | Ok token =>
      id <- uuid_New ;;
      t1 <- time_Now ;;
      t2 <- time_Now ;;
      let session := Session.mk id userID token (time.Add t1 (24 * time.Hour)) t2 in
      v <- Session_Validate session ;;
      match v with
      | Some err => ret (Err err)
      | None =>
          c <- SessionRepository.Create (sessionRepo s) session ;;
          match c with
          | Some err => ret (Err err)
          | None => ret (Ok session)
          end
      end
  end.

Definition ValidateSession (s : sessionUsecase) (token : string) : M (Result Session.t) :=
  r <- SessionRepository.GetByToken (sessionRepo s) token ;;
  match r with
  | Err _ => ret (Err (session_BusinessError "invalid session"))
  | Ok session =>
      now <- time_Now ;;
      if time.Before (Session.ExpiresAt session) now then
        _ <- SessionRepository.DeleteByToken (sessionRepo s) token ;;
        ret (Err (session_BusinessError "session expired"))
      else
        v <- JWTService.ValidateToken (jwtService s) token ;;
        match v with
        | Err _ => ret (Err (session_BusinessError "invalid token"))
        | Ok userID =>
            if negb (uuid.eqb userID (Session.UserID session)) then
              ret (Err (session_BusinessError "token mismatch"))
            else ret (Ok session)
        end
  end.

Definition DeleteSession (s : sessionUsecase) (token : string) : M (option error) :=
  err <- SessionRepository.DeleteByToken (sessionRepo s) token ;;
  match err with
  | Some err => ret (Some err)
  | None => ret None
  end.

End session.

(** ** The user use case (internal/usecase/user) *)

Module user.

Record userUsecase := mk {
  userRepo : UserRepository.t;
  sessionRepo : SessionRepository.t;
  hashService : HashService.t;
  jwtService : JWTService.t
}.

Definition Register (u : userUsecase) (username email password : string)
  : M (Result User.t) :=
  existingUser <- UserRepository.GetByEmail (userRepo u) email ;;
  match existingUser with
  | Ok _ => ret (Err (user_BusinessError "user with this email already exists"))
  | Err _ =>
      h <- HashService.HashPassword (hashService u) password ;;
      match h with
      | Err err => ret (Err err)
      | Ok hashedPassword =>
          id <- uuid_New ;;
          t1 <- time_Now ;;
          t2 <- time_Now ;;
          let user := User.mk id username email hashedPassword t1 t2 in
          match User.Validate user with
          | Some err => ret (Err err)
          | None =>
              c <- UserRepository.Create (userRepo u) user ;;
              match c with
              | Some err => ret (Err err)
              | None => ret (Ok (User.clearPassword user))
              end
          end
      end
  end.

Definition Login (u : userUsecase) (email password : string) : M (Result User.t) :=
  r <- UserRepository.GetByEmail (userRepo u) email ;;
  match r with
  | Err _ => ret (Err (user_BusinessError "invalid credentials"))
  | Ok user =>
      ok <- HashService.CheckPasswordHash (hashService u) password (User.Password user) ;;
      if negb ok then ret (Err (user_BusinessError "invalid credentials"))
      else ret (Ok (User.clearPassword user))
  end.

Definition GetProfile (u : userUsecase) (userID : UUID) : M (Result User.t) :=
  r <- UserRepository.GetByID (userRepo u) userID ;;
  match r with
  | Err err => ret (Err err)
  | Ok user => ret (Ok (User.clearPassword user))
  end.

(** The sessions of the user are looked up, and nothing is done with the
    answer; the removal is the repository's. *)
Definition DeleteUser (u : userUsecase) (userID : UUID) : M (option error) :=
  _ <- SessionRepository.GetByUserID (sessionRepo u) userID ;;
  err <- UserRepository.Delete (userRepo u) userID ;;
  match err with
  | Some err => ret (Some err)
  | None => ret None
  end.

End user.

(** ** The message use case (internal/usecase/message) *)

Module message.

(** What the use case returns as its error: the [BusinessError] of this
    package, or the error of the entity or of a repository as it came. *)
Inductive failure : Type :=
| BusinessError (Message : string)
| passed (err : error).

Record messageUsecase := mk {
  messageRepo : MessageRepository.t;
  userRepo : UserRepository.t
}.

Definition CreateMessage (m : messageUsecase) (userID : UUID) (content : string)
  : M (failure + Message.t) :=
  r <- UserRepository.GetByID (userRepo m) userID ;;
  match r with
  | Err _ => ret (inl (BusinessError "user not found"))
  | Ok _ =>
      id <- uuid_New ;;
      t1 <- time_Now ;;
      t2 <- time_Now ;;
      let message := Message.mk id userID content t1 t2 in
      match Message.Validate message with
      | Some err => ret (inl (passed err))
      | None =>
          c <- MessageRepository.Create (messageRepo m) message ;;
          match c with
          | Some err => ret (inl (passed err))
          | None => ret (inr message)
          end
      end
  end.

Definition GetMessageByID (m : messageUsecase) (messageID : UUID)
  : M (failure + Message.t) :=
  r <- MessageRepository.GetByID (messageRepo m) messageID ;;
  match r with
  | Err err => ret (inl (passed err))
  | Ok message => ret (inr message)
  end.

Definition GetMessagesByUser (m : messageUsecase) (userID : UUID)
  : M (failure + list Message.t) :=
  r <- UserRepository.GetByID (userRepo m) userID ;;
  match r with
  | Err _ => ret (inl (BusinessError "user not found"))
  | Ok _ =>
      l <- MessageRepository.GetByUserID (messageRepo m) userID ;;
      match l with
      | Err err => ret (inl (passed err))
      | Ok messages => ret (inr messages)
      end
  end.

Definition GetAllMessages (m : messageUsecase) : M (failure + list Message.t) :=
  l <- MessageRepository.GetAll (messageRepo m) ;;
  match l with
  | Err err => ret (inl (passed err))
  | Ok messages => ret (inr messages)
  end.

Definition DeleteMessage (m : messageUsecase) (messageID : UUID) : M (option failure) :=
  err <- MessageRepository.Delete (messageRepo m) messageID ;;
  match err with
  | Some err => ret (Some (passed err))
  | None => ret None
  end.

End message.


(** ** The HTTP layer (internal/handler): errors and logout *)

Module handler.

Record Response := mk {
  StatusCode : Z;
  Success : bool;
  Message : string;
  Error : string
}.

(** [err.Error()] *)
Fixpoint Error_of (err : error) : string :=
  match err with
  | entity_ValidationError m | postgres_ValidationError m | postgres_NotFoundError m
  | user_BusinessError m | session_BusinessError m | handler_UnauthorizedErrorImpl m
  | errors_New m | pgx_Error m | jwt_Error m | bcrypt_Error m => m
  | pgx_ErrNoRows => "no rows in result set"
  | fmt_Errorf prefix wrapped => prefix ++ ": " ++ Error_of wrapped
  end.

Definition SendSuccess (message : string) (statusCode : Z) : Response :=
  mk statusCode true message "".

Definition SendError (message errorStr : string) (statusCode : Z) : Response :=
  mk statusCode false message errorStr.

(** [HandleError]: the type switch picks an error by its marker method.  The
    two [BusinessError] types have [ValidationError() bool], the error of
    the middleware has [Unauthorized() bool]; the errors of the entities and
    of the adapter have no marker method. *)
Definition HandleError (err : error) : Response :=
  match err with
  | user_BusinessError _ | session_BusinessError _ =>
      SendError "Validation failed" (Error_of err) 400
  | handler_UnauthorizedErrorImpl _ =>
      SendError "Unauthorized" (Error_of err) 401
  | _ => SendError "Internal server error" "Something went wrong" 500
  end.

(** [strings.TrimPrefix] *)
Definition TrimPrefix (s prefix : string) : string :=
  if String.prefix prefix s
  then substring (String.length prefix) (String.length s) s
  else s.

(** [UserHandler.Logout]; [userID] is what the middleware left in the
    context, [authHeader] the Authorization header of the request. *)
Definition Logout (sessionUsecase : session.sessionUsecase) (userID : option UUID)
  (authHeader : string) : M Response :=
  match userID with
  | None => ret (HandleError (handler_UnauthorizedErrorImpl "user not authenticated"))
  | Some _ =>
      let tokenString := TrimPrefix authHeader "Bearer " in
      _ <- (if negb (tokenString =? authHeader)%string && negb (tokenString =? "")%string
            then err <- session.DeleteSession sessionUsecase tokenString ;; ret tt
            else ret tt) ;;
      ret (SendSuccess "Logged out successfully" 200)
  end.

End handler.

(** ** encoding/base64, as the token and the password libraries use it

    The shifts and masks of the library are written with [*], [/] and
    [mod]. *)

Module base64.

Definition encodeURL : string :=
  "ABCDEFGHIJKLMNOPQRSTUVWXYZabcdefghijklmnopqrstuvwxyz0123456789-_".

(** The value of a byte, and the byte of a value. *)
Definition code (c : ascii) : Z := Z.of_N (N_of_ascii c).
Definition chr (v : Z) : ascii := ascii_of_N (Z.to_N (v mod 256)).

(** The digit of a 6-bit value. *)
Definition digit (alphabet : string) (v : Z) : ascii :=
  match String.get (Z.to_nat v) alphabet with
  | Some c => c
  | None => zero
  end.

(** [decodeMap]: the value of a digit, if it is one of the alphabet. *)
Fixpoint value_from (alphabet : string) (c : ascii) (i : Z) : option Z :=
  match alphabet with
  | EmptyString => None
  | String d rest => if Ascii.eqb c d then Some i else value_from rest c (i + 1)
  end.

Definition value (alphabet : string) (c : ascii) : option Z := value_from alphabet c 0.

(** The digits of one, two or three bytes. *)
Definition digits1 (alphabet : string) (a : ascii) : string :=
  let v := code a * 65536 in
  String (digit alphabet (v / 262144))
    (String (digit alphabet ((v / 4096) mod 64)) EmptyString).

Definition digits2 (alphabet : string) (a b : ascii) : string :=
  let v := code a * 65536 + code b * 256 in
  String (digit alphabet (v / 262144))
    (String (digit alphabet ((v / 4096) mod 64))
       (String (digit alphabet ((v / 64) mod 64)) EmptyString)).

Definition digits3 (alphabet : string) (a b c : ascii) : string :=
  let v := code a * 65536 + code b * 256 + code c in
  String (digit alphabet (v / 262144))
    (String (digit alphabet ((v / 4096) mod 64))
       (String (digit alphabet ((v / 64) mod 64))
          (String (digit alphabet (v mod 64)) EmptyString))).

(** [Encoding.EncodeToString] of an encoding without padding. *)
Fixpoint EncodeToString (alphabet : string) (src : string) : string :=
  match src with
  | EmptyString => EmptyString
  | String a EmptyString => digits1 alphabet a
  | String a (String b EmptyString) => digits2 alphabet a b
  | String a (String b (String c rest)) =>
      digits3 alphabet a b c ++ EncodeToString alphabet rest
  end.

Definition is_newline (c : ascii) : bool :=
  Ascii.eqb c "010"%char || Ascii.eqb c "013"%char.

Fixpoint skip_newlines (s : string) : string :=
  match s with
  | String c rest => if is_newline c then skip_newlines rest else s
  | EmptyString => EmptyString
  end.

Definition is_padding (padding : option ascii) (c : ascii) : bool :=
  match padding with
  | Some p => Ascii.eqb c p
  | None => false
  end.

(** The bytes of a quantum of four, three or two digits: the bits of the
    last digit that do not fill a byte are dropped, whatever they are. *)
Definition quantum (dbuf : list Z) : string :=
  match dbuf with
  | [a; b; c; d] =>
      let v := a * 262144 + b * 4096 + c * 64 + d in
      String (chr (v / 65536)) (String (chr (v / 256)) (String (chr v) EmptyString))
  | [a; b; c] =>
      let v := a * 262144 + b * 4096 + c * 64 in
      String (chr (v / 65536)) (String (chr (v / 256)) EmptyString)
  | [a; b] =>
      let v := a * 262144 + b * 4096 in
      String (chr (v / 65536)) EmptyString
  | _ => EmptyString
  end.

(** [Encoding.DecodeString], not strict: [dbuf] holds the digits read of the
    current quantum.  Line breaks are skipped wherever they stand; [padding]
    is the padding character of the encoding, if it has one. *)
Fixpoint decode (alphabet : string) (padding : option ascii) (dbuf : list Z)
  (src : string) : option string :=
  match src with
  | EmptyString =>
      match dbuf, padding with
      | [], _ => Some EmptyString
      | [_], _ => None
      | _, Some _ => None
      | _, None => Some (quantum dbuf)
      end
  | String c rest =>
      match value alphabet c with
      | Some v =>
          match dbuf with
          | [x; y; z] =>
              match decode alphabet padding [] rest with
              | Some out => Some (quantum [x; y; z; v] ++ out)
              | None => None
              end
          | _ => decode alphabet padding (dbuf ++ [v]) rest
          end
      | None =>
          if is_newline c then decode alphabet padding dbuf rest
          else if is_padding padding c then
            match dbuf with
            | [_; _] =>
                match skip_newlines rest with
                | String c' rest' =>
                    if is_padding padding c' then
                      match skip_newlines rest' with
                      | EmptyString => Some (quantum dbuf)
                      | _ => None
                      end
                    else None
                | EmptyString => None
                end
            | [_; _; _] =>
                match skip_newlines rest with
                | EmptyString => Some (quantum dbuf)
                | _ => None
                end
            | _ => None
            end
          else None
      end
  end.

Definition DecodeString (alphabet : string) (padding : option ascii) (s : string)
  : option string :=
  decode alphabet padding [] s.

(** An alphabet has 64 digits, all different. *)
Definition alphabet_ok (alphabet : string) : bool :=
  forallb (fun i => match value alphabet (digit alphabet (Z.of_nat i)) with
                    | Some v => v =? Z.of_nat i
                    | None => false
                    end) (seq 0 64).

End base64.

(** ** github.com/golang-jwt/jwt/v5, as internal/service uses it

    The token is [segment.segment.segment]: the header, the claims and the
    signature, each in URL-safe base64 without padding.  The JSON coding of
    header and claims and the keyed hash are those of the Go libraries; the
    model takes them as a [Lib]. *)

Module jwt.

(** [Claims] of service_repo.go: [user_id] and the registered claims the
    service sets; a registered claim that is absent is [None]. *)
Record Claims := mkClaims {
  UserID : UUID;
  ExpiresAt : option Time;
  IssuedAt : option Time;
  NotBefore : option Time
}.

Inductive SigningMethod : Type :=
| HS256 | HS384 | HS512
| asymmetric (alg : string)   (* RS, PS, ES and EdDSA methods *)
| none.

Record Lib := mkLib {
  (** [hmac.New(hash, key)] over the message *)
  hmac : SigningMethod -> string -> string -> string;
  (** [json.Marshal] of the header of a method *)
  marshalHeader : SigningMethod -> string;
  (** [json.Unmarshal] of a header: the string under [alg], if any *)
  unmarshalHeader : string -> option (option string);
  marshalClaims : Claims -> string;
  unmarshalClaims : string -> option Claims
}.

(** [NewNumericDate]: the time cut to the second. *)
Definition NewNumericDate (t : Time) : Time := t - t mod time.Second.

Definition EncodeSegment (seg : string) : string :=
  base64.EncodeToString base64.encodeURL seg.

(** [Parser.DecodeSegment] of a parser made without options (not strict,
    no padding). *)
Definition DecodeSegment (seg : string) : option string :=
  base64.DecodeString base64.encodeURL None seg.

(** [strings.Split(s, sep)] for a separator of one byte. *)
Fixpoint Split (s : string) (sep : ascii) : list string :=
  match s with
  | EmptyString => [EmptyString]
  | String c rest =>
      if Ascii.eqb c sep then EmptyString :: Split rest sep
      else match Split rest sep with
           | part :: parts => String c part :: parts
           | [] => [String c EmptyString]
           end
  end.

(** A segment holds no separator. *)
Definition no_dot (s : string) : Prop :=
  forall c, In c (list_ascii_of_string s) -> c <> "."%char.

Definition GetSigningMethod (alg : string) : option SigningMethod :=
  if (alg =? "HS256")%string then Some HS256
  else if (alg =? "HS384")%string then Some HS384
  else if (alg =? "HS512")%string then Some HS512
  else if (alg =? "none")%string then Some none
  else if existsb (String.eqb alg)
            ["RS256"; "RS384"; "RS512"; "PS256"; "PS384"; "PS512";
             "ES256"; "ES384"; "ES512"; "EdDSA"]
  then Some (asymmetric alg)
  else None.

(** [SigningMethod.Sign] with a key of type [[]byte]. *)
Definition Sign (L : Lib) (method : SigningMethod) (signingString key : string)
  : Result string :=
  match method with
  | HS256 | HS384 | HS512 => Ok (hmac L method key signingString)
  | asymmetric _ => Err (jwt_Error "key is of invalid type")
  | none => Err (jwt_Error "'none' signature type is not allowed")
  end.

(** [SigningMethod.Verify] with a key of type [[]byte]. *)
Definition Verify (L : Lib) (method : SigningMethod) (signingString sig key : string)
  : option error :=
  match method with
  | HS256 | HS384 | HS512 =>
      if (sig =? hmac L method key signingString)%string then None
      else Some (jwt_Error "signature is invalid")
  | asymmetric _ => Some (jwt_Error "key is of invalid type")
  | none => Some (jwt_Error "'none' signature type is not allowed")
  end.

(** [Token.SignedString] *)
Definition SignedString (L : Lib) (method : SigningMethod) (claims : Claims)
  (key : string) : Result string :=
  let sstr := EncodeSegment (marshalHeader L method) ++ "."
              ++ EncodeSegment (marshalClaims L claims) in
  match Sign L method sstr key with
  | Err err => Err err
  | Ok sig => Ok (sstr ++ "." ++ EncodeSegment sig)
  end.

(** [Validator.Validate] of the default validator: no leeway, [exp] and
    [nbf] checked when present, [iat] not checked. *)
Definition Validate (claims : Claims) : M (option error) :=
  now <- time_Now ;;
  let expired := match ExpiresAt claims with
                 | Some exp => negb (time.Before now exp)
                 | None => false
                 end in
  let early := match NotBefore claims with
               | Some nbf => time.Before now nbf
               | None => false
               end in
  if expired then ret (Some (jwt_Error "token has invalid claims: token is expired"))
  else if early then
    ret (Some (jwt_Error "token has invalid claims: token is not valid yet"))
  else ret None.

(** [ParseWithClaims(tokenString, &Claims{}, keyFunc)] with a key function
    that returns [key]; the result is the claims of a token with
    [Valid = true].  An error value names the step that failed: the library
    appends to it the error of the decoder it called (with the position of
    the offending byte), and joins the failures of [exp] and [nbf] when both
    fail.  The service hands the error on as it is, and the use case looks
    only at whether there is one. *)
Definition ParseWithClaims (L : Lib) (tokenString key : string) : M (Result Claims) :=
  match Split tokenString "."%char with
  | [p0; p1; p2] =>
      match DecodeSegment p0 with
      | None => ret (Err (jwt_Error "token is malformed: could not base64 decode header"))
      | Some headerBytes =>
      match unmarshalHeader L headerBytes with
      | None => ret (Err (jwt_Error "token is malformed: could not JSON decode header"))
      | Some alg =>
      match DecodeSegment p1 with
      | None => ret (Err (jwt_Error "token is malformed: could not base64 decode claim"))
      | Some claimBytes =>
      match unmarshalClaims L claimBytes with
      | None => ret (Err (jwt_Error "token is malformed: could not JSON decode claim"))
      | Some claims =>
      match alg with
      | None => ret (Err (jwt_Error "token is unverifiable: signing method (alg) is unspecified"))
      | Some name =>
      match GetSigningMethod name with
      | None =>
          ret (Err (jwt_Error "token is unverifiable: signing method (alg) is unavailable"))
      | Some method =>
      match DecodeSegment p2 with
      | None =>
          ret (Err (jwt_Error "token is malformed: could not base64 decode signature"))
      | Some sig =>
      match Verify L method (p0 ++ "." ++ p1) sig key with
      | Some err => ret (Err (fmt_Errorf "token signature is invalid" err))
      | None =>
          v <- Validate claims ;;
          match v with
          | Some err => ret (Err err)
          | None => ret (Ok claims)
          end
      end end end end end end end end
  | _ => ret (Err (jwt_Error "token is malformed: token contains an invalid number of segments"))
  end.

End jwt.

(** ** golang.org/x/crypto/bcrypt, as internal/service uses it

    A hash is [$2a$] cost [$] salt (22 digits) digest (31 digits).  The
    Blowfish cipher is a parameter of the model: [cipher cost salt stream]
    is the 24 bytes that the cipher set up at this cost, with this salt and
    this key, makes of the magic text.  The key schedule reads the key as
    18 words of 4 bytes, starting again at the first byte when the key
    ends: the cipher sees the key through the 72 bytes of [keystream]. *)

Module bcrypt.

Definition Blowfish := Z -> string -> string -> string.

Definition alphabet : string :=
  "./ABCDEFGHIJKLMNOPQRSTUVWXYZabcdefghijklmnopqrstuvwxyz0123456789".

Definition MinCost : Z := 4.
Definition MaxCost : Z := 31.
Definition DefaultCost : Z := 10.

Definition majorVersion : ascii := "2"%char.
Definition minorVersion : ascii := "a"%char.
Definition maxSaltSize : nat := 16.
Definition maxCryptedHashSize : nat := 23.
Definition encodedSaltSize : nat := 22.
Definition encodedHashSize : nat := 31.
Definition minHashSize : Z := 59.

(** The error values of the package with a fixed text.  The errors that
    carry a byte or a number in the library (a wrong prefix, version or
    cost) are named here by their kind; [CheckPasswordHash] turns every
    error into [false]. *)
Definition ErrMismatchedHashAndPassword : error :=
  bcrypt_Error "crypto/bcrypt: hashedPassword is not the hash of the given password".
Definition ErrHashTooShort : error :=
  bcrypt_Error "crypto/bcrypt: hashedSecret too short to be a bcrypted password".
Definition ErrPasswordTooLong : error :=
  bcrypt_Error "bcrypt: password length exceeds 72 bytes".

Record hashed := mkHashed {
  hash : string;
  salt : string;
  cost : Z;
  major : ascii;
  minor : ascii      (* the zero byte when the version has no minor part *)
}.

Definition base64Encode (src : string) : string :=
  base64.EncodeToString alphabet src.

(** [base64Decode]: the padding the encoder cut is put back first. *)
Definition base64Decode (src : string) : option string :=
  let numOfEquals := (4 - (String.length src) mod 4)%nat in
  base64.DecodeString alphabet (Some "="%char)
    (src ++ string_of_list_ascii (repeat "="%char numOfEquals)).

(** The first [n] bytes of the key repeated without end. *)
Fixpoint stream (n : nat) (key cur : string) : string :=
  match n with
  | O => EmptyString
  | S n' =>
      match cur with
      | String c rest => String c (stream n' key rest)
      | EmptyString =>
          match key with
          | String c rest => String c (stream n' key rest)
          | EmptyString => EmptyString
          end
      end
  end.

Definition keystream (key : string) : string := stream 72 key key.

Definition checkCost (cost : Z) : option error :=
  if (cost <? MinCost) || (MaxCost <? cost) then Some (bcrypt_Error "invalid cost")
  else None.

(** [copy(dst, src)] into [n] zero bytes. *)
Definition copy (n : nat) (src : string) : string :=
  substring 0 n (src ++ string_of_list_ascii (repeat zero n)).

(** The 23 bytes kept of the 24 the cipher makes (in a buffer of 24); the
    key is the password and a zero byte. *)
Definition digest (cipher : Blowfish) (password : string) (cost : Z) (csalt : string)
  : string :=
  let ckey := password ++ String zero EmptyString in
  let cipherData := copy 24 (cipher cost csalt (keystream ckey)) in
  substring 0 maxCryptedHashSize cipherData.

(** [bcrypt(password, cost, salt)]: the digest, encoded; [salt] is the
    encoded salt. *)
Definition bcrypt (cipher : Blowfish) (password : string) (cost : Z) (salt : string)
  : Result string :=
  match base64Decode salt with
  | None => Err (bcrypt_Error "illegal base64 data")
  | Some csalt => Ok (base64Encode (digest cipher password cost csalt))
  end.

Definition digit10 (v : Z) : ascii := ascii_of_N (Z.to_N (48 + v mod 10)).

(** [fmt.Sprintf("%02d", cost)] for a cost that passed [checkCost]. *)
Definition Sprintf02d (cost : Z) : string :=
  String (digit10 (cost / 10)) (String (digit10 cost) EmptyString).

(** [hashed.Hash] *)
Definition Hash (p : hashed) : string :=
  String "$"%char (String (major p) EmptyString)
  ++ (if Ascii.eqb (minor p) zero then EmptyString else String (minor p) EmptyString)
  ++ "$" ++ Sprintf02d (cost p) ++ "$"
  ++ copy encodedSaltSize (salt p) ++ copy encodedHashSize (hash p).

(** The bytes of a number, the most significant first. *)
Fixpoint bytes_be (n : nat) (v : N) : string :=
  match n with
  | O => EmptyString
  | S n' => String (ascii_of_N ((v / 256 ^ N.of_nat n') mod 256)) (bytes_be n' v)
  end.

(** [newFromPassword] *)
Definition newFromPassword (cipher : Blowfish) (password : string) (cost : Z)
  : M (Result hashed) :=
  let cost := if cost <? MinCost then DefaultCost else cost in
  match checkCost cost with
  | Some err => ret (Err err)
  | None =>
      r <- rand_Read16 ;;
      let unencodedSalt := bytes_be maxSaltSize r in
      let salt := base64Encode unencodedSalt in
      match bcrypt cipher password cost salt with
      | Err err => ret (Err err)
      | Ok hash => ret (Ok (mkHashed hash salt cost majorVersion minorVersion))
      end
  end.

(** [GenerateFromPassword] *)
Definition GenerateFromPassword (cipher : Blowfish) (password : string) (cost : Z)
  : M (Result string) :=
  if 72 <? len password then ret (Err ErrPasswordTooLong)
  else
    p <- newFromPassword cipher password cost ;;
    match p with
    | Err err => ret (Err err)
    | Ok p => ret (Ok (Hash p))
    end.

Definition is_digit (c : ascii) : bool :=
  (48 <=? Z.of_N (N_of_ascii c)) && (Z.of_N (N_of_ascii c) <=? 57).

Definition digit_value (c : ascii) : Z := Z.of_N (N_of_ascii c) - 48.

(** [strconv.Atoi] of two bytes. *)
Definition Atoi2 (c1 c2 : ascii) : option Z :=
  if is_digit c1 && is_digit c2 then Some (10 * digit_value c1 + digit_value c2)
  else if Ascii.eqb c1 "+"%char && is_digit c2 then Some (digit_value c2)
  else if Ascii.eqb c1 "-"%char && is_digit c2 then Some (- digit_value c2)
  else None.

(** [newFromHash]: the version ([decodeVersion]), the cost ([decodeCost]),
    22 bytes of salt, and the rest. *)
Definition newFromHash (hashedSecret : string) : Result hashed :=
  if len hashedSecret <? minHashSize then Err ErrHashTooShort
  else
    match hashedSecret with
    | String s0 (String s1 (String s2 rest)) =>
        if negb (Ascii.eqb s0 "$"%char) then Err (bcrypt_Error "invalid hash prefix")
        else if (Z.of_N (N_of_ascii majorVersion) <? Z.of_N (N_of_ascii s1)) then
          Err (bcrypt_Error "hash version too new")
        else
          let (minor, rest) :=
            if Ascii.eqb s2 "$"%char then (zero, rest)
            else (s2, substring 1 (String.length rest) rest) in
          match rest with
          | String c1 (String c2 (String _ rest)) =>
              match Atoi2 c1 c2 with
              | None => Err (bcrypt_Error "invalid cost syntax")
              | Some cost =>
                  match checkCost cost with
                  | Some err => Err err
                  | None =>
                      Ok (mkHashed
                            (substring encodedSaltSize (String.length rest) rest)
                            (substring 0 encodedSaltSize rest)
                            cost s1 minor)
                  end
              end
          | _ => Err ErrHashTooShort
          end
    | _ => Err ErrHashTooShort
    end.

(** [CompareHashAndPassword] *)
Definition CompareHashAndPassword (cipher : Blowfish) (hashedPassword password : string)
  : option error :=
  match newFromHash hashedPassword with
  | Err err => Some err
  | Ok p =>
      match bcrypt cipher password (cost p) (salt p) with
      | Err err => Some err
      | Ok otherHash =>
          let otherP := mkHashed otherHash (salt p) (cost p) (major p) (minor p) in
          if (Hash p =? Hash otherP)%string then None
          else Some ErrMismatchedHashAndPassword
      end
  end.

End bcrypt.

(** ** The services (internal/service) *)

Module service.

(** *** hashService *)

Definition HashPassword (cipher : bcrypt.Blowfish) (password : string)
  : M (Result string) :=
  r <- bcrypt.GenerateFromPassword cipher password bcrypt.DefaultCost ;;
  match r with
  | Err err => ret (Err err)
  | Ok bytes => ret (Ok bytes)
  end.

Definition CheckPasswordHash (cipher : bcrypt.Blowfish) (password hash : string)
  : M bool :=
  match bcrypt.CompareHashAndPassword cipher hash password with
  | Some _ => ret false
  | None => ret true
  end.

Definition NewHashService (cipher : bcrypt.Blowfish) : HashService.t :=
  HashService.mk (HashPassword cipher) (CheckPasswordHash cipher).

(** *** jwtService *)

Record jwtService := mk { secretKey : string }.

(** The claims [GenerateToken] builds: the clock is read once for each of
    the three dates, in the order of the fields. *)
Definition newClaims (userID : UUID) : M jwt.Claims :=
  t1 <- time_Now ;;
  t2 <- time_Now ;;
  t3 <- time_Now ;;
  ret (jwt.mkClaims userID
         (Some (jwt.NewNumericDate (time.Add t1 (24 * time.Hour))))
         (Some (jwt.NewNumericDate t2))
         (Some (jwt.NewNumericDate t3))).

Definition GenerateToken (L : jwt.Lib) (j : jwtService) (userID : UUID)
  : M (Result string) :=
  claims <- newClaims userID ;;
  match jwt.SignedString L jwt.HS256 claims (secretKey j) with
  | Err err => ret (Err err)
  | Ok signedToken => ret (Ok signedToken)
  end.

(** A parse without error gives a token with [Valid = true], so the test
    of [token.Valid] never fails. *)
Definition ValidateToken (L : jwt.Lib) (j : jwtService) (tokenString : string)
  : M (Result UUID) :=
  r <- jwt.ParseWithClaims L tokenString (secretKey j) ;;
  match r with
  | Err err => ret (Err err)
  | Ok claims => ret (Ok (jwt.UserID claims))
  end.

Definition NewJWTService (L : jwt.Lib) (secretKey : string) : JWTService.t :=
  JWTService.mk (GenerateToken L (mk secretKey)) (ValidateToken L (mk secretKey)).

End service.

(** ** The wiring of the program (main)

    The repositories are those of the PostgreSQL adapter; the token and
    password libraries and the secret of the configuration are parameters. *)

Module main.
Section Wiring.
Variable L : jwt.Lib.
Variable cipher : bcrypt.Blowfish.
Variable secretKey : string.

Definition hashService : HashService.t := service.NewHashService cipher.
Definition jwtService : JWTService.t := service.NewJWTService L secretKey.

Definition userRepo : UserRepository.t := postgres.NewUserRepository.
Definition messageRepo : MessageRepository.t := postgres.NewMessageRepository.
Definition sessionRepo : SessionRepository.t := postgres.NewSessionRepository.

Definition userUsecase : user.userUsecase :=
  user.mk userRepo sessionRepo hashService jwtService.
Definition messageUsecase : message.messageUsecase :=
  message.mk messageRepo userRepo.
Definition sessionUsecase : session.sessionUsecase :=
  session.mk sessionRepo jwtService.
End Wiring.
End main.


(** ** Sample data

    Stand-ins for the parts the models take as parameters, and small worlds
    on which the code is run.  The stand-ins are not the real primitives:
    the statements about the code hold for every [jwt.Lib] and every
    [bcrypt.Blowfish], and these only show them at work. *)

Module sample.

Definition decimal (z : Z) : string := DecimalString.NilZero.string_of_int (Z.to_int z).

Definition parse_decimal (s : string) : option Z :=
  match DecimalString.NilZero.int_of_string s with
  | Some i => Some (Z.of_int i)
  | None => None
  end.

Definition decimal_opt (t : option Time) : string :=
  match t with
  | Some z => decimal z
  | None => "null"
  end.

Definition parse_decimal_opt (s : string) : option (option Time) :=
  if (s =? "null")%string then Some None
  else match parse_decimal s with
       | Some z => Some (Some z)
       | None => None
       end.

Definition alg_name (m : jwt.SigningMethod) : string :=
  match m with
  | jwt.HS256 => "HS256"
  | jwt.HS384 => "HS384"
  | jwt.HS512 => "HS512"
  | jwt.asymmetric alg => alg
  | jwt.none => "none"
  end.

Definition marshalClaims (c : jwt.Claims) : string :=
  decimal (Z.of_N (jwt.UserID c)) ++ "," ++ decimal_opt (jwt.ExpiresAt c) ++ ","
  ++ decimal_opt (jwt.NotBefore c) ++ "," ++ decimal_opt (jwt.IssuedAt c).

Definition unmarshalClaims (s : string) : option jwt.Claims :=
  match jwt.Split s ","%char with
  | [u; e; n; i] =>
      match parse_decimal u, parse_decimal_opt e, parse_decimal_opt n, parse_decimal_opt i with
      | Some u, Some e, Some n, Some i => Some (jwt.mkClaims (Z.to_N u) e i n)
      | _, _, _, _ => None
      end
  | _ => None
  end.

(** A keyed checksum of 32 bytes. *)
Definition checksum (s : string) : N :=
  fold_left (fun acc c => ((acc * 257 + N_of_ascii c) mod 2 ^ 256)%N)
    (list_ascii_of_string s) 7%N.

Definition hmac (m : jwt.SigningMethod) (key message : string) : string :=
  bcrypt.bytes_be 32 (checksum (alg_name m ++ "/" ++ key ++ "/" ++ message)).

Definition lib : jwt.Lib :=
  jwt.mkLib hmac alg_name (fun s => Some (Some s)) marshalClaims unmarshalClaims.

Definition cipher : bcrypt.Blowfish :=
  fun cost salt stream =>
    bcrypt.bytes_be 24 (checksum (salt ++ stream) + Z.to_N cost).

Definition jwtService : JWTService.t := service.NewJWTService lib "secret".
Definition hashService : HashService.t := service.NewHashService cipher.

Definition sessionUsecase : session.sessionUsecase :=
  session.mk postgres.NewSessionRepository jwtService.

Definition userUsecase : user.userUsecase :=
  user.mk postgres.NewUserRepository postgres.NewSessionRepository hashService jwtService.

Definition alice : User.t := User.mk 1%N "alice" "alice@x.com" "" 0 0.

(** A session of alice that expires at 100. *)
Definition expiring : Session.t := Session.mk 11%N 1%N "tok" 100 0.

(** The clock reads 60, 70 and 80 during the lookup and 130 after it. *)
Definition world_expiring : World :=
  mkWorld (mkDatabase [alice] [expiring] []) 50 [10; 10; 10; 50]%N [] [].

(** The clock reads 110 already when the lookup starts. *)
Definition world_expired : World :=
  mkWorld (mkDatabase [alice] [expiring] []) 110 [] [] [].

Definition world_empty : World :=
  mkWorld (mkDatabase [] [] []) 0 [] [] [].

(** The world after alice registered with the secret "secret123". *)
Definition world_alice : World :=
  snd (user.Register userUsecase "alice" "alice@x.com" "secret123"
         (mkWorld (mkDatabase [] [] []) 0 [] [] [77%N; 12345%N])).

(** A secret of 72 bytes. *)
Definition secret72 : string :=
  "aaaaaaaaaaaaaaaaaaaaaaaaaaaaaaaaaaaaaaaaaaaaaaaaaaaaaaaaaaaaaaaaaaaaaaaa".

Definition bob : User.t := User.mk 2%N "bob" "bob@x.com" "" 0 0.

(** Two messages of alice and one of bob, written at 5, 7 and 6. *)
Definition hello : Message.t := Message.mk 21%N 1%N "hello" 5 5.
Definition again : Message.t := Message.mk 22%N 1%N "hello again" 7 7.
Definition hi : Message.t := Message.mk 23%N 2%N "hi" 6 6.

Definition world_chat : World :=
  mkWorld (mkDatabase [alice; bob] [] [hello; hi; again]) 10 [1; 1; 1; 1; 1; 1]%N [] [99%N].

(** A session of bob, and the tables of alice and bob with their sessions
    and messages. *)
Definition bobs : Session.t := Session.mk 12%N 2%N "tok2" 100 0.

Definition world_two : World :=
  mkWorld (mkDatabase [alice; bob] [expiring; bobs] [hello; hi; again]) 10 [] [] [].

End sample.


(** * Properties *)

(** ** The clock and the tables under the statements of the adapter *)

Ltac run := unfold bind, ret, time_Now, next_fault, get_db, put_db in *; cbn [fst snd db clock ticks faults entropy] in *.

Lemma time_Now_clock (w : World) :
  clock w <= fst (time_Now w) /\ clock (snd (time_Now w)) = fst (time_Now w).
Proof. unfold time_Now; cbn. lia. Qed.

(** What one [QueryRow] does to the world. *)
Lemma QueryRow_spec (A : Type) (q : Database -> Result A * Database) (w : World) :
  let w' := snd (postgres.QueryRow q w) in
  fst (postgres.QueryRow q w) =
    (if hd false (faults w) then Err postgres.driver_failure else fst (q (db w)))
  /\ db w' = (if hd false (faults w) then db w else snd (q (db w)))
  /\ clock w' = clock w + Z.of_N (hd 0%N (ticks w)) + Z.of_N (hd 0%N (tl (ticks w)))
  /\ ticks w' = tl (tl (ticks w))
  /\ faults w' = tl (faults w)
  /\ entropy w' = entropy w.
Proof.
  unfold postgres.QueryRow. run.
  destruct (hd false (faults w)); cbn; [repeat split; reflexivity|].
  destruct (q (db w)) as [r d']; cbn. repeat split; reflexivity.
Qed.

(** The session a token selects in the table. *)
Lemma select_session_by_token_spec (token : string) (d : Database) :
  snd (sql.select_session_by_token token d) = d
  /\ fst (sql.select_session_by_token token d) =
       match find (fun s => (Session.Token s =? token)%string) (sessions d) with
       | Some s => Ok s
       | None => Err pgx_ErrNoRows
       end.
Proof.
  unfold sql.select_session_by_token.
  destruct (find _ (sessions d)); split; reflexivity.
Qed.

(** [sessionRepo.GetByToken] returns a session only when the statement went
    through, the table holds it, and it had not expired at the reading of
    the clock the repository makes, which is the last one so far. *)
Lemma GetByToken_Ok (token : string) (w w' : World) (sess : Session.t) :
  postgres.sessionRepo.GetByToken token w = (Ok sess, w') ->
  token <> ""
  /\ hd false (faults w) = false
  /\ find (fun s => (Session.Token s =? token)%string) (sessions (db w)) = Some sess
  /\ clock w' <= Session.ExpiresAt sess
  /\ db w' = db w
  /\ clock w' = clock w + Z.of_N (nth 0 (ticks w) 0%N) + Z.of_N (nth 1 (ticks w) 0%N)
               + Z.of_N (nth 2 (ticks w) 0%N)
  /\ ticks w' = tl (tl (tl (ticks w)))
  /\ faults w' = tl (faults w)
  /\ entropy w' = entropy w.
Proof.
  unfold postgres.sessionRepo.GetByToken.
  destruct (token =? "")%string eqn:Htok; [discriminate|].
  apply String.eqb_neq in Htok.
  unfold bind at 1.
  pose proof (QueryRow_spec (sql.select_session_by_token token) w) as Q.
  destruct (postgres.QueryRow (sql.select_session_by_token token) w) as [r w1].
  cbn [fst snd] in Q. destruct Q as (Hr & Hdb & Hclock & Hticks & Hfaults & Hent).
  destruct (select_session_by_token_spec token (db w)) as [Hsnd Hfst].
  rewrite Hsnd in Hdb. rewrite Hfst in Hr.
  destruct (hd false (faults w)) eqn:Hf.
  { subst r. cbn. discriminate. }
  destruct (find _ (sessions (db w))) as [s|] eqn:Hfind; subst r;
    [|cbn; discriminate].
  run.
  destruct (time.Before (Session.ExpiresAt s) (clock w1 + Z.of_N (hd 0%N (ticks w1))))
    eqn:Hb; intros H; inversion H; subst; clear H.
  unfold time.Before in Hb. apply Z.ltb_ge in Hb. cbn.
  rewrite Hclock, Hticks in *.
  destruct (ticks w) as [|a [|b [|c l]]]; cbn in *; repeat split; auto; lia.
Qed.

(** A lookup never changes the tables. *)
Lemma GetByToken_db (token : string) (w : World) :
  db (snd (postgres.sessionRepo.GetByToken token w)) = db w.
Proof.
  unfold postgres.sessionRepo.GetByToken.
  destruct (token =? "")%string; [reflexivity|].
  unfold bind at 1.
  pose proof (QueryRow_spec (sql.select_session_by_token token) w) as Q.
  destruct (postgres.QueryRow (sql.select_session_by_token token) w) as [r w1].
  cbn [fst snd] in Q. destruct Q as (Hr & Hdb & _).
  destruct (select_session_by_token_spec token (db w)) as [Hsnd _].
  rewrite Hsnd in Hdb.
  assert (Hdb' : db w1 = db w) by (destruct (hd false (faults w)); exact Hdb).
  destruct r as [s|e].
  - run. destruct (time.Before _ _); cbn; exact Hdb'.
  - destruct e; cbn; exact Hdb'.
Qed.

(** The clock only moves forward during a lookup. *)
Lemma GetByToken_clock (token : string) (w : World) :
  clock w <= clock (snd (postgres.sessionRepo.GetByToken token w)).
Proof.
  unfold postgres.sessionRepo.GetByToken.
  destruct (token =? "")%string; [cbn; lia|].
  unfold bind at 1.
  pose proof (QueryRow_spec (sql.select_session_by_token token) w) as Q.
  destruct (postgres.QueryRow (sql.select_session_by_token token) w) as [r w1].
  cbn [fst snd] in Q. destruct Q as (_ & _ & Hclock & _).
  destruct r as [s|e].
  - run. destruct (time.Before _ _); cbn; lia.
  - destruct e; cbn; lia.
Qed.

(** A session of the table that has expired is not returned. *)
Lemma GetByToken_expired (token : string) (w : World) (sess : Session.t) :
  find (fun s => (Session.Token s =? token)%string) (sessions (db w)) = Some sess ->
  Session.ExpiresAt sess < clock w ->
  exists e, fst (postgres.sessionRepo.GetByToken token w) = Err e.
Proof.
  intros Hfind Hexp.
  destruct (postgres.sessionRepo.GetByToken token w) as [[s|e] w'] eqn:H.
  - apply GetByToken_Ok in H. destruct H as (_ & _ & Hf & Hle & _ & Hc & _).
    rewrite Hfind in Hf. inversion Hf; subst. lia.
  - now exists e.
Qed.

Lemma find_filter_negb (A : Type) (p : A -> bool) (l : list A) :
  find p (filter (fun x => negb (p x)) l) = None.
Proof.
  induction l as [|x l IH]; cbn; [reflexivity|].
  destruct (p x) eqn:Hp; cbn; [exact IH|]. now rewrite Hp.
Qed.

(** [sessionRepo.DeleteByToken] when the round trip goes through: no session
    with the token is left, and the error tells whether there was one. *)
Lemma DeleteByToken_spec (token : string) (w : World) :
  token <> "" -> hd false (faults w) = false ->
  let w' := snd (postgres.sessionRepo.DeleteByToken token w) in
  find (fun s => (Session.Token s =? token)%string) (sessions (db w')) = None
  /\ fst (postgres.sessionRepo.DeleteByToken token w) =
       match find (fun s => (Session.Token s =? token)%string) (sessions (db w)) with
       | Some _ => None
       | None => Some (postgres_NotFoundError "session not found")
       end
  /\ (find (fun s => (Session.Token s =? token)%string) (sessions (db w)) = None ->
      db w' = db w).
Proof.
  intros Htok Hf. unfold postgres.sessionRepo.DeleteByToken.
  apply String.eqb_neq in Htok. rewrite Htok.
  unfold bind.
  pose proof (QueryRow_spec (sql.delete_session_by_token token) w) as Q.
  destruct (postgres.QueryRow (sql.delete_session_by_token token) w) as [r w1].
  cbn [fst snd] in Q. destruct Q as (Hr & Hdb & _).
  rewrite Hf in Hr, Hdb. unfold sql.delete_session_by_token in Hr, Hdb.
  destruct (find _ (sessions (db w))) as [s|] eqn:Hfind; cbn in Hr, Hdb; subst r; cbn.
  - rewrite Hdb. cbn. split; [apply find_filter_negb|]. split; [reflexivity|discriminate].
  - rewrite Hdb. auto.
Qed.

(** The checks of [ValidateSession], in their order, whatever the store and
    the token service are. *)
Lemma ValidateSession_cases (s : session.sessionUsecase) (token : string) (w : World) :
  let (r, w1) := SessionRepository.GetByToken (session.sessionRepo s) token w in
  match r with
  | Err _ =>
      session.ValidateSession s token w =
        (Err (session_BusinessError "invalid session"), w1)
  | Ok sess =>
      let (now, w2) := time_Now w1 in
      if time.Before (Session.ExpiresAt sess) now then
        session.ValidateSession s token w =
          (Err (session_BusinessError "session expired"),
           snd (SessionRepository.DeleteByToken (session.sessionRepo s) token w2))
      else
        let (v, w3) := JWTService.ValidateToken (session.jwtService s) token w2 in
        match v with
        | Err _ =>
            session.ValidateSession s token w =
              (Err (session_BusinessError "invalid token"), w3)
        | Ok userID =>
            if uuid.eqb userID (Session.UserID sess) then
              session.ValidateSession s token w = (Ok sess, w3)
            else
              session.ValidateSession s token w =
                (Err (session_BusinessError "token mismatch"), w3)
        end
  end.
Proof.
  unfold session.ValidateSession, bind, ret.
  destruct (SessionRepository.GetByToken (session.sessionRepo s) token w) as [[sess|e] w1];
    [|reflexivity].
  destruct (time_Now w1) as [now w2].
  destruct (time.Before (Session.ExpiresAt sess) now).
  - destruct (SessionRepository.DeleteByToken (session.sessionRepo s) token w2);
      reflexivity.
  - destruct (JWTService.ValidateToken (session.jwtService s) token w2) as [[uid|e] w3];
      [|reflexivity].
    destruct (uuid.eqb uid (Session.UserID sess)); reflexivity.
Qed.

(** On the PostgreSQL store, a call that ends in "session expired" has taken
    the session out of the table, provided the delete statement went
    through. *)
Lemma ValidateSession_evicts (j : JWTService.t) (token : string) (w w' : World) :
  session.ValidateSession (session.mk postgres.NewSessionRepository j) token w =
    (Err (session_BusinessError "session expired"), w') ->
  nth 1 (faults w) false = false ->
  find (fun x => (Session.Token x =? token)%string) (sessions (db w')) = None.
Proof.
  intros H Hf.
  pose proof (ValidateSession_cases (session.mk postgres.NewSessionRepository j) token w) as C.
  cbn [session.sessionRepo session.jwtService SessionRepository.GetByToken
       SessionRepository.DeleteByToken postgres.NewSessionRepository] in C.
  destruct (postgres.sessionRepo.GetByToken token w) as [[sess|e] w1] eqn:HG.
  - apply GetByToken_Ok in HG.
    destruct HG as (Htok & _ & _ & _ & _ & _ & _ & Hfaults & _).
    destruct (time_Now w1) as [now w2] eqn:HN.
    assert (Hf2 : hd false (faults w2) = false).
    { unfold time_Now in HN. inversion HN; subst; cbn. rewrite Hfaults.
      destruct (faults w) as [|a [|b l]]; cbn in *; auto. }
    destruct (time.Before (Session.ExpiresAt sess) now).
    + rewrite C in H. inversion H; subst.
      apply DeleteByToken_spec; assumption.
    + destruct (JWTService.ValidateToken j token w2) as [[uid|e] w3].
      * destruct (uuid.eqb uid (Session.UserID sess)); rewrite C in H; discriminate.
      * rewrite C in H; discriminate.
  - rewrite C in H. discriminate.
Qed.

(** A token that selects no session is reported as not found by the store. *)
Lemma GetByToken_absent (token : string) (w : World) :
  token <> "" -> hd false (faults w) = false ->
  find (fun x => (Session.Token x =? token)%string) (sessions (db w)) = None ->
  fst (postgres.sessionRepo.GetByToken token w) =
    Err (postgres_NotFoundError "session not found").
Proof.
  intros Htok Hf Hfind. unfold postgres.sessionRepo.GetByToken.
  apply String.eqb_neq in Htok. rewrite Htok.
  unfold bind at 1.
  pose proof (QueryRow_spec (sql.select_session_by_token token) w) as Q.
  destruct (postgres.QueryRow (sql.select_session_by_token token) w) as [r w1].
  cbn [fst snd] in Q. destruct Q as (Hr & _).
  rewrite Hf in Hr. destruct (select_session_by_token_spec token (db w)) as [_ Hfst].
  rewrite Hfst, Hfind in Hr. subst r. reflexivity.
Qed.

(** Every failure of [ValidateSession] is one of four. *)
Lemma ValidateSession_failures (s : session.sessionUsecase) (token : string)
  (w : World) (e : error) :
  fst (session.ValidateSession s token w) = Err e ->
  e = session_BusinessError "invalid session"
  \/ e = session_BusinessError "session expired"
  \/ e = session_BusinessError "invalid token"
  \/ e = session_BusinessError "token mismatch".
Proof.
  pose proof (ValidateSession_cases s token w) as C.
  destruct (SessionRepository.GetByToken (session.sessionRepo s) token w) as [[sess|e'] w1].
  - destruct (time_Now w1) as [now w2].
    destruct (time.Before (Session.ExpiresAt sess) now).
    + rewrite C. cbn. intros H. inversion H. auto.
    + destruct (JWTService.ValidateToken (session.jwtService s) token w2) as [[uid|e''] w3].
      * destruct (uuid.eqb uid (Session.UserID sess)); rewrite C; cbn;
          intros H; inversion H; auto.
      * rewrite C. cbn. intros H. inversion H. auto.
  - rewrite C. cbn. intros H. inversion H. auto.
Qed.

(** C1. [ValidateSession] makes its checks in this order, each with its own
    failure: the lookup of the token in the store (any error of the store
    gives "invalid session"); the expiry of the stored session against the
    clock (an expired session is deleted by token and the call fails with
    "session expired"); the verification of the token (failure gives
    "invalid token"); the comparison of the verified subject with the
    subject of the session (a difference gives "token mismatch"); when all
    pass, the stored session is returned.  On the PostgreSQL store, when the
    delete statement goes through, no session with the token is left after
    "session expired", and a later lookup of the token answers "session not
    found".  There is no other failure than these four. *)
Theorem ValidateSession_checks_in_order
  (s : session.sessionUsecase) (token : string) (w : World) :
  (let (r, w1) := SessionRepository.GetByToken (session.sessionRepo s) token w in
   match r with
   | Err _ =>
       session.ValidateSession s token w =
         (Err (session_BusinessError "invalid session"), w1)
   | Ok sess =>
       let (now, w2) := time_Now w1 in
       if time.Before (Session.ExpiresAt sess) now then
         session.ValidateSession s token w =
           (Err (session_BusinessError "session expired"),
            snd (SessionRepository.DeleteByToken (session.sessionRepo s) token w2))
       else
         let (v, w3) := JWTService.ValidateToken (session.jwtService s) token w2 in
         match v with
         | Err _ =>
             session.ValidateSession s token w =
               (Err (session_BusinessError "invalid token"), w3)
         | Ok userID =>
             if uuid.eqb userID (Session.UserID sess) then
               session.ValidateSession s token w = (Ok sess, w3)
             else
               session.ValidateSession s token w =
                 (Err (session_BusinessError "token mismatch"), w3)
         end
   end)
  /\ (session.sessionRepo s = postgres.NewSessionRepository ->
      nth 1 (faults w) false = false ->
      forall w' : World,
        session.ValidateSession s token w =
          (Err (session_BusinessError "session expired"), w') ->
        find (fun x => (Session.Token x =? token)%string) (sessions (db w')) = None
        /\ forall w'' : World,
             db w'' = db w' -> hd false (faults w'') = false ->
             fst (postgres.sessionRepo.GetByToken token w'') =
               Err (postgres_NotFoundError "session not found"))
  /\ (forall e : error,
         fst (session.ValidateSession s token w) = Err e ->
         e = session_BusinessError "invalid session"
         \/ e = session_BusinessError "session expired"
         \/ e = session_BusinessError "invalid token"
         \/ e = session_BusinessError "token mismatch").
Proof.
  split; [exact (ValidateSession_cases s token w)|].
  split; [|apply ValidateSession_failures].
  intros Hrepo Hf w' H.
  destruct s as [repo j]. cbn in Hrepo. subst repo.
  assert (Hnone : find (fun x => (Session.Token x =? token)%string)
                    (sessions (db w')) = None)
    by (eapply ValidateSession_evicts; eassumption).
  split; [exact Hnone|].
  intros w'' Hdb Hf''.
  assert (Htok : token <> "").
  { intros ->. cbn in H. discriminate. }
  apply GetByToken_absent; [exact Htok|exact Hf''|]. now rewrite Hdb.
Qed.

(** The session of [sample.world_expiring] expires between the reading of
    the store and that of the use case: it is evicted. *)
Lemma ValidateSession_checks_in_order_witness :
  fst (session.ValidateSession sample.sessionUsecase "tok" sample.world_expiring) =
    Err (session_BusinessError "session expired")
  /\ fst (postgres.sessionRepo.GetByToken "tok"
            (snd (session.ValidateSession sample.sessionUsecase "tok"
                    sample.world_expiring))) =
       Err (postgres_NotFoundError "session not found").
Proof.
  split; [vm_compute; reflexivity|].
  assert (E : session.ValidateSession sample.sessionUsecase "tok" sample.world_expiring =
              (Err (session_BusinessError "session expired"),
               snd (session.ValidateSession sample.sessionUsecase "tok"
                      sample.world_expiring)))
    by (vm_compute; reflexivity).
  exact (proj2 (proj1 (proj2 (ValidateSession_checks_in_order sample.sessionUsecase
                                "tok" sample.world_expiring)) eq_refl eq_refl _ E)
           _ eq_refl eq_refl).
Defined.

(** [DeleteSession] hands back what the store answers. *)
Lemma DeleteSession_is_DeleteByToken (s : session.sessionUsecase) (token : string)
  (w : World) :
  session.DeleteSession s token w =
    SessionRepository.DeleteByToken (session.sessionRepo s) token w.
Proof.
  unfold session.DeleteSession, bind, ret.
  destruct (SessionRepository.DeleteByToken (session.sessionRepo s) token w) as [[e|] w'];
    reflexivity.
Qed.

(** The logout handler answers 200 whatever the deletion returned. *)
Lemma Logout_ignores_error (s : session.sessionUsecase) (userID : UUID)
  (authHeader : string) (w : World) :
  fst (handler.Logout s (Some userID) authHeader w) =
    handler.SendSuccess "Logged out successfully" 200.
Proof.
  unfold handler.Logout, bind, ret.
  destruct (negb _ && negb _); [|reflexivity].
  destruct (session.DeleteSession s _ w); reflexivity.
Qed.

(** C4, as the claim states it, fails: deleting a token that has no session
    is an error of [DeleteSession] on the PostgreSQL store. *)
Lemma DeleteSession_absent_is_error :
  fst (session.DeleteSession sample.sessionUsecase "tok" sample.world_empty) =
    Some (postgres_NotFoundError "session not found").
Proof. vm_compute. reflexivity. Qed.

(** C4, amended. [DeleteSession] returns the answer of the store unchanged,
    on every store: for a token without a session the PostgreSQL store
    answers "session not found" and leaves the tables as they are, and this
    error is the result of [DeleteSession].  The error is dropped one layer
    up: the logout handler answers 200 whatever [DeleteSession] returned. *)
Theorem DeleteSession_propagates_not_found
  (s : session.sessionUsecase) (token : string) (w : World) :
  session.DeleteSession s token w =
    SessionRepository.DeleteByToken (session.sessionRepo s) token w
  /\ (session.sessionRepo s = postgres.NewSessionRepository ->
      token <> "" -> hd false (faults w) = false ->
      find (fun x => (Session.Token x =? token)%string) (sessions (db w)) = None ->
      fst (session.DeleteSession s token w) =
        Some (postgres_NotFoundError "session not found")
      /\ db (snd (session.DeleteSession s token w)) = db w)
  /\ (forall (userID : UUID) (authHeader : string),
        fst (handler.Logout s (Some userID) authHeader w) =
          handler.SendSuccess "Logged out successfully" 200).
Proof.
  split; [apply DeleteSession_is_DeleteByToken|].
  split; [|intros; apply Logout_ignores_error].
  intros Hrepo Htok Hf Hfind.
  rewrite DeleteSession_is_DeleteByToken, Hrepo. cbn.
  destruct (@DeleteByToken_spec token w Htok Hf) as (_ & Hr & Hdb).
  rewrite Hr, Hfind. split; [reflexivity|]. now apply Hdb.
Qed.

Lemma DeleteSession_propagates_not_found_witness :
  fst (session.DeleteSession sample.sessionUsecase "gone" sample.world_expired) =
    Some (postgres_NotFoundError "session not found")
  /\ db (snd (session.DeleteSession sample.sessionUsecase "gone" sample.world_expired)) =
       db sample.world_expired.
Proof.
  apply (proj1 (proj2 (DeleteSession_propagates_not_found sample.sessionUsecase "gone"
                         sample.world_expired))).
  - reflexivity.
  - discriminate.
  - reflexivity.
  - reflexivity.
Defined.

(** [sessionRepo.GetByUserID] returns a session only if it had not expired
    at the reading of the clock the repository makes. *)
Lemma GetByUserID_Ok (userID : UUID) (w w' : World) (sess : Session.t) :
  postgres.sessionRepo.GetByUserID userID w = (Ok sess, w') ->
  clock w' <= Session.ExpiresAt sess
  /\ clock w' = clock w + Z.of_N (nth 0 (ticks w) 0%N) + Z.of_N (nth 1 (ticks w) 0%N)
               + Z.of_N (nth 2 (ticks w) 0%N).
Proof.
  unfold postgres.sessionRepo.GetByUserID.
  destruct (uuid.eqb userID uuid.Nil); [discriminate|].
  unfold bind at 1.
  pose proof (QueryRow_spec (sql.select_session_by_user userID) w) as Q.
  destruct (postgres.QueryRow (sql.select_session_by_user userID) w) as [r w1].
  cbn [fst snd] in Q. destruct Q as (_ & _ & Hclock & Hticks & _).
  destruct r as [s|e]; [|destruct e; discriminate].
  run.
  destruct (time.Before (Session.ExpiresAt s) (clock w1 + Z.of_N (hd 0%N (ticks w1))))
    eqn:Hb; intros H; inversion H; subst; clear H.
  unfold time.Before in Hb. apply Z.ltb_ge in Hb. cbn.
  rewrite Hclock, Hticks in *.
  destruct (ticks w) as [|a [|b [|c l]]]; cbn in *; split; lia.
Qed.

(** C10, as the claim states it, fails: on the PostgreSQL store the expiry
    branch of [ValidateSession] is taken, and the session evicted, when the
    session expires between the reading of the clock by the store (80 here,
    for an expiry at 100) and the later reading by [ValidateSession] (130). *)
Lemma expiry_branch_reached_through_postgres :
  session.ValidateSession sample.sessionUsecase "tok" sample.world_expiring =
    (Err (session_BusinessError "session expired"),
     mkWorld (mkDatabase [sample.alice] [] []) 130 [] [] []).
Proof. vm_compute. reflexivity. Qed.

(** C10, amended.  [GetByToken] and [GetByUserID] of the PostgreSQL store
    never return a session that has expired at the time the store reads the
    clock ([clock w'], the last reading when they return).  So a session
    that has already expired when [ValidateSession] is called is reported
    on the lookup-failure path ("invalid session") and is not evicted.  The
    expiry branch of [ValidateSession] is taken through this store only for
    a session that expires between the reading of the store and the later
    reading of [ValidateSession]: never when the clock does not move
    between the two. *)
Theorem postgres_store_hides_expired_sessions :
  (forall token w w' sess,
      postgres.sessionRepo.GetByToken token w = (Ok sess, w') ->
      time.Before (Session.ExpiresAt sess) (clock w') = false)
  /\ (forall userID w w' sess,
         postgres.sessionRepo.GetByUserID userID w = (Ok sess, w') ->
         time.Before (Session.ExpiresAt sess) (clock w') = false)
  /\ (forall j token w sess,
         find (fun x => (Session.Token x =? token)%string) (sessions (db w)) = Some sess ->
         time.Before (Session.ExpiresAt sess) (clock w) = true ->
         fst (session.ValidateSession (session.mk postgres.NewSessionRepository j) token w) =
           Err (session_BusinessError "invalid session")
         /\ db (snd (session.ValidateSession
                       (session.mk postgres.NewSessionRepository j) token w)) = db w)
  /\ (forall j token w w',
         session.ValidateSession (session.mk postgres.NewSessionRepository j) token w =
           (Err (session_BusinessError "session expired"), w') ->
         exists sess,
           find (fun x => (Session.Token x =? token)%string) (sessions (db w)) = Some sess
           /\ let read_by_store :=
                clock w + Z.of_N (nth 0 (ticks w) 0%N) + Z.of_N (nth 1 (ticks w) 0%N)
                + Z.of_N (nth 2 (ticks w) 0%N) in
              read_by_store <= Session.ExpiresAt sess
                < read_by_store + Z.of_N (nth 3 (ticks w) 0%N)).
Proof.
  split; [|split; [|split]].
  - intros token w w' sess H. apply GetByToken_Ok in H.
    unfold time.Before. apply Z.ltb_ge. tauto.
  - intros userID w w' sess H. apply GetByUserID_Ok in H.
    unfold time.Before. apply Z.ltb_ge. tauto.
  - intros j token w sess Hfind Hexp.
    unfold time.Before in Hexp. apply Z.ltb_lt in Hexp.
    destruct (GetByToken_expired token w Hfind Hexp) as [e He].
    pose proof (ValidateSession_cases (session.mk postgres.NewSessionRepository j) token w) as C.
    cbn [session.sessionRepo session.jwtService SessionRepository.GetByToken
         postgres.NewSessionRepository] in C.
    pose proof (GetByToken_db token w) as Hdb.
    destruct (postgres.sessionRepo.GetByToken token w) as [r w1].
    cbn in He, Hdb. subst r. rewrite C. cbn. auto.
  - intros j token w w' H.
    pose proof (ValidateSession_cases (session.mk postgres.NewSessionRepository j) token w) as C.
    cbn [session.sessionRepo session.jwtService SessionRepository.GetByToken
         SessionRepository.DeleteByToken postgres.NewSessionRepository] in C.
    destruct (postgres.sessionRepo.GetByToken token w) as [[sess|e] w1] eqn:HG;
      [|rewrite C in H; discriminate].
    apply GetByToken_Ok in HG.
    destruct HG as (_ & _ & Hfind & Hle & _ & Hclock & Hticks & _).
    exists sess. split; [exact Hfind|].
    unfold time_Now in C.
    destruct (time.Before (Session.ExpiresAt sess) (clock w1 + Z.of_N (hd 0%N (ticks w1))))
      eqn:Hb.
    + unfold time.Before in Hb. apply Z.ltb_lt in Hb. cbv zeta.
      rewrite Hticks in Hb. rewrite <- Hclock.
      replace (nth 3 (ticks w) 0%N) with (hd 0%N (tl (tl (tl (ticks w)))))
        by (destruct (ticks w) as [|a [|b [|c [|d l]]]]; reflexivity).
      lia.
    + destruct (JWTService.ValidateToken j token _) as [[uid|e] w3].
      * destruct (uuid.eqb uid (Session.UserID sess)); rewrite C in H; discriminate.
      * rewrite C in H; discriminate.
Qed.

(** The session of [sample.world_expired] has expired before the call. *)
Lemma postgres_store_hides_expired_sessions_witness :
  fst (session.ValidateSession sample.sessionUsecase "tok" sample.world_expired) =
    Err (session_BusinessError "invalid session")
  /\ db (snd (session.ValidateSession sample.sessionUsecase "tok" sample.world_expired)) =
       db sample.world_expired.
Proof.
  apply (proj1 (proj2 (proj2 postgres_store_hides_expired_sessions))
           sample.jwtService "tok" sample.world_expired sample.expiring).
  - reflexivity.
  - reflexivity.
Defined.


(** ** Accounts *)

Lemma GetByUserID_db (userID : UUID) (w : World) :
  db (snd (postgres.sessionRepo.GetByUserID userID w)) = db w.
Proof.
  unfold postgres.sessionRepo.GetByUserID.
  destruct (uuid.eqb userID uuid.Nil); [reflexivity|].
  unfold postgres.QueryRow, sql.select_session_by_user, bind, ret, time_Now,
    next_fault, get_db, put_db.
  destruct w as [d c t f e]; cbn.
  destruct (hd false f); cbn; [reflexivity|].
  destruct (sql.newest _); cbn; [|destruct d; reflexivity].
  destruct (time.Before _ _); cbn; destruct d; reflexivity.
Qed.

Lemma filter_idem (A : Type) (p : A -> bool) (l : list A) :
  filter p (filter p l) = filter p l.
Proof.
  induction l as [|x l IH]; cbn; [reflexivity|].
  destruct (p x) eqn:Hp; cbn; [rewrite Hp, IH; reflexivity|exact IH].
Qed.

(** [userRepo.Delete] either commits the removal of the account with its
    sessions and messages, or leaves the tables as they were. *)
Lemma userRepo_Delete_spec (id : UUID) (w : World) :
  match fst (postgres.userRepo.Delete id w) with
  | None =>
      db (snd (postgres.userRepo.Delete id w)) =
        mkDatabase
          (filter (fun u => negb (uuid.eqb (User.ID u) id)) (users (db w)))
          (filter (fun s => negb (uuid.eqb (Session.UserID s) id)) (sessions (db w)))
          (filter (fun m => negb (uuid.eqb (Message.UserID m) id)) (messages (db w)))
  | Some _ => db (snd (postgres.userRepo.Delete id w)) = db w
  end.
Proof.
  unfold postgres.userRepo.Delete.
  destruct (uuid.eqb id uuid.Nil); [reflexivity|].
  unfold postgres.BeginTx, postgres.ExecTx, postgres.QueryRowTx, postgres.Commit,
    postgres.Rollback, bind, ret, time_Now, next_fault, get_db, put_db.
  destruct w as [d c t f e]; cbn.
  destruct (hd false f); cbn; [reflexivity|].
  destruct (hd false (tl f)); cbn; [reflexivity|].
  destruct (hd false (tl (tl f))); cbn; [reflexivity|].
  destruct (hd false (tl (tl (tl f)))); cbn; [reflexivity|].
  unfold sql.delete_user_by_id; cbn.
  destruct (find _ _); cbn; [|reflexivity].
  destruct (hd false (tl (tl (tl (tl f))))); cbn; [reflexivity|].
  now rewrite !filter_idem.
Qed.

(** A lookup of the sessions of a user is one round trip. *)
Lemma GetByUserID_faults (userID : UUID) (w : World) :
  userID <> uuid.Nil ->
  faults (snd (postgres.sessionRepo.GetByUserID userID w)) = tl (faults w).
Proof.
  intros Hid. unfold postgres.sessionRepo.GetByUserID.
  destruct (uuid.eqb userID uuid.Nil) eqn:E; [apply N.eqb_eq in E; contradiction|].
  unfold postgres.QueryRow, sql.select_session_by_user, bind, ret, time_Now,
    next_fault, get_db, put_db.
  destruct w as [d c t f e]; cbn.
  destruct (hd false f); cbn; [reflexivity|].
  destruct (sql.newest _); cbn; [|reflexivity].
  destruct (time.Before _ _); reflexivity.
Qed.

(** [userRepo.Delete] goes through when the account is in the table and
    none of its five round trips (begin, three statements, commit) fails. *)
Lemma userRepo_Delete_progress (id : UUID) (w : World) :
  id <> uuid.Nil ->
  (exists x, In x (users (db w)) /\ User.ID x = id) ->
  (forall n, (n < 5)%nat -> nth n (faults w) false = false) ->
  fst (postgres.userRepo.Delete id w) = None.
Proof.
  intros Hid (x & Hin & Hx) Hf. unfold postgres.userRepo.Delete.
  destruct (uuid.eqb id uuid.Nil) eqn:E; [apply N.eqb_eq in E; contradiction|].
  assert (Hfind : exists y, find (fun u => uuid.eqb (User.ID u) id) (users (db w)) = Some y).
  { destruct (find (fun u => uuid.eqb (User.ID u) id) (users (db w))) as [y|] eqn:F;
      [now exists y|].
    exfalso. apply (find_none _ _ F) in Hin. rewrite Hx in Hin.
    unfold uuid.eqb in Hin. rewrite N.eqb_refl in Hin. discriminate. }
  destruct Hfind as [y Hfind].
  pose proof (Hf 0%nat ltac:(lia)) as F0. pose proof (Hf 1%nat ltac:(lia)) as F1.
  pose proof (Hf 2%nat ltac:(lia)) as F2. pose proof (Hf 3%nat ltac:(lia)) as F3.
  pose proof (Hf 4%nat ltac:(lia)) as F4. clear Hf.
  unfold postgres.BeginTx, postgres.ExecTx, postgres.QueryRowTx, postgres.Commit,
    postgres.Rollback, bind, ret, time_Now, next_fault, get_db, put_db.
  destruct w as [d c t f e]; cbn in *.
  destruct f as [|f0 [|f1 [|f2 [|f3 [|f4 f]]]]]; cbn in *; subst;
    unfold sql.delete_user_by_id; cbn; rewrite Hfind; reflexivity.
Qed.

(** C6. [DeleteUser] on the PostgreSQL repositories is all or nothing: when
    it succeeds, the rows left in the three tables are exactly the rows of
    the other accounts (the account, its sessions and its messages are
    gone, nothing else is); when it fails, at whatever step (an invalid id,
    a failed begin, a failed statement, an unknown account, a failed
    commit), the three tables are as they were.  And it does succeed when
    the account is in the table and none of the six round trips (the lookup
    of the sessions, begin, three statements, commit) fails. *)
Theorem DeleteUser_all_or_nothing
  (h : HashService.t) (j : JWTService.t) (userID : UUID) (w : World) :
  let u := user.mk postgres.NewUserRepository postgres.NewSessionRepository h j in
  let w' := snd (user.DeleteUser u userID w) in
  match fst (user.DeleteUser u userID w) with
  | None =>
      (forall x, In x (users (db w')) <-> In x (users (db w)) /\ User.ID x <> userID)
      /\ (forall x, In x (sessions (db w')) <->
                    In x (sessions (db w)) /\ Session.UserID x <> userID)
      /\ (forall x, In x (messages (db w')) <->
                    In x (messages (db w)) /\ Message.UserID x <> userID)
  | Some _ => db w' = db w
  end
  /\ (userID <> uuid.Nil ->
      (exists x, In x (users (db w)) /\ User.ID x = userID) ->
      (forall n, (n < 6)%nat -> nth n (faults w) false = false) ->
      fst (user.DeleteUser u userID w) = None).
Proof.
  cbv zeta. unfold user.DeleteUser, bind, ret. cbn [user.userRepo user.sessionRepo
    SessionRepository.GetByUserID UserRepository.Delete postgres.NewUserRepository
    postgres.NewSessionRepository].
  pose proof (GetByUserID_db userID w) as Hdb.
  pose proof (@GetByUserID_faults userID w) as Hfaults.
  destruct (postgres.sessionRepo.GetByUserID userID w) as [r w1]. cbn in Hdb, Hfaults.
  pose proof (userRepo_Delete_spec userID w1) as D.
  pose proof (@userRepo_Delete_progress userID w1) as P.
  destruct (postgres.userRepo.Delete userID w1) as [[e|] w2]; cbn in D, P |- *.
  - split; [congruence|].
    intros Hid Hx Hf. exfalso. assert (X : Some e = None); [|discriminate X].
    apply P; [exact Hid|now rewrite Hdb|].
    intros n Hn. rewrite (Hfaults Hid).
    specialize (Hf (S n) ltac:(lia)). destruct (faults w); [destruct n|]; exact Hf.
  - split; [|reflexivity]. rewrite D, Hdb. cbn.
    repeat split; intros; rewrite filter_In in *; unfold uuid.eqb in *;
      rewrite ?negb_true_iff, ?N.eqb_neq in *; tauto.
Qed.

(** Alice is deleted from the tables of alice and bob: what is left is
    bob, his session and his message. *)
Lemma DeleteUser_all_or_nothing_witness :
  fst (user.DeleteUser
         (user.mk postgres.NewUserRepository postgres.NewSessionRepository
            sample.hashService sample.jwtService) 1%N sample.world_two) = None
  /\ db (snd (user.DeleteUser
                (user.mk postgres.NewUserRepository postgres.NewSessionRepository
                   sample.hashService sample.jwtService) 1%N sample.world_two)) =
       mkDatabase [sample.bob] [sample.bobs] [sample.hi].
Proof.
  split; [|reflexivity].
  apply (proj2 (DeleteUser_all_or_nothing sample.hashService sample.jwtService 1%N
                  sample.world_two)).
  - discriminate.
  - exists sample.alice. split; [left; reflexivity|reflexivity].
  - intros [|[|[|[|[|[|n]]]]]] _; reflexivity.
Defined.

(** Every failure of [Login] is the same error. *)
Lemma Login_error (u : user.userUsecase) (email password : string) (w : World)
  (e : error) :
  fst (user.Login u email password w) = Err e ->
  e = user_BusinessError "invalid credentials".
Proof.
  unfold user.Login, bind, ret.
  destruct (UserRepository.GetByEmail (user.userRepo u) email w) as [[usr|e'] w1]; cbn.
  - destruct (HashService.CheckPasswordHash (user.hashService u) password
                (User.Password usr) w1) as [[|] w2]; cbn; congruence.
  - congruence.
Qed.

(** C7. [Login] fails with the same error, [BusinessError] "invalid
    credentials", when the store finds no account for the email and when
    it finds one whose hash the secret does not match; any two failed
    logins return equal errors, which the HTTP layer answers alike. *)
Theorem Login_failures_indistinguishable (u : user.userUsecase) :
  (forall email password w e,
      fst (UserRepository.GetByEmail (user.userRepo u) email w) = Err e ->
      fst (user.Login u email password w) =
        Err (user_BusinessError "invalid credentials"))
  /\ (forall email password w usr,
         fst (UserRepository.GetByEmail (user.userRepo u) email w) = Ok usr ->
         fst (HashService.CheckPasswordHash (user.hashService u) password
                (User.Password usr)
                (snd (UserRepository.GetByEmail (user.userRepo u) email w))) = false ->
         fst (user.Login u email password w) =
           Err (user_BusinessError "invalid credentials"))
  /\ (forall email1 password1 w1 e1 email2 password2 w2 e2,
         fst (user.Login u email1 password1 w1) = Err e1 ->
         fst (user.Login u email2 password2 w2) = Err e2 ->
         e1 = e2 /\ handler.HandleError e1 = handler.HandleError e2).
Proof.
  repeat split.
  - intros email password w e H. unfold user.Login, bind, ret.
    destruct (UserRepository.GetByEmail (user.userRepo u) email w) as [[usr|e'] w1];
      cbn in *; [discriminate|reflexivity].
  - intros email password w usr H Hc. unfold user.Login, bind, ret.
    destruct (UserRepository.GetByEmail (user.userRepo u) email w) as [[usr'|e'] w1];
      cbn in *; [|discriminate].
    inversion H; subst.
    destruct (HashService.CheckPasswordHash (user.hashService u) password
                (User.Password usr) w1) as [b w2]; cbn in *.
    subst b. reflexivity.
  - apply Login_error in H, H0. congruence.
  - apply Login_error in H, H0. congruence.
Qed.

(** An unknown email and a wrong secret for alice. *)
Lemma Login_failures_indistinguishable_witness :
  fst (user.Login sample.userUsecase "bob@x.com" "secret123" sample.world_alice) =
    Err (user_BusinessError "invalid credentials")
  /\ fst (user.Login sample.userUsecase "alice@x.com" "wrong" sample.world_alice) =
       Err (user_BusinessError "invalid credentials").
Proof.
  split.
  - apply (proj1 (Login_failures_indistinguishable sample.userUsecase)
             "bob@x.com" "secret123" sample.world_alice
             (postgres_NotFoundError "user not found")).
    vm_compute. reflexivity.
  - refine (proj1 (proj2 (Login_failures_indistinguishable sample.userUsecase))
              "alice@x.com" "wrong" sample.world_alice
              (User.mk 302240678275694148464697%N "alice" "alice@x.com"
                 "$2a$10$....................ROIzfIsckvyrzWRRg0RC6dDOqKprKX56m" 0 0)
              _ _).
    + vm_compute. reflexivity.
    + vm_compute. reflexivity.
Defined.

(** C8. Every identity that [Register], [Login] or [GetProfile] returns has
    an empty [Password]: the stored hash is not part of any result. *)
Theorem returned_identity_has_no_hash (u : user.userUsecase) :
  (forall username email password w usr,
      fst (user.Register u username email password w) = Ok usr ->
      User.Password usr = "")
  /\ (forall email password w usr,
         fst (user.Login u email password w) = Ok usr -> User.Password usr = "")
  /\ (forall userID w usr,
         fst (user.GetProfile u userID w) = Ok usr -> User.Password usr = "").
Proof.
  repeat split.
  - intros username email password w usr. unfold user.Register, bind, ret.
    destruct (UserRepository.GetByEmail (user.userRepo u) email w) as [[x|e] w1]; cbn;
      [discriminate|].
    destruct (HashService.HashPassword (user.hashService u) password w1) as [[h|e'] w2];
      cbn; [|discriminate].
    destruct (uuid_New w2) as [id w3]. destruct (time_Now w3) as [t1 w4].
    destruct (time_Now w4) as [t2 w5].
    match goal with
    | |- context [User.Validate ?x] => destruct (User.Validate x)
    end; cbn; [discriminate|].
    match goal with
    | |- context [UserRepository.Create ?r ?x ?v] =>
        destruct (UserRepository.Create r x v) as [[e''|] w6]
    end; cbn; [discriminate|].
    intros H; inversion H; reflexivity.
  - intros email password w usr. unfold user.Login, bind, ret.
    destruct (UserRepository.GetByEmail (user.userRepo u) email w) as [[x|e] w1]; cbn;
      [|discriminate].
    destruct (HashService.CheckPasswordHash (user.hashService u) password
                (User.Password x) w1) as [[|] w2]; cbn; [|discriminate].
    intros H; inversion H; reflexivity.
  - intros userID w usr. unfold user.GetProfile, bind, ret.
    destruct (UserRepository.GetByID (user.userRepo u) userID w) as [[x|e] w1]; cbn;
      [|discriminate].
    intros H; inversion H; reflexivity.
Qed.

(** Alice logs in, and looks at her profile. *)
Lemma returned_identity_has_no_hash_witness :
  (exists usr, fst (user.Login sample.userUsecase "alice@x.com" "secret123"
                      sample.world_alice) = Ok usr
               /\ User.Password usr = "")
  /\ (exists usr, fst (user.GetProfile sample.userUsecase 302240678275694148464697%N
                         sample.world_alice) = Ok usr
                  /\ User.Password usr = "").
Proof.
  split.
  - eexists. split; [vm_compute; reflexivity|].
    eapply (proj1 (proj2 (returned_identity_has_no_hash sample.userUsecase))
              "alice@x.com" "secret123" sample.world_alice).
    vm_compute. reflexivity.
  - eexists. split; [vm_compute; reflexivity|].
    eapply (proj2 (proj2 (returned_identity_has_no_hash sample.userUsecase))
              302240678275694148464697%N sample.world_alice).
    vm_compute. reflexivity.
Defined.


(** ** The base64 coding *)

Ltac Zify.zify_post_hook ::= Z.to_euclidean_division_equations.

Section Base64Facts.

Import base64.

Lemma code_range (c : ascii) : 0 <= code c < 256.
Proof.
  unfold code. pose proof (N_ascii_bounded c). lia.
Qed.

Lemma chr_code (c : ascii) : chr (code c) = c.
Proof.
  unfold chr. pose proof (code_range c) as H.
  rewrite Z.mod_small by lia. unfold code.
  rewrite N2Z.id. apply ascii_N_embedding.
Qed.

Lemma chr_mod (v : Z) (c : ascii) : v mod 256 = code c -> chr v = c.
Proof.
  intros H. unfold chr. rewrite H. unfold code.
  rewrite N2Z.id. apply ascii_N_embedding.
Qed.

Lemma value_digit (alphabet : string) (v : Z) :
  alphabet_ok alphabet = true -> 0 <= v < 64 ->
  base64.value alphabet (digit alphabet v) = Some v.
Proof.
  unfold alphabet_ok. intros Hok Hv.
  rewrite forallb_forall in Hok.
  specialize (Hok (Z.to_nat v)).
  rewrite Z2Nat.id in Hok by lia.
  destruct (base64.value alphabet (digit alphabet v)) as [u|].
  - assert (Hin : In (Z.to_nat v) (seq 0 64)) by (apply in_seq; lia).
    apply Hok in Hin. apply Z.eqb_eq in Hin. now subst.
  - assert (Hin : In (Z.to_nat v) (seq 0 64)) by (apply in_seq; lia).
    apply Hok in Hin. discriminate.
Qed.

Lemma decode_digits3 (alphabet : string) (padding : option ascii) (a b c : ascii)
  (tail : string) :
  alphabet_ok alphabet = true ->
  decode alphabet padding [] (digits3 alphabet a b c ++ tail) =
  match decode alphabet padding [] tail with
  | Some out => Some (String a (String b (String c out)))
  | None => None
  end.
Proof.
  intros Hok. unfold digits3.
  pose proof (code_range a) as Ha. pose proof (code_range b) as Hb.
  pose proof (code_range c) as Hc.
  set (v := code a * 65536 + code b * 256 + code c).
  cbn [append decode].
  rewrite value_digit by (assumption || (subst v; lia)). cbn [app].
  rewrite value_digit by (assumption || (subst v; lia)). cbn [app].
  rewrite value_digit by (assumption || (subst v; lia)). cbn [app].
  rewrite value_digit by (assumption || (subst v; lia)).
  destruct (decode alphabet padding [] tail) as [out|]; [|reflexivity].
  unfold quantum. cbn [append]. f_equal.
  f_equal; [apply chr_mod; subst v; lia|].
  f_equal; [apply chr_mod; subst v; lia|].
  f_equal. apply chr_mod; subst v; lia.
Qed.

Lemma string_ind3 (P : string -> Prop) :
  P EmptyString ->
  (forall a, P (String a EmptyString)) ->
  (forall a b, P (String a (String b EmptyString))) ->
  (forall a b c rest, P rest -> P (String a (String b (String c rest)))) ->
  forall s, P s.
Proof.
  intros H0 H1 H2 H3.
  fix IH 1. intros [|a [|b [|c rest]]];
    [apply H0 | apply H1 | apply H2 | apply H3; apply IH].
Qed.

(** Decoding what was encoded gives the bytes back. *)
Lemma DecodeString_EncodeToString (alphabet : string) (src : string) :
  alphabet_ok alphabet = true ->
  DecodeString alphabet None (EncodeToString alphabet src) = Some src.
Proof.
  intros Hok. unfold DecodeString.
  induction src as [|a|a b|a b c rest IH] using string_ind3.
  - reflexivity.
  - cbn [EncodeToString]. unfold digits1.
    pose proof (code_range a) as Ha. set (v := code a * 65536).
    cbn [decode].
    rewrite value_digit by (assumption || (subst v; lia)). cbn [app].
    rewrite value_digit by (assumption || (subst v; lia)). cbn [app].
    unfold quantum. f_equal. f_equal. apply chr_mod; subst v; lia.
  - cbn [EncodeToString]. unfold digits2.
    pose proof (code_range a) as Ha. pose proof (code_range b) as Hb.
    set (v := code a * 65536 + code b * 256).
    cbn [decode].
    rewrite value_digit by (assumption || (subst v; lia)). cbn [app].
    rewrite value_digit by (assumption || (subst v; lia)). cbn [app].
    rewrite value_digit by (assumption || (subst v; lia)). cbn [app].
    unfold quantum. f_equal.
    f_equal; [apply chr_mod; subst v; lia|].
    f_equal. apply chr_mod; subst v; lia.
  - cbn [EncodeToString]. rewrite decode_digits3 by assumption.
    now rewrite IH.
Qed.

Lemma EncodeToString_inj (alphabet : string) (s1 s2 : string) :
  alphabet_ok alphabet = true ->
  EncodeToString alphabet s1 = EncodeToString alphabet s2 -> s1 = s2.
Proof.
  intros Hok H.
  pose proof (@DecodeString_EncodeToString alphabet s1 Hok) as H1.
  pose proof (@DecodeString_EncodeToString alphabet s2 Hok) as H2.
  rewrite H in H1. congruence.
Qed.

(** One byte and its padding, as the password library decodes a salt. *)
Lemma decode_digits1_padded (alphabet : string) (a : ascii) :
  alphabet_ok alphabet = true ->
  base64.value alphabet "="%char = None ->
  decode alphabet (Some "="%char) [] (digits1 alphabet a ++ "==") =
    Some (String a EmptyString).
Proof.
  intros Hok Hpad. unfold digits1.
  pose proof (code_range a) as Ha. set (v := code a * 65536).
  cbn [append decode].
  rewrite value_digit by (assumption || (subst v; lia)). cbn [app].
  rewrite value_digit by (assumption || (subst v; lia)). cbn [app].
  rewrite Hpad. cbn.
  f_equal. f_equal. apply chr_mod; subst v; lia.
Qed.

Lemma digits3_length (alphabet : string) (a b c : ascii) (t : string) :
  String.length (digits3 alphabet a b c ++ t) = S (S (S (S (String.length t)))).
Proof. reflexivity. Qed.

Lemma digits3_append (alphabet : string) (a b c : ascii) (t u : string) :
  (digits3 alphabet a b c ++ t) ++ u = digits3 alphabet a b c ++ (t ++ u).
Proof. reflexivity. Qed.

End Base64Facts.


(** ** Password hashes *)

Lemma length_S (s : string) (n : nat) :
  String.length s = S n ->
  exists a s', s = String a s' /\ String.length s' = n.
Proof.
  destruct s as [|a s']; cbn; [discriminate|].
  intros H. exists a, s'. split; [reflexivity|congruence].
Qed.

Lemma length_O (s : string) : String.length s = O -> s = EmptyString.
Proof. destruct s; [reflexivity|discriminate]. Qed.

(** A string of known length, written out byte by byte. *)
Ltac explode H :=
  repeat (apply length_S in H; destruct H as (? & ? & -> & H));
  apply length_O in H; subst.

Lemma bcrypt_alphabet_ok : base64.alphabet_ok bcrypt.alphabet = true.
Proof. vm_compute. reflexivity. Qed.

Lemma bytes_be_length (n : nat) (v : N) : String.length (bcrypt.bytes_be n v) = n.
Proof. induction n as [|n IH]; cbn; [reflexivity|now rewrite IH]. Qed.

(** The salt the library keeps in a hash decodes to the 16 bytes drawn. *)
Lemma base64Decode_salt (s : string) :
  String.length s = 16%nat ->
  bcrypt.base64Decode (bcrypt.base64Encode s) = Some s.
Proof.
  intros H. explode H.
  unfold bcrypt.base64Decode, bcrypt.base64Encode, base64.DecodeString.
  cbn [base64.EncodeToString].
  rewrite !digits3_length. cbn [String.length base64.digits1 Nat.modulo Nat.divmod
    Nat.sub fst snd repeat string_of_list_ascii].
  rewrite !digits3_append.
  rewrite !decode_digits3 by apply bcrypt_alphabet_ok.
  rewrite decode_digits1_padded; [reflexivity|apply bcrypt_alphabet_ok|reflexivity].
Qed.

Lemma base64Encode_length16 (s : string) :
  String.length s = 16%nat -> String.length (bcrypt.base64Encode s) = 22%nat.
Proof. intros H. explode H. reflexivity. Qed.

Lemma base64Encode_length23 (s : string) :
  String.length s = 23%nat -> String.length (bcrypt.base64Encode s) = 31%nat.
Proof. intros H. explode H. reflexivity. Qed.

Lemma append_length (s t : string) :
  String.length (s ++ t) = (String.length s + String.length t)%nat.
Proof. induction s as [|a s IH]; cbn; [reflexivity|now rewrite IH]. Qed.

Lemma substring_0_length (n : nat) (s : string) :
  (n <= String.length s)%nat -> String.length (substring 0 n s) = n.
Proof.
  revert s. induction n as [|n IH]; intros [|a s] H; cbn in *; try reflexivity; try lia.
  now rewrite IH by lia.
Qed.

Lemma zeros_length (n : nat) :
  String.length (string_of_list_ascii (repeat zero n)) = n.
Proof. induction n as [|n IH]; cbn; [reflexivity|now rewrite IH]. Qed.

Lemma copy_length (n : nat) (s : string) : String.length (bcrypt.copy n s) = n.
Proof.
  unfold bcrypt.copy. apply substring_0_length.
  rewrite append_length, zeros_length. lia.
Qed.

Lemma digest_length (cipher : bcrypt.Blowfish) (password : string) (cost : Z)
  (csalt : string) :
  String.length (bcrypt.digest cipher password cost csalt) = 23%nat.
Proof.
  unfold bcrypt.digest. cbv zeta. apply substring_0_length.
  rewrite copy_length. unfold bcrypt.maxCryptedHashSize. lia.
Qed.

(** The text of a hash of the current version, and its reading back. *)
Lemma Hash_text (hash salt : string) :
  String.length salt = 22%nat -> String.length hash = 31%nat ->
  bcrypt.Hash (bcrypt.mkHashed hash salt 10 bcrypt.majorVersion bcrypt.minorVersion) =
    "$2a$10$" ++ salt ++ hash.
Proof. intros Hs Hh. explode Hs. explode Hh. reflexivity. Qed.

Lemma newFromHash_text (hash salt : string) :
  String.length salt = 22%nat -> String.length hash = 31%nat ->
  bcrypt.newFromHash ("$2a$10$" ++ salt ++ hash) =
    Ok (bcrypt.mkHashed hash salt 10 bcrypt.majorVersion bcrypt.minorVersion).
Proof. intros Hs Hh. explode Hs. explode Hh. vm_compute. reflexivity. Qed.

Lemma append_inj (s t u : string) : s ++ t = s ++ u -> t = u.
Proof. induction s as [|a s IH]; cbn; intros H; [exact H|]. inversion H. auto. Qed.

Lemma append_inj_length (s s' t t' : string) :
  String.length s = String.length s' -> s ++ t = s' ++ t' -> s = s' /\ t = t'.
Proof.
  revert s'. induction s as [|a s IH]; intros [|a' s'] Hl H; cbn in *; try discriminate.
  - auto.
  - inversion H; subst. destruct (IH s') as [-> ->]; auto.
Qed.

(** What [HashPassword] returns for a password of at most 72 bytes: the
    salt is the next draw of the random source. *)
Lemma HashPassword_spec (cipher : bcrypt.Blowfish) (password : string) (w : World) :
  len password <= 72 ->
  let salt := bcrypt.bytes_be 16 (hd 0%N (entropy w) mod 2 ^ 128) in
  service.HashPassword cipher password w =
    (Ok ("$2a$10$" ++ bcrypt.base64Encode salt
         ++ bcrypt.base64Encode (bcrypt.digest cipher password 10 salt)),
     mkWorld (db w) (clock w) (ticks w) (faults w) (tl (entropy w))).
Proof.
  intros Hlen salt.
  unfold service.HashPassword, bcrypt.GenerateFromPassword, bind, ret.
  replace (72 <? len password) with false by (symmetry; apply Z.ltb_ge; lia).
  unfold bcrypt.newFromPassword, bind, ret, rand_Read16. cbn [bcrypt.checkCost].
  change (bcrypt.DefaultCost <? bcrypt.MinCost) with false. cbv iota.
  change (bcrypt.checkCost bcrypt.DefaultCost) with (@None error). cbv iota.
  fold salt. unfold bcrypt.bcrypt.
  rewrite base64Decode_salt by apply bytes_be_length.
  rewrite Hash_text; [reflexivity| |].
  - apply base64Encode_length16, bytes_be_length.
  - apply base64Encode_length23, digest_length.
Qed.

(** A password is accepted for a hash of [HashPassword] exactly when its
    digest under the salt of the hash is the digest the hash holds. *)
Lemma CheckPasswordHash_spec (cipher : bcrypt.Blowfish) (password : string)
  (salt dig : string) (w : World) :
  String.length salt = 16%nat -> String.length dig = 23%nat ->
  fst (service.CheckPasswordHash cipher password
         ("$2a$10$" ++ bcrypt.base64Encode salt ++ bcrypt.base64Encode dig) w) = true
  <-> bcrypt.digest cipher password 10 salt = dig.
Proof.
  intros Hs Hd.
  unfold service.CheckPasswordHash, bcrypt.CompareHashAndPassword.
  rewrite newFromHash_text
    by (apply base64Encode_length16 || apply base64Encode_length23; assumption).
  cbn [bcrypt.cost bcrypt.salt bcrypt.hash bcrypt.major bcrypt.minor].
  unfold bcrypt.bcrypt. rewrite base64Decode_salt by assumption.
  rewrite !Hash_text
    by (apply base64Encode_length16 || apply base64Encode_length23;
        assumption || apply digest_length).
  destruct (String.eqb_spec
              ("$2a$10$" ++ bcrypt.base64Encode salt ++ bcrypt.base64Encode dig)
              ("$2a$10$" ++ bcrypt.base64Encode salt
               ++ bcrypt.base64Encode (bcrypt.digest cipher password 10 salt)))
    as [E|E]; cbn.
  - split; [intros _|reflexivity].
    apply append_inj, append_inj in E.
    symmetry. eapply EncodeToString_inj; [apply bcrypt_alphabet_ok|exact E].
  - split; [discriminate|]. intros <-. now elim E.
Qed.

(** Different draws give different salts. *)
Lemma bytes_be_inj (n : nat) (v1 v2 : N) :
  bcrypt.bytes_be n v1 = bcrypt.bytes_be n v2 ->
  (v1 mod 256 ^ N.of_nat n = v2 mod 256 ^ N.of_nat n)%N.
Proof.
  induction n as [|n IH]; intros H.
  - cbn. now rewrite !N.mod_1_r.
  - cbn [bcrypt.bytes_be] in H. inversion H as [[Hhead Htail]].
    apply IH in Htail.
    assert (Hb : forall v, ((v / 256 ^ N.of_nat n) mod 256 < 256)%N)
      by (intros v; apply N.mod_lt; discriminate).
    apply (f_equal N_of_ascii) in Hhead.
    rewrite !N_ascii_embedding in Hhead by apply Hb.
    rewrite Nat2N.inj_succ, N.pow_succ_r', (N.mul_comm 256).
    rewrite !N.Div0.mod_mul_r. congruence.
Qed.

(** The key stream of a key that starts with 72 bytes is these bytes. *)
Lemma stream_prefix (n : nat) (key s t : string) :
  String.length s = n -> bcrypt.stream n key (s ++ t) = s.
Proof.
  revert s. induction n as [|n IH]; intros [|a s] H; cbn in *; try discriminate.
  - reflexivity.
  - now rewrite IH by congruence.
Qed.

Lemma keystream_72 (s t : string) :
  String.length s = 72%nat -> bcrypt.keystream (s ++ t) = s.
Proof. intros H. unfold bcrypt.keystream. now apply stream_prefix. Qed.

Lemma append_assoc (s t u : string) : (s ++ t) ++ u = s ++ (t ++ u).
Proof. induction s as [|a s IH]; cbn; [reflexivity|now rewrite IH]. Qed.

(** A text shorter than 59 bytes is the hash of no password. *)
Lemma CheckPasswordHash_short (cipher : bcrypt.Blowfish) (password hash : string)
  (w : World) :
  len hash < 59 -> fst (service.CheckPasswordHash cipher password hash w) = false.
Proof.
  intros H. unfold service.CheckPasswordHash, bcrypt.CompareHashAndPassword,
    bcrypt.newFromHash.
  replace (len hash <? bcrypt.minHashSize) with true
    by (symmetry; apply Z.ltb_lt; exact H).
  reflexivity.
Qed.

Lemma Ok_inj (A : Type) (a b : A) : Ok a = Ok b -> a = b.
Proof. intros H. now inversion H. Qed.

(** A text that does not start with [$], or whose version is above 2, is
    the hash of no password. *)
Lemma CheckPasswordHash_bad_version (cipher : bcrypt.Blowfish) (password : string)
  (s0 s1 : ascii) (rest : string) (w : World) :
  s0 <> "$"%char \/ (N_of_ascii "2"%char < N_of_ascii s1)%N ->
  fst (service.CheckPasswordHash cipher password (String s0 (String s1 rest)) w) = false.
Proof.
  intros H. unfold service.CheckPasswordHash, bcrypt.CompareHashAndPassword,
    bcrypt.newFromHash.
  destruct (len (String s0 (String s1 rest)) <? bcrypt.minHashSize); [reflexivity|].
  destruct rest as [|s2 rest]; [reflexivity|].
  destruct (Ascii.eqb_spec s0 "$"%char) as [E|E]; cbn [negb]; [|reflexivity].
  destruct H as [H|H]; [contradiction|].
  replace (Z.of_N (N_of_ascii bcrypt.majorVersion) <? Z.of_N (N_of_ascii s1)) with true
    by (symmetry; apply Z.ltb_lt; unfold bcrypt.majorVersion; lia).
  reflexivity.
Qed.

Lemma substring_0_all (s : string) (k : nat) :
  substring 0 (String.length s + k) s = s.
Proof.
  induction s as [|a s IH]; cbn; [destruct k; reflexivity|]. now rewrite IH.
Qed.

(** A text [$2a$] whose next two bytes are not a cost from 4 to 31 is the
    hash of no password. *)
Lemma CheckPasswordHash_bad_cost (cipher : bcrypt.Blowfish) (password : string)
  (c1 c2 : ascii) (rest : string) (w : World) :
  (forall cost, bcrypt.Atoi2 c1 c2 = Some cost -> cost < 4 \/ 31 < cost) ->
  fst (service.CheckPasswordHash cipher password
         ("$2a$" ++ String c1 (String c2 rest)) w) = false.
Proof.
  intros H. unfold service.CheckPasswordHash, bcrypt.CompareHashAndPassword,
    bcrypt.newFromHash.
  destruct (len ("$2a$" ++ String c1 (String c2 rest)) <? bcrypt.minHashSize);
    [reflexivity|].
  cbn [append]. cbn [Ascii.eqb Bool.eqb negb andb].
  replace (Z.of_N (N_of_ascii bcrypt.majorVersion) <? Z.of_N (N_of_ascii "2"%char))
    with false by reflexivity.
  cbv iota. cbn [String.length].
  change (substring 1 (S (S (S (String.length rest))))
            (String "$" (String c1 (String c2 rest))))
    with (substring 0 (S (S (S (String.length rest)))) (String c1 (String c2 rest))).
  replace (S (S (S (String.length rest))))
    with (String.length (String c1 (String c2 rest)) + 1)%nat by (cbn; lia).
  rewrite substring_0_all.
  destruct rest as [|c3 rest]; [reflexivity|].
  destruct (bcrypt.Atoi2 c1 c2) as [cost|] eqn:E; [|reflexivity].
  unfold bcrypt.checkCost, bcrypt.MinCost, bcrypt.MaxCost.
  destruct (H cost eq_refl) as [Hc|Hc].
  - replace (cost <? 4) with true by (symmetry; apply Z.ltb_lt; exact Hc). reflexivity.
  - replace (31 <? cost) with true by (symmetry; apply Z.ltb_lt; exact Hc).
    rewrite orb_true_r. reflexivity.
Qed.

(** C9, as the claim states it, fails: the hash of a secret of 72 bytes
    accepts every longer secret that starts with these 72 bytes.  (The
    cipher here is the stand-in; the theorem below gives the same for every
    cipher.) *)
Lemma CheckPasswordHash_accepts_longer_secret :
  exists h,
    fst (service.HashPassword sample.cipher sample.secret72 sample.world_empty) = Ok h
    /\ fst (service.CheckPasswordHash sample.cipher (sample.secret72 ++ "b") h
              sample.world_empty) = true
    /\ (sample.secret72 ++ "b" =? sample.secret72)%string = false.
Proof.
  eexists. split; [vm_compute; reflexivity|].
  split; vm_compute; reflexivity.
Qed.

(** C9, amended.  For every cipher:
    - [HashPassword] of a secret of at most 72 bytes succeeds; the hash has
      60 bytes and starts with [$2a$10$] (so it differs from every secret
      that is not such a text), and [CheckPasswordHash] accepts the secret
      for its own hash;
    - [CheckPasswordHash] accepts another secret for that hash exactly when
      both have the same digest under the salt of the hash; this is so, in
      particular, whenever the two secrets have the same key stream (the
      first 72 bytes of the secret and a zero byte, repeated);
    - [CheckPasswordHash] is [false] for every text shorter than 59 bytes,
      the empty one included, for every text that does not start with [$]
      or whose version byte is above [2], and for every text [$2a$] whose
      next two bytes are not a cost from 4 to 31;
    - two calls of [HashPassword] in a row on one secret give the same hash
      exactly when the random source gives the same salt twice;
    - [HashPassword] fails on a secret longer than 72 bytes. *)
Theorem CheckPasswordHash_of_HashPassword (cipher : bcrypt.Blowfish) :
  (forall s w,
      len s <= 72 ->
      exists h,
        fst (service.HashPassword cipher s w) = Ok h
        /\ String.length h = 60%nat
        /\ String.prefix "$2a$10$" h = true
        /\ forall w', fst (service.CheckPasswordHash cipher s h w') = true)
  /\ (forall s s2 w h w',
         fst (service.HashPassword cipher s w) = Ok h ->
         let salt := bcrypt.bytes_be 16 (hd 0%N (entropy w) mod 2 ^ 128) in
         (fst (service.CheckPasswordHash cipher s2 h w') = true
          <-> bcrypt.digest cipher s2 10 salt = bcrypt.digest cipher s 10 salt)
         /\ (bcrypt.keystream (s2 ++ String zero EmptyString) =
               bcrypt.keystream (s ++ String zero EmptyString) ->
             fst (service.CheckPasswordHash cipher s2 h w') = true))
  /\ (forall password hash w,
         len hash < 59 ->
         fst (service.CheckPasswordHash cipher password hash w) = false)
  /\ (forall password s0 s1 rest w,
         s0 <> "$"%char \/ (N_of_ascii "2"%char < N_of_ascii s1)%N ->
         fst (service.CheckPasswordHash cipher password (String s0 (String s1 rest)) w) =
           false)
  /\ (forall password c1 c2 rest w,
         (forall cost, bcrypt.Atoi2 c1 c2 = Some cost -> cost < 4 \/ 31 < cost) ->
         fst (service.CheckPasswordHash cipher password
                ("$2a$" ++ String c1 (String c2 rest)) w) = false)
  /\ (forall s w h1 h2,
         fst (service.HashPassword cipher s w) = Ok h1 ->
         fst (service.HashPassword cipher s (snd (service.HashPassword cipher s w))) =
           Ok h2 ->
         (h1 = h2 <->
          (hd 0 (entropy w) mod 2 ^ 128 = hd 0 (tl (entropy w)) mod 2 ^ 128)%N))
  /\ (forall s w,
         72 < len s ->
         fst (service.HashPassword cipher s w) =
           Err (bcrypt_Error "bcrypt: password length exceeds 72 bytes")).
Proof.
  assert (Hlong : forall s w, 72 < len s ->
             fst (service.HashPassword cipher s w) =
               Err (bcrypt_Error "bcrypt: password length exceeds 72 bytes")).
  { intros s w H. unfold service.HashPassword, bcrypt.GenerateFromPassword, bind, ret.
    replace (72 <? len s) with true by (symmetry; apply Z.ltb_lt; exact H).
    reflexivity. }
  assert (Hshort : forall s w h, fst (service.HashPassword cipher s w) = Ok h ->
             len s <= 72).
  { intros s w h H. destruct (Z.le_gt_cases (len s) 72) as [|Hgt]; [assumption|].
    rewrite Hlong in H by lia. discriminate. }
  split; [|split; [|split; [|split; [|split; [|split]]]]].
  - intros s w Hlen. eexists. rewrite (HashPassword_spec cipher s w Hlen). cbn [fst].
    split; [reflexivity|]. split; [|split].
    + rewrite !append_length, base64Encode_length16, base64Encode_length23;
        [reflexivity|apply digest_length|apply bytes_be_length].
    + reflexivity.
    + intros w'. apply CheckPasswordHash_spec;
        [apply bytes_be_length|apply digest_length|reflexivity].
  - intros s s2 w h w' H salt.
    rewrite (HashPassword_spec cipher s w (Hshort _ _ _ H)) in H. cbn [fst] in H.
    inversion H as [Hh]. fold salt.
    assert (Hiff : fst (service.CheckPasswordHash cipher s2
                          ("$2a$10$" ++ bcrypt.base64Encode salt ++
                           bcrypt.base64Encode (bcrypt.digest cipher s 10 salt)) w') = true
                   <-> bcrypt.digest cipher s2 10 salt = bcrypt.digest cipher s 10 salt)
      by (apply CheckPasswordHash_spec; [apply bytes_be_length|apply digest_length]).
    split; [exact Hiff|].
    intros Hk. apply Hiff. unfold bcrypt.digest. cbv zeta. now rewrite Hk.
  - intros password hash w. apply CheckPasswordHash_short.
  - intros password s0 s1 rest w. apply CheckPasswordHash_bad_version.
  - intros password c1 c2 rest w. apply CheckPasswordHash_bad_cost.
  - intros s w h1 h2 H1 H2.
    pose proof (Hshort _ _ _ H1) as Hlen.
    rewrite (HashPassword_spec cipher s w Hlen) in H1, H2. cbn [fst snd] in H1, H2.
    rewrite (HashPassword_spec cipher s _ Hlen) in H2. cbn [fst entropy] in H2.
    remember (bcrypt.bytes_be 16 (hd 0%N (entropy w) mod 2 ^ 128)) as salt1 eqn:Es1.
    remember (bcrypt.bytes_be 16 (hd 0%N (tl (entropy w)) mod 2 ^ 128)) as salt2 eqn:Es2.
    assert (L1 : String.length salt1 = 16%nat) by (subst; apply bytes_be_length).
    assert (L2 : String.length salt2 = 16%nat) by (subst; apply bytes_be_length).
    apply Ok_inj in H1, H2. subst h1 h2.
    split.
    + intros E. apply append_inj in E.
      apply append_inj_length in E;
        [|rewrite !base64Encode_length16 by assumption; reflexivity].
      destruct E as [E _].
      apply EncodeToString_inj in E; [|apply bcrypt_alphabet_ok].
      rewrite Es1, Es2 in E.
      apply bytes_be_inj in E. change (256 ^ N.of_nat 16)%N with (2 ^ 128)%N in E.
      now rewrite !N.Div0.mod_mod in E.
    + intros E. rewrite Es1, Es2, E. reflexivity.
  - exact Hlong.
Qed.

(** The secret "secret123" and its hash. *)
Lemma CheckPasswordHash_of_HashPassword_witness :
  exists h,
    fst (service.HashPassword sample.cipher "secret123" sample.world_empty) = Ok h
    /\ String.length h = 60%nat
    /\ String.prefix "$2a$10$" h = true
    /\ forall w', fst (service.CheckPasswordHash sample.cipher "secret123" h w') = true.
Proof.
  apply (proj1 (CheckPasswordHash_of_HashPassword sample.cipher)
           "secret123" sample.world_empty).
  vm_compute. discriminate.
Defined.


(** ** Registration and the length of the secret *)

(** A bcrypt hash passes every check [Validate] makes on [Password]. *)
Lemma hash_passes_Validate (x : string) :
  ("$2a$10$" ++ x =? "")%string = false /\ (len ("$2a$10$" ++ x) <? 6) = false.
Proof.
  split; [reflexivity|].
  apply Z.ltb_ge. unfold len. cbn [append String.length]. lia.
Qed.

Lemma char_length_le (s : string) : sql.char_length s <= len s.
Proof.
  unfold sql.char_length, len. apply Nat2Z.inj_le.
  induction s as [|a s IH]; cbn; [lia|].
  destruct (negb _); cbn; lia.
Qed.

(** What the registration of alice with the secret "abc" does in an empty
    database, for every cipher. *)
Lemma Register_abc (cipher : bcrypt.Blowfish) (j : JWTService.t) :
  exists h,
    String.length h = 60%nat
    /\ user.Register
         (user.mk postgres.NewUserRepository postgres.NewSessionRepository
            (service.NewHashService cipher) j)
         "alice" "alice@x.com" "abc" sample.world_empty =
       (Ok (User.mk 302240678275694148452352%N "alice" "alice@x.com" "" 0 0),
        mkWorld
          (mkDatabase [User.mk 302240678275694148452352%N "alice" "alice@x.com" h 0 0]
             [] [])
          0 [] [] []).
Proof.
  unfold user.Register.
  cbn [user.userRepo user.hashService UserRepository.GetByEmail UserRepository.Create
       postgres.NewUserRepository service.NewHashService HashService.HashPassword].
  unfold bind at 1.
  change (postgres.userRepo.GetByEmail "alice@x.com" sample.world_empty)
    with (Err (A := User.t) (postgres_NotFoundError "user not found"), sample.world_empty).
  cbv iota. unfold bind at 1.
  rewrite (@HashPassword_spec cipher "abc" sample.world_empty) by (vm_compute; discriminate).
  cbv zeta. cbn [db clock ticks faults entropy sample.world_empty tl hd].
  set (salt := bcrypt.bytes_be 16 (0 mod 2 ^ 128)).
  set (x := bcrypt.base64Encode salt ++
            bcrypt.base64Encode (bcrypt.digest cipher "abc" 10 salt)).
  assert (Hx : String.length ("$2a$10$" ++ x) = 60%nat).
  { subst x. rewrite !append_length, base64Encode_length16, base64Encode_length23;
      [reflexivity|apply digest_length|apply bytes_be_length]. }
  destruct (hash_passes_Validate x) as [Hne Hlen].
  exists ("$2a$10$" ++ x). split; [exact Hx|].
  unfold bind, ret, uuid_New, rand_Read16, time_Now, bind, ret.
  cbn [db clock ticks faults entropy tl hd fst snd].
  unfold User.Validate. cbn [User.Username User.Email User.Password].
  rewrite Hne, Hlen.
  change ("alice" =? "")%string with false.
  change (len "alice" <? 3) with false.
  change ("alice@x.com" =? "")%string with false. cbv iota.
  unfold postgres.userRepo.Create, postgres.userRepo.validateUser.
  cbn [User.Username User.Email User.Password].
  rewrite Hne, Hlen.
  change ("alice" =? "")%string with false.
  change (len "alice" <? 3) with false.
  change ("alice@x.com" =? "")%string with false. cbv iota.
  unfold postgres.QueryRow, sql.insert_user, bind, ret, time_Now, next_fault, get_db,
    put_db.
  cbn [db clock ticks faults entropy tl hd fst snd users sessions messages existsb app
       User.Username User.Email User.Password].
  change (50 <? sql.char_length "alice") with false.
  change (255 <? sql.char_length "alice@x.com") with false.
  replace (255 <? sql.char_length ("$2a$10$" ++ x)) with false; [reflexivity|].
  symmetry. apply Z.ltb_ge.
  pose proof (char_length_le ("$2a$10$" ++ x)) as Hc. unfold len in Hc.
  rewrite Hx in Hc. lia.
Qed.

(** C5 fails on the code: [Register] checks the length of the hash, not of
    the secret.  With the PostgreSQL repositories and bcrypt, whatever the
    cipher, [Register] of "alice", "alice@x.com" and the secret "abc" in an
    empty database succeeds and the account is stored, with a hash of 60
    bytes as its password. *)
Theorem Register_accepts_short_secret (cipher : bcrypt.Blowfish) (j : JWTService.t) :
  let u := user.mk postgres.NewUserRepository postgres.NewSessionRepository
             (service.NewHashService cipher) j in
  exists usr h,
    fst (user.Register u "alice" "alice@x.com" "abc" sample.world_empty) = Ok usr
    /\ User.Username usr = "alice"
    /\ User.Password usr = ""
    /\ String.length h = 60%nat
    /\ users (db (snd (user.Register u "alice" "alice@x.com" "abc" sample.world_empty))) =
         [User.mk (User.ID usr) "alice" "alice@x.com" h 0 0].
Proof.
  cbv zeta. destruct (Register_abc cipher j) as (h & Hh & E).
  rewrite E. cbn [fst snd db users].
  eexists. exists h. repeat split; try reflexivity. exact Hh.
Qed.


(** ** Tokens *)

Lemma encodeURL_ok : base64.alphabet_ok base64.encodeURL = true.
Proof. vm_compute. reflexivity. Qed.

Lemma DecodeSegment_EncodeSegment (seg : string) :
  jwt.DecodeSegment (jwt.EncodeSegment seg) = Some seg.
Proof. apply DecodeString_EncodeToString, encodeURL_ok. Qed.

Lemma get_In (n : nat) (s : string) (c : ascii) :
  String.get n s = Some c -> In c (list_ascii_of_string s).
Proof.
  revert n. induction s as [|a s IH]; intros [|n] H; cbn in *; try discriminate.
  - left. congruence.
  - right. eauto.
Qed.

Lemma digit_no_dot (v : Z) : base64.digit base64.encodeURL v <> "."%char.
Proof.
  unfold base64.digit.
  destruct (String.get (Z.to_nat v) base64.encodeURL) as [c|] eqn:H; [|discriminate].
  apply get_In in H.
  assert (A : forallb (fun d => negb (Ascii.eqb d "."%char))
                (list_ascii_of_string base64.encodeURL) = true)
    by (vm_compute; reflexivity).
  rewrite forallb_forall in A. apply A in H.
  apply negb_true_iff, Ascii.eqb_neq in H. exact H.
Qed.

Lemma EncodeSegment_no_dot (seg : string) : jwt.no_dot (jwt.EncodeSegment seg).
Proof.
  unfold jwt.EncodeSegment, jwt.no_dot.
  induction seg as [|a|a b|a b c rest IH] using string_ind3; cbn; intros x H.
  - contradiction.
  - destruct H as [<-|[<-|[]]]; apply digit_no_dot.
  - destruct H as [<-|[<-|[<-|[]]]]; apply digit_no_dot.
  - destruct H as [<-|[<-|[<-|[<-|H]]]]; try apply digit_no_dot. now apply IH.
Qed.

Lemma Split_no_dot (s : string) : jwt.no_dot s -> jwt.Split s "."%char = [s].
Proof.
  induction s as [|a s IH]; intros H; cbn; [reflexivity|].
  destruct (Ascii.eqb_spec a "."%char) as [->|_].
  - exfalso. apply (H "."%char); [now left|reflexivity].
  - rewrite IH; [reflexivity|]. intros c Hc. apply H. now right.
Qed.

Lemma Split_segment (s rest : string) :
  jwt.no_dot s ->
  jwt.Split (s ++ String "."%char rest) "."%char = s :: jwt.Split rest "."%char.
Proof.
  induction s as [|a s IH]; intros H; cbn.
  - reflexivity.
  - destruct (Ascii.eqb_spec a "."%char) as [->|_].
    + exfalso. apply (H "."%char); [now left|reflexivity].
    + rewrite IH; [reflexivity|]. intros c Hc. apply H. now right.
Qed.

(** The three segments of a signed token. *)
Lemma Split_token (h c sig : string) :
  jwt.Split ((jwt.EncodeSegment h ++ "." ++ jwt.EncodeSegment c) ++ "."
             ++ jwt.EncodeSegment sig) "."%char =
    [jwt.EncodeSegment h; jwt.EncodeSegment c; jwt.EncodeSegment sig].
Proof.
  rewrite append_assoc.
  change ("." ++ jwt.EncodeSegment c) with (String "."%char (jwt.EncodeSegment c)).
  change ("." ++ jwt.EncodeSegment sig) with (String "."%char (jwt.EncodeSegment sig)).
  cbn [append].
  rewrite Split_segment by apply EncodeSegment_no_dot.
  rewrite Split_segment by apply EncodeSegment_no_dot.
  rewrite Split_no_dot by apply EncodeSegment_no_dot.
  reflexivity.
Qed.

(** [NewNumericDate] cuts a time to the second below it. *)
Lemma NewNumericDate_le (t : Time) : jwt.NewNumericDate t <= t.
Proof.
  unfold jwt.NewNumericDate, time.Second.
  pose proof (Z.mod_pos_bound t 1000000000). lia.
Qed.

(** The clock after [newClaims] is the third reading, that of [nbf]. *)
Lemma newClaims_spec (userID : UUID) (w : World) :
  let t1 := fst (time_Now w) in
  exists t2 t3,
    t1 <= t2 <= t3
    /\ clock (snd (service.newClaims userID w)) = t3
    /\ fst (service.newClaims userID w) =
         jwt.mkClaims userID
           (Some (jwt.NewNumericDate (t1 + 24 * time.Hour)))
           (Some (jwt.NewNumericDate t2)) (Some (jwt.NewNumericDate t3)).
Proof.
  unfold service.newClaims, bind, ret, time_Now, time.Add. cbn.
  eexists. eexists. split; [|split; reflexivity]. lia.
Qed.

(** A parse of what [SignedString] made with the same key, when the JSON
    coding gives the header and the claims back. *)
Lemma ParseWithClaims_SignedString (L : jwt.Lib) (claims : jwt.Claims) (key : string)
  (w : World) :
  jwt.unmarshalHeader L (jwt.marshalHeader L jwt.HS256) = Some (Some "HS256") ->
  jwt.unmarshalClaims L (jwt.marshalClaims L claims) = Some claims ->
  exists token,
    jwt.SignedString L jwt.HS256 claims key = Ok token
    /\ jwt.ParseWithClaims L token key w =
         (v <- jwt.Validate claims ;;
          match v with
          | Some err => ret (Err err)
          | None => ret (Ok claims)
          end) w.
Proof.
  intros Hh Hc. eexists. split; [reflexivity|].
  unfold jwt.ParseWithClaims. rewrite Split_token.
  rewrite !DecodeSegment_EncodeSegment, Hh, Hc.
  change (jwt.GetSigningMethod "HS256") with (Some jwt.HS256). cbv iota.
  unfold jwt.Verify. rewrite String.eqb_refl. reflexivity.
Qed.

(** C2. A token that [GenerateToken] issued for a subject is accepted by
    [ValidateToken] with the same secret, and the subject comes back, for
    every subject, secret, keyed hash and world: provided the JSON coding
    gives back the header and the claims it was given, and the token is
    verified not before it was issued and before the expiry written in it
    (24 hours after the first reading of the clock, cut to the second). *)
Theorem ValidateToken_GenerateToken
  (L : jwt.Lib) (secretKey : string) (userID : UUID) (w w' : World) :
  let j := service.mk secretKey in
  let claims := fst (service.newClaims userID w) in
  jwt.unmarshalHeader L (jwt.marshalHeader L jwt.HS256) = Some (Some "HS256") ->
  jwt.unmarshalClaims L (jwt.marshalClaims L claims) = Some claims ->
  clock (snd (service.GenerateToken L j userID w)) <= fst (time_Now w') ->
  fst (time_Now w') < jwt.NewNumericDate (fst (time_Now w) + 24 * time.Hour) ->
  exists token,
    fst (service.GenerateToken L j userID w) = Ok token
    /\ fst (service.ValidateToken L j token w') = Ok userID.
Proof.
  intros j claims Hh Hc Hafter Hbefore.
  destruct (@ParseWithClaims_SignedString L claims secretKey w' Hh Hc)
    as (token & Hs & Hp).
  exists token.
  assert (G : service.GenerateToken L j userID w =
              (Ok token, snd (service.newClaims userID w))).
  { unfold service.GenerateToken, bind. fold claims.
    destruct (service.newClaims userID w) as [c w1] eqn:E.
    subst claims. cbn [fst] in Hs. cbn [service.secretKey j]. rewrite Hs. reflexivity. }
  rewrite G in Hafter |- *. cbn [fst snd] in Hafter |- *.
  split; [reflexivity|].
  unfold service.ValidateToken, bind at 1. cbn [service.secretKey j]. rewrite Hp.
  destruct (newClaims_spec userID w) as (t2 & t3 & Ht & Hclock & Hclaims).
  fold claims in Hclaims. rewrite Hclock in Hafter.
  unfold jwt.Validate, bind, ret.
  destruct (time_Now w') as [now w1]. cbn [fst] in Hafter, Hbefore.
  rewrite Hclaims. cbn [jwt.ExpiresAt jwt.NotBefore jwt.UserID].
  unfold time.Before.
  pose proof (NewNumericDate_le t3) as Hnbf.
  replace (now <? jwt.NewNumericDate (fst (time_Now w) + 24 * time.Hour)) with true
    by (symmetry; apply Z.ltb_lt; lia).
  replace (now <? jwt.NewNumericDate t3) with false
    by (symmetry; apply Z.ltb_ge; lia).
  reflexivity.
Qed.

(** A token issued in the empty world at time 0 and verified at once. *)
Lemma ValidateToken_GenerateToken_witness :
  exists token,
    fst (service.GenerateToken sample.lib (service.mk "secret") 5%N sample.world_empty) =
      Ok token
    /\ fst (service.ValidateToken sample.lib (service.mk "secret") token
              (snd (service.GenerateToken sample.lib (service.mk "secret") 5%N
                      sample.world_empty))) = Ok 5%N.
Proof.
  apply (@ValidateToken_GenerateToken sample.lib "secret" 5%N sample.world_empty
           (snd (service.GenerateToken sample.lib (service.mk "secret") 5%N
                   sample.world_empty))).
  - reflexivity.
  - vm_compute. reflexivity.
  - vm_compute. discriminate.
  - vm_compute. reflexivity.
Defined.

(** The dates of claims that [Validate] lets pass. *)
Lemma Validate_None (claims : jwt.Claims) (w : World) :
  fst (jwt.Validate claims w) = None ->
  (forall exp, jwt.ExpiresAt claims = Some exp -> fst (time_Now w) < exp)
  /\ (forall nbf, jwt.NotBefore claims = Some nbf -> nbf <= fst (time_Now w)).
Proof.
  unfold jwt.Validate, bind, ret. destruct (time_Now w) as [now w1]. cbn [fst].
  unfold time.Before.
  destruct (jwt.ExpiresAt claims) as [exp|]; destruct (jwt.NotBefore claims) as [nbf|].
  - destruct (Z.ltb_spec now exp); cbn [negb]; [|discriminate].
    destruct (Z.ltb_spec now nbf); [discriminate|].
    intros _. split; intros x Hx; inversion Hx; subst; lia.
  - destruct (Z.ltb_spec now exp); cbn [negb]; [|discriminate].
    intros _. split; intros x Hx; inversion Hx; subst; lia.
  - destruct (Z.ltb_spec now nbf); [discriminate|].
    intros _. split; intros x Hx; inversion Hx; subst; lia.
  - intros _. split; intros x Hx; inversion Hx.
Qed.

(** The signature that [Verify] lets pass. *)
Lemma Verify_None (L : jwt.Lib) (method : jwt.SigningMethod)
  (signingString sig key : string) :
  jwt.Verify L method signingString sig key = None ->
  (method = jwt.HS256 \/ method = jwt.HS384 \/ method = jwt.HS512)
  /\ sig = jwt.hmac L method key signingString.
Proof.
  unfold jwt.Verify.
  destruct method; try discriminate;
    match goal with
    | |- context [(sig =? ?m)%string] => destruct (String.eqb_spec sig m)
    end; try discriminate; intros _; split; auto.
Qed.

(** What [ValidateToken] has checked when it returns a subject. *)
Lemma ValidateToken_Ok (L : jwt.Lib) (j : service.jwtService) (token : string)
  (w : World) (userID : UUID) :
  fst (service.ValidateToken L j token w) = Ok userID ->
  exists p0 p1 p2 header name method claimBytes claims sig,
    jwt.Split token "."%char = [p0; p1; p2]
    /\ jwt.DecodeSegment p0 = Some header
    /\ jwt.unmarshalHeader L header = Some (Some name)
    /\ jwt.GetSigningMethod name = Some method
    /\ (method = jwt.HS256 \/ method = jwt.HS384 \/ method = jwt.HS512)
    /\ jwt.DecodeSegment p1 = Some claimBytes
    /\ jwt.unmarshalClaims L claimBytes = Some claims
    /\ jwt.DecodeSegment p2 = Some sig
    /\ sig = jwt.hmac L method (service.secretKey j) (p0 ++ "." ++ p1)
    /\ (forall exp, jwt.ExpiresAt claims = Some exp -> fst (time_Now w) < exp)
    /\ (forall nbf, jwt.NotBefore claims = Some nbf -> nbf <= fst (time_Now w))
    /\ userID = jwt.UserID claims.
Proof.
  unfold service.ValidateToken, jwt.ParseWithClaims, bind at 1.
  destruct (jwt.Split token "."%char) as [|p0 [|p1 [|p2 [|p3 l]]]]; try discriminate.
  destruct (jwt.DecodeSegment p0) as [header|] eqn:E0; [|discriminate].
  destruct (jwt.unmarshalHeader L header) as [alg|] eqn:E1; [|discriminate].
  destruct (jwt.DecodeSegment p1) as [claimBytes|] eqn:E2; [|discriminate].
  destruct (jwt.unmarshalClaims L claimBytes) as [claims|] eqn:E3; [|discriminate].
  destruct alg as [name|]; [|discriminate].
  destruct (jwt.GetSigningMethod name) as [method|] eqn:E4; [|discriminate].
  destruct (jwt.DecodeSegment p2) as [sig|] eqn:E5; [|discriminate].
  destruct (jwt.Verify L method (p0 ++ "." ++ p1) sig (service.secretKey j)) as [e|] eqn:E6;
    [discriminate|].
  apply Verify_None in E6. destruct E6 as [Hm Hsig].
  unfold bind at 1.
  pose proof (@Validate_None claims w) as V.
  destruct (jwt.Validate claims w) as [[e|] w1]; [discriminate|].
  destruct (V eq_refl) as [Vexp Vnbf]. cbn [fst ret].
  intros Hres. apply Ok_inj in Hres.
  exists p0, p1, p2, header, name, method, claimBytes, claims, sig.
  repeat split; auto.
Qed.

(** C3, as the claim states it, fails: in the signature segment of a token
    issued by [GenerateToken], the last character can be changed (here E
    into F) and the token is still accepted.  The segment codes 32 bytes in
    43 digits; two bits of the last digit belong to no byte, and the decoder
    of the parser does not look at them. *)
Lemma altered_signature_accepted :
  fst (service.GenerateToken sample.lib (service.mk "secret") 5%N sample.world_empty) =
    Ok "SFMyNTY.NSw4NjQwMDAwMDAwMDAwMCwwLDA.fm0-AtYraAy4DJhT__odtYKn9hiDWnYbeftQYMCZZ6E"
  /\ fst (service.ValidateToken sample.lib (service.mk "secret")
            "SFMyNTY.NSw4NjQwMDAwMDAwMDAwMCwwLDA.fm0-AtYraAy4DJhT__odtYKn9hiDWnYbeftQYMCZZ6F"
            sample.world_empty) = Ok 5%N.
Proof. split; vm_compute; reflexivity. Qed.

(** A token that parses to something else than three segments has no
    subject. *)
Lemma ValidateToken_segments (L : jwt.Lib) (j : service.jwtService) (token : string)
  (w : World) :
  List.length (jwt.Split token "."%char) <> 3%nat ->
  exists e, fst (service.ValidateToken L j token w) = Err e.
Proof.
  intros H. unfold service.ValidateToken, jwt.ParseWithClaims, bind, ret.
  destruct (jwt.Split token "."%char) as [|p0 [|p1 [|p2 [|p3 l]]]]; cbn [List.length] in H;
    try (eexists; reflexivity).
  contradiction.
Qed.

(** What is known of an accepted token that [SignedString] made: its two
    dates hold at the reading of the clock, and its signature is the keyed
    hash of its first two segments under the secret of the service. *)
Lemma ValidateToken_Ok_signed (L : jwt.Lib) (j : service.jwtService) (claims : jwt.Claims)
  (key' token : string) (w : World) (userID : UUID) :
  jwt.unmarshalHeader L (jwt.marshalHeader L jwt.HS256) = Some (Some "HS256") ->
  jwt.SignedString L jwt.HS256 claims key' = Ok token ->
  fst (service.ValidateToken L j token w) = Ok userID ->
  jwt.hmac L jwt.HS256 key'
    (jwt.EncodeSegment (jwt.marshalHeader L jwt.HS256) ++ "."
     ++ jwt.EncodeSegment (jwt.marshalClaims L claims)) =
  jwt.hmac L jwt.HS256 (service.secretKey j)
    (jwt.EncodeSegment (jwt.marshalHeader L jwt.HS256) ++ "."
     ++ jwt.EncodeSegment (jwt.marshalClaims L claims))
  /\ exists claims',
       jwt.unmarshalClaims L (jwt.marshalClaims L claims) = Some claims'
       /\ (forall exp, jwt.ExpiresAt claims' = Some exp -> fst (time_Now w) < exp)
       /\ (forall nbf, jwt.NotBefore claims' = Some nbf -> nbf <= fst (time_Now w)).
Proof.
  intros Hh Hs E. apply ValidateToken_Ok in E.
  destruct E as (p0 & p1 & p2 & header & name & method & cb & c & sig & Hsplit & H0
                 & H1 & H2 & _ & H3 & H4 & H5 & H6 & He & Hn & _).
  unfold jwt.SignedString, jwt.Sign in Hs. apply Ok_inj in Hs. subst token.
  rewrite Split_token in Hsplit. inversion Hsplit; subst p0 p1 p2. clear Hsplit.
  rewrite DecodeSegment_EncodeSegment in H0, H3, H5.
  apply (f_equal (fun o => match o with Some x => x | None => "" end)) in H0, H3, H5.
  subst header cb. rewrite Hh in H1. inversion H1; subst name.
  inversion H2; subst method.
  split; [transitivity sig; [exact H5|exact H6]|]. exists c. auto.
Qed.

(** C3, amended.  [ValidateToken] returns a subject only for a token of
    exactly three segments whose header and claims decode, whose header
    names one of the HMAC methods, whose signature segment decodes to the
    keyed hash, under the secret of the service, of the first two segments
    as they are written, whose [exp], if present, is after the reading of
    the clock and whose [nbf], if present, is not; the subject is the
    [user_id] of the claims.  Hence it fails for a token signed with a
    secret that gives another keyed hash of these two segments, for a token
    whose [exp] has passed or whose [nbf] is still to come, and for a text
    that is not three segments.  A token that differs from another only in
    its signature segment, by a segment that decodes to the same bytes, is
    accepted when the other is, with the same subject. *)
Theorem ValidateToken_rejects
  (L : jwt.Lib) (j : service.jwtService) (token : string) (w : World) :
  (forall userID,
      fst (service.ValidateToken L j token w) = Ok userID ->
      exists p0 p1 p2 header name method claimBytes claims sig,
        jwt.Split token "."%char = [p0; p1; p2]
        /\ jwt.DecodeSegment p0 = Some header
        /\ jwt.unmarshalHeader L header = Some (Some name)
        /\ jwt.GetSigningMethod name = Some method
        /\ (method = jwt.HS256 \/ method = jwt.HS384 \/ method = jwt.HS512)
        /\ jwt.DecodeSegment p1 = Some claimBytes
        /\ jwt.unmarshalClaims L claimBytes = Some claims
        /\ jwt.DecodeSegment p2 = Some sig
        /\ sig = jwt.hmac L method (service.secretKey j) (p0 ++ "." ++ p1)
        /\ (forall exp, jwt.ExpiresAt claims = Some exp -> fst (time_Now w) < exp)
        /\ (forall nbf, jwt.NotBefore claims = Some nbf -> nbf <= fst (time_Now w))
        /\ userID = jwt.UserID claims)
  /\ (forall claims key',
         jwt.unmarshalHeader L (jwt.marshalHeader L jwt.HS256) = Some (Some "HS256") ->
         jwt.SignedString L jwt.HS256 claims key' = Ok token ->
         jwt.hmac L jwt.HS256 key'
           (jwt.EncodeSegment (jwt.marshalHeader L jwt.HS256) ++ "."
            ++ jwt.EncodeSegment (jwt.marshalClaims L claims)) <>
         jwt.hmac L jwt.HS256 (service.secretKey j)
           (jwt.EncodeSegment (jwt.marshalHeader L jwt.HS256) ++ "."
            ++ jwt.EncodeSegment (jwt.marshalClaims L claims)) ->
         exists e, fst (service.ValidateToken L j token w) = Err e)
  /\ (forall claims key',
         jwt.unmarshalHeader L (jwt.marshalHeader L jwt.HS256) = Some (Some "HS256") ->
         jwt.unmarshalClaims L (jwt.marshalClaims L claims) = Some claims ->
         jwt.SignedString L jwt.HS256 claims key' = Ok token ->
         (exists exp, jwt.ExpiresAt claims = Some exp /\ exp <= fst (time_Now w))
         \/ (exists nbf, jwt.NotBefore claims = Some nbf /\ fst (time_Now w) < nbf) ->
         exists e, fst (service.ValidateToken L j token w) = Err e)
  /\ (List.length (jwt.Split token "."%char) <> 3%nat ->
      exists e, fst (service.ValidateToken L j token w) = Err e)
  /\ (forall token' p0 p1 p2 p2',
         jwt.Split token "."%char = [p0; p1; p2] ->
         jwt.Split token' "."%char = [p0; p1; p2'] ->
         jwt.DecodeSegment p2' = jwt.DecodeSegment p2 ->
         forall userID,
           fst (service.ValidateToken L j token' w) = Ok userID
           <-> fst (service.ValidateToken L j token w) = Ok userID).
Proof.
  split; [|split; [|split; [|split]]].
  - intros userID. apply ValidateToken_Ok.
  - intros claims key' Hh Hs Hmac.
    destruct (fst (service.ValidateToken L j token w)) as [userID|e] eqn:E;
      [|now exists e].
    exfalso. apply Hmac. exact (proj1 (ValidateToken_Ok_signed j w Hh Hs E)).
  - intros claims key' Hh Hc Hs Hdate.
    destruct (fst (service.ValidateToken L j token w)) as [userID|e] eqn:E;
      [|now exists e].
    exfalso. destruct (ValidateToken_Ok_signed j w Hh Hs E) as (_ & c & Hc' & He & Hn).
    rewrite Hc in Hc'. inversion Hc'; subst c.
    destruct Hdate as [(exp & Hexp & Hle)|(nbf & Hnbf & Hlt)].
    + specialize (He exp Hexp). lia.
    + specialize (Hn nbf Hnbf). lia.
  - apply ValidateToken_segments.
  - intros token' p0 p1 p2 p2' Hs Hs' Hd userID.
    assert (E : service.ValidateToken L j token' w = service.ValidateToken L j token w)
      by (unfold service.ValidateToken, jwt.ParseWithClaims; now rewrite Hs, Hs', Hd).
    now rewrite E.
Qed.

(** The token issued to subject 5 at time 0 under the secret "secret",
    which expires after 24 hours: the same claims signed with another
    secret are turned down; the token is turned down at its expiry; its
    first two segments alone are turned down; and the token whose last
    character was changed from E to F is accepted as the issued one is. *)
Lemma ValidateToken_rejects_witness :
  (exists e,
      fst (service.ValidateToken sample.lib (service.mk "secret")
             "SFMyNTY.NSw4NjQwMDAwMDAwMDAwMCwwLDA.oYYRmq4NVJU7WF8xJWLDdB_uKF-oFJUtUvgx7ZXE8T0"
             sample.world_empty) = Err e)
  /\ (exists e,
         fst (service.ValidateToken sample.lib (service.mk "secret")
                "SFMyNTY.NSw4NjQwMDAwMDAwMDAwMCwwLDA.fm0-AtYraAy4DJhT__odtYKn9hiDWnYbeftQYMCZZ6E"
                (mkWorld (mkDatabase [] [] []) 86400000000000 [] [] [])) = Err e)
  /\ (exists e,
         fst (service.ValidateToken sample.lib (service.mk "secret")
                "SFMyNTY.NSw4NjQwMDAwMDAwMDAwMCwwLDA" sample.world_empty) = Err e)
  /\ (fst (service.ValidateToken sample.lib (service.mk "secret")
             "SFMyNTY.NSw4NjQwMDAwMDAwMDAwMCwwLDA.fm0-AtYraAy4DJhT__odtYKn9hiDWnYbeftQYMCZZ6F"
             sample.world_empty) = Ok 5%N
      <-> fst (service.ValidateToken sample.lib (service.mk "secret")
                 "SFMyNTY.NSw4NjQwMDAwMDAwMDAwMCwwLDA.fm0-AtYraAy4DJhT__odtYKn9hiDWnYbeftQYMCZZ6E"
                 sample.world_empty) = Ok 5%N).
Proof.
  split; [|split; [|split]].
  - apply (proj1 (proj2 (ValidateToken_rejects sample.lib (service.mk "secret")
                           "SFMyNTY.NSw4NjQwMDAwMDAwMDAwMCwwLDA.oYYRmq4NVJU7WF8xJWLDdB_uKF-oFJUtUvgx7ZXE8T0"
                           sample.world_empty))
             (jwt.mkClaims 5%N (Some 86400000000000) (Some 0) (Some 0)) "other").
    + reflexivity.
    + vm_compute. reflexivity.
    + vm_compute. discriminate.
  - apply (proj1 (proj2 (proj2 (ValidateToken_rejects sample.lib (service.mk "secret")
                           "SFMyNTY.NSw4NjQwMDAwMDAwMDAwMCwwLDA.fm0-AtYraAy4DJhT__odtYKn9hiDWnYbeftQYMCZZ6E"
                           (mkWorld (mkDatabase [] [] []) 86400000000000 [] [] []))))
             (jwt.mkClaims 5%N (Some 86400000000000) (Some 0) (Some 0)) "secret").
    + reflexivity.
    + vm_compute. reflexivity.
    + vm_compute. reflexivity.
    + left. exists 86400000000000. split; [reflexivity|vm_compute; discriminate].
  - apply (proj1 (proj2 (proj2 (proj2 (ValidateToken_rejects sample.lib
                           (service.mk "secret") "SFMyNTY.NSw4NjQwMDAwMDAwMDAwMCwwLDA"
                           sample.world_empty))))).
    vm_compute. discriminate.
  - apply (proj2 (proj2 (proj2 (proj2 (ValidateToken_rejects sample.lib
                           (service.mk "secret")
                           "SFMyNTY.NSw4NjQwMDAwMDAwMDAwMCwwLDA.fm0-AtYraAy4DJhT__odtYKn9hiDWnYbeftQYMCZZ6E"
                           sample.world_empty))))
             _ "SFMyNTY" "NSw4NjQwMDAwMDAwMDAwMCwwLDA"
             "fm0-AtYraAy4DJhT__odtYKn9hiDWnYbeftQYMCZZ6E"
             "fm0-AtYraAy4DJhT__odtYKn9hiDWnYbeftQYMCZZ6F").
    + reflexivity.
    + reflexivity.
    + vm_compute. reflexivity.
Defined.

From Stdlib Require Import Permutation Sorted.

(** ** Messages: the table, the repository and the use case *)

(** What one [Query] does to the world. *)
Lemma Query_spec (A : Type) (q : Database -> list A) (w : World) :
  let w' := snd (postgres.Query q w) in
  fst (postgres.Query q w) =
    (if hd false (faults w) then Err postgres.driver_failure else Ok (q (db w)))
  /\ db w' = db w
  /\ clock w' = clock w + Z.of_N (hd 0%N (ticks w)) + Z.of_N (hd 0%N (tl (ticks w)))
  /\ ticks w' = tl (tl (ticks w))
  /\ faults w' = tl (faults w)
  /\ entropy w' = entropy w.
Proof.
  unfold postgres.Query. run.
  destruct (hd false (faults w)); cbn; repeat split; reflexivity.
Qed.

(** An identifier of [uuid.New] is never nil, and only the random source is
    used to make it. *)
Lemma uuid_New_spec (w : World) :
  fst (uuid_New w) <> uuid.Nil
  /\ db (snd (uuid_New w)) = db w
  /\ clock (snd (uuid_New w)) = clock w
  /\ ticks (snd (uuid_New w)) = ticks w
  /\ faults (snd (uuid_New w)) = faults w
  /\ entropy (snd (uuid_New w)) = tl (entropy w).
Proof.
  unfold uuid_New, rand_Read16, bind, ret, uuid.Nil. cbn [fst snd db clock ticks faults entropy].
  repeat split.
  intros H. apply (f_equal (fun n => N.testbit n 78)) in H.
  rewrite N.lor_spec in H.
  replace (N.testbit (N.lor (N.shiftl 4 76) (N.shiftl 2 62)) 78) with true in H
    by (vm_compute; reflexivity).
  rewrite orb_true_r in H. cbn in H. discriminate.
Qed.

Lemma insert_by_created_at_perm (m : Message.t) (l : list Message.t) :
  Permutation (m :: l) (sql.insert_by_created_at m l).
Proof.
  induction l as [|x l IH]; cbn; [apply Permutation_refl|].
  destruct (Message.CreatedAt m <? Message.CreatedAt x); [|apply Permutation_refl].
  eapply perm_trans; [apply perm_swap|]. apply perm_skip. exact IH.
Qed.

Lemma order_by_created_at_desc_perm (l : list Message.t) :
  Permutation l (sql.order_by_created_at_desc l).
Proof.
  induction l as [|x l IH]; cbn; [apply perm_nil|].
  eapply perm_trans; [|apply insert_by_created_at_perm].
  apply perm_skip. exact IH.
Qed.

Lemma insert_by_created_at_sorted (m : Message.t) (l : list Message.t) :
  StronglySorted sql.newest_first l ->
  StronglySorted sql.newest_first (sql.insert_by_created_at m l).
Proof.
  induction 1 as [|x l Hs IH Hx]; cbn.
  - constructor; constructor.
  - destruct (Message.CreatedAt m <? Message.CreatedAt x) eqn:E.
    + apply Z.ltb_lt in E. constructor; [exact IH|].
      eapply Permutation_Forall; [apply insert_by_created_at_perm|].
      constructor; [unfold sql.newest_first; lia|exact Hx].
    + apply Z.ltb_ge in E. constructor; [constructor; assumption|].
      constructor; [exact E|].
      eapply Forall_impl; [|exact Hx]. unfold sql.newest_first. intros; lia.
Qed.

Lemma order_by_created_at_desc_sorted (l : list Message.t) :
  StronglySorted sql.newest_first (sql.order_by_created_at_desc l).
Proof.
  induction l as [|x l IH]; cbn; [constructor|].
  apply insert_by_created_at_sorted. exact IH.
Qed.

(** [messageRepo.Create], by its answer. *)
Lemma messageRepo_Create_spec (m : Message.t) (w : World) :
  match fst (postgres.messageRepo.Create m w) with
  | None =>
      postgres.messageRepo.validateMessage m = None
      /\ hd false (faults w) = false
      /\ existsb (fun v => uuid.eqb (Message.ID v) (Message.ID m)) (messages (db w)) = false
      /\ existsb (fun u => uuid.eqb (User.ID u) (Message.UserID m)) (users (db w)) = true
      /\ db (snd (postgres.messageRepo.Create m w)) =
           mkDatabase (users (db w)) (sessions (db w)) (messages (db w) ++ [m])%list
  | Some _ => db (snd (postgres.messageRepo.Create m w)) = db w
  end.
Proof.
  unfold postgres.messageRepo.Create.
  destruct (postgres.messageRepo.validateMessage m) eqn:V; [reflexivity|].
  unfold bind.
  pose proof (QueryRow_spec (sql.insert_message m) w) as Q.
  destruct (postgres.QueryRow (sql.insert_message m) w) as [r w1].
  cbn [fst snd] in Q. destruct Q as (Hr & Hdb & _).
  destruct (hd false (faults w)) eqn:Hf.
  { subst r. cbn. exact Hdb. }
  unfold sql.insert_message in Hr, Hdb.
  destruct (existsb _ (messages (db w))) eqn:Hdup.
  { subst r. cbn in *. exact Hdb. }
  destruct (existsb _ (users (db w))) eqn:Hfk; cbn in Hr, Hdb; subst r; cbn.
  - repeat split; auto.
  - exact Hdb.
Qed.

Lemma find_app_last (A : Type) (p : A -> bool) (l : list A) (x : A) :
  existsb p l = false -> p x = true -> find p (l ++ [x]) = Some x.
Proof.
  induction l as [|y l IH]; cbn; intros H Hx.
  - now rewrite Hx.
  - apply orb_false_iff in H. destruct H as [Hy Hl]. rewrite Hy. now apply IH.
Qed.

(** [messageRepo.GetByID] when the round trip goes through. *)
Lemma messageRepo_GetByID_spec (id : UUID) (w : World) :
  id <> uuid.Nil ->
  hd false (faults w) = false ->
  fst (postgres.messageRepo.GetByID id w) =
    match find (fun m => uuid.eqb (Message.ID m) id) (messages (db w)) with
    | Some m => Ok m
    | None => Err (postgres_NotFoundError "message not found")
    end.
Proof.
  intros Hid Hf. unfold postgres.messageRepo.GetByID.
  destruct (uuid.eqb id uuid.Nil) eqn:E; [apply N.eqb_eq in E; contradiction|].
  unfold bind at 1.
  pose proof (QueryRow_spec (sql.select_message_by_id id) w) as Q.
  destruct (postgres.QueryRow (sql.select_message_by_id id) w) as [r w1].
  cbn [fst snd] in Q. destruct Q as (Hr & _). rewrite Hf in Hr.
  unfold sql.select_message_by_id in Hr.
  destruct (find _ (messages (db w))); cbn in Hr; subst r; reflexivity.
Qed.

(** A lookup of a message never changes the tables. *)
Lemma messageRepo_GetByID_db (id : UUID) (w : World) :
  db (snd (postgres.messageRepo.GetByID id w)) = db w.
Proof.
  unfold postgres.messageRepo.GetByID.
  destruct (uuid.eqb id uuid.Nil); [reflexivity|].
  unfold bind at 1.
  pose proof (QueryRow_spec (sql.select_message_by_id id) w) as Q.
  destruct (postgres.QueryRow (sql.select_message_by_id id) w) as [r w1].
  cbn [fst snd] in Q. destruct Q as (_ & Hdb & _).
  assert (Hdb' : db w1 = db w).
  { destruct (hd false (faults w)); [exact Hdb|].
    rewrite Hdb. unfold sql.select_message_by_id. now destruct (find _ _). }
  destruct r as [m|e]; [exact Hdb'|]. destruct e; exact Hdb'.
Qed.

(** [userRepo.GetByID], by its answer. *)
Lemma userRepo_GetByID_spec (id : UUID) (w : World) :
  db (snd (postgres.userRepo.GetByID id w)) = db w
  /\ match fst (postgres.userRepo.GetByID id w) with
     | Ok u =>
         id <> uuid.Nil /\ hd false (faults w) = false
         /\ find (fun u => uuid.eqb (User.ID u) id) (users (db w)) = Some u
     | Err _ =>
         id = uuid.Nil \/ hd false (faults w) = true
         \/ find (fun u => uuid.eqb (User.ID u) id) (users (db w)) = None
     end.
Proof.
  unfold postgres.userRepo.GetByID.
  destruct (uuid.eqb id uuid.Nil) eqn:E.
  { apply N.eqb_eq in E. cbn. auto. }
  apply N.eqb_neq in E. unfold bind.
  pose proof (QueryRow_spec (sql.select_user_by_id id) w) as Q.
  destruct (postgres.QueryRow (sql.select_user_by_id id) w) as [r w1].
  cbn [fst snd] in Q. destruct Q as (Hr & Hdb & _).
  unfold sql.select_user_by_id in Hr, Hdb.
  destruct (hd false (faults w)) eqn:Hf.
  { subst r. cbn. auto. }
  destruct (find _ (users (db w))) as [u|] eqn:Hfind; cbn in Hr, Hdb; subst r; cbn; auto.
Qed.

Lemma find_some_eqb (A : Type) (p : A -> bool) (l : list A) (x : A) :
  find p l = Some x -> In x l /\ p x = true.
Proof. apply find_some. Qed.

(** The time that passes between two readings of the clock is not negative. *)
Lemma time_Now_twice (w : World) :
  fst (time_Now w) <= fst (time_Now (snd (time_Now w))).
Proof. unfold time_Now; cbn. lia. Qed.

Ltac wire :=
  unfold main.messageUsecase, main.userUsecase, main.sessionUsecase,
    main.userRepo, main.messageRepo, main.sessionRepo,
    main.hashService, main.jwtService,
    service.NewHashService, service.NewJWTService,
    postgres.NewUserRepository, postgres.NewMessageRepository,
    postgres.NewSessionRepository in *;
  cbn [message.userRepo message.messageRepo
       HashService.HashPassword HashService.CheckPasswordHash
       JWTService.GenerateToken JWTService.ValidateToken
       user.userRepo user.sessionRepo user.hashService user.jwtService
       session.sessionRepo session.jwtService
       UserRepository.Create UserRepository.GetByID UserRepository.GetByEmail
       UserRepository.Delete
       MessageRepository.Create MessageRepository.GetByID MessageRepository.GetByUserID
       MessageRepository.GetAll MessageRepository.Delete
       SessionRepository.Create SessionRepository.GetByToken SessionRepository.GetByUserID
       SessionRepository.Delete SessionRepository.DeleteByToken] in *.

Lemma Message_Validate_None (m : Message.t) :
  Message.Validate m = None ->
  Message.UserID m <> uuid.Nil /\ 1 <= len (Message.Content m) <= 1000.
Proof.
  unfold Message.Validate.
  destruct (uuid.eqb (Message.UserID m) uuid.Nil) eqn:E; [discriminate|].
  destruct (Message.Content m =? "")%string eqn:C; [discriminate|].
  destruct (1000 <? len (Message.Content m)) eqn:L; [discriminate|].
  intros _. apply N.eqb_neq in E. apply String.eqb_neq in C. apply Z.ltb_ge in L.
  split; [exact E|]. split; [|exact L].
  unfold len. destruct (Message.Content m); [contradiction|]. cbn [String.length]. lia.
Qed.

(** What [CreateMessage] returns and what it does to the tables. *)
Lemma CreateMessage_spec (userID : UUID) (content : string) (w : World) :
  let r := message.CreateMessage main.messageUsecase userID content w in
  match fst r with
  | inr msg =>
      Message.UserID msg = userID
      /\ Message.Content msg = content
      /\ Message.ID msg <> uuid.Nil
      /\ 1 <= len content <= 1000
      /\ Message.CreatedAt msg <= Message.UpdatedAt msg
      /\ (exists u, find (fun u => uuid.eqb (User.ID u) userID) (users (db w)) = Some u)
      /\ existsb (fun v => uuid.eqb (Message.ID v) (Message.ID msg)) (messages (db w)) = false
      /\ db (snd r) =
           mkDatabase (users (db w)) (sessions (db w)) (messages (db w) ++ [msg])%list
  | inl _ => db (snd r) = db w
  end.
Proof.
  unfold message.CreateMessage. wire. unfold bind, ret.
  pose proof (userRepo_GetByID_spec userID w) as G.
  destruct (postgres.userRepo.GetByID userID w) as [[u|e] w1]; cbn [fst snd] in G;
    destruct G as (Hdb1 & G); [|exact Hdb1].
  destruct G as (Hid & Hf & Hfind).
  pose proof (uuid_New_spec w1) as U.
  destruct (uuid_New w1) as [id w2]. cbn [fst snd] in U.
  destruct U as (Hnil & Hdb2 & _).
  pose proof (time_Now_twice w2) as T.
  destruct (time_Now w2) as [t1 w3] eqn:N1. cbn [fst snd] in T.
  assert (Hdb3 : db w3 = db w2) by (unfold time_Now in N1; inversion N1; reflexivity).
  destruct (time_Now w3) as [t2 w4] eqn:N2. cbn [fst snd] in T.
  assert (Hdb4 : db w4 = db w3) by (unfold time_Now in N2; inversion N2; reflexivity).
  assert (E : db w4 = db w) by (rewrite Hdb4, Hdb3, Hdb2; exact Hdb1).
  destruct (Message.Validate (Message.mk id userID content t1 t2)) eqn:V.
  { exact E. }
  apply Message_Validate_None in V. cbn [Message.UserID Message.Content] in V.
  pose proof (messageRepo_Create_spec (Message.mk id userID content t1 t2) w4) as C.
  destruct (postgres.messageRepo.Create (Message.mk id userID content t1 t2) w4)
    as [[e|] w5]; unfold ret; cbn [fst snd] in C |- *.
  { rewrite C. exact E. }
  destruct C as (_ & _ & Hdup & _ & Hdb5).
  rewrite E in Hdup, Hdb5.
  cbn [Message.UserID Message.Content Message.ID Message.CreatedAt Message.UpdatedAt].
  repeat split; try tauto; try lia; try assumption.
  now exists u.
Qed.

(** X1. [CreateMessage] either adds one message to the table, the one it
    returns: of the user given, who is in the table of users, with the
    content given, of 1 to 1000 bytes, under an identifier that is not nil
    and that no message had; or it fails and leaves the tables as they
    were. *)
Theorem CreateMessage_adds_one_or_nothing (userID : UUID) (content : string) (w : World) :
  let r := message.CreateMessage main.messageUsecase userID content w in
  match fst r with
  | inr msg =>
      Message.UserID msg = userID
      /\ Message.Content msg = content
      /\ Message.ID msg <> uuid.Nil
      /\ 1 <= len content <= 1000
      /\ Message.CreatedAt msg <= Message.UpdatedAt msg
      /\ (exists u, In u (users (db w)) /\ User.ID u = userID)
      /\ (forall m, In m (messages (db w)) -> Message.ID m <> Message.ID msg)
      /\ users (db (snd r)) = users (db w)
      /\ sessions (db (snd r)) = sessions (db w)
      /\ (exists m, messages (db (snd r)) = (messages (db w) ++ [m])%list
                    /\ Message.ID m = Message.ID msg
                    /\ Message.UserID m = userID
                    /\ Message.Content m = content)
  | inl _ => db (snd r) = db w
  end.
Proof.
  cbv zeta. pose proof (CreateMessage_spec userID content w) as C. cbv zeta in C.
  destruct (message.CreateMessage main.messageUsecase userID content w) as [[e|msg] w'];
    cbn [fst snd] in *; [exact C|].
  destruct C as (Hu & Hc & Hnil & Hlen & Ht & (u & Hfind) & Hdup & Hdb).
  rewrite Hdb. cbn [users sessions messages].
  repeat split; try assumption; try lia.
  - destruct (find_some _ _ Hfind) as [Hin Heq]. exists u. split; [exact Hin|].
    now apply N.eqb_eq in Heq.
  - intros m Hin Hm.
    assert (X : existsb (fun v => uuid.eqb (Message.ID v) (Message.ID msg))
                  (messages (db w)) = true).
    { apply existsb_exists. exists m. split; [exact Hin|]. now apply N.eqb_eq. }
    congruence.
  - exists msg. auto.
Qed.

(** X2. A message that [CreateMessage] returned is found again by
    [GetMessageByID] under its identifier, with its owner and its content,
    whenever the table is as [CreateMessage] left it and the round trip of
    the lookup does not fail. *)
Theorem created_message_is_found (userID : UUID) (content : string) (w w2 : World)
  (msg : Message.t) :
  fst (message.CreateMessage main.messageUsecase userID content w) = inr msg ->
  db w2 = db (snd (message.CreateMessage main.messageUsecase userID content w)) ->
  hd false (faults w2) = false ->
  exists m,
    fst (message.GetMessageByID main.messageUsecase (Message.ID msg) w2) = inr m
    /\ Message.ID m = Message.ID msg
    /\ Message.UserID m = userID
    /\ Message.Content m = content.
Proof.
  intros H Hdb Hf.
  pose proof (CreateMessage_spec userID content w) as C.
  cbv zeta in C. rewrite H in C.
  destruct C as (Hu & Hc & Hnil & _ & _ & _ & Hdup & Hm).
  exists msg. unfold message.GetMessageByID. wire. unfold bind, ret.
  pose proof (messageRepo_GetByID_spec w2 Hnil Hf) as G.
  destruct (postgres.messageRepo.GetByID (Message.ID msg) w2) as [r w3].
  cbn [fst] in G. subst r. rewrite Hdb, Hm. cbn [messages].
  rewrite find_app_last; [cbn; auto|exact Hdup|apply N.eqb_refl].
Qed.

Lemma created_message_is_found_witness :
  exists m,
    fst (message.GetMessageByID main.messageUsecase 302240678275694148452451%N
           (snd (message.CreateMessage main.messageUsecase 1%N "hey" sample.world_chat)))
      = inr m
    /\ Message.ID m = 302240678275694148452451%N
    /\ Message.UserID m = 1%N
    /\ Message.Content m = "hey".
Proof.
  apply (@created_message_is_found 1%N "hey" sample.world_chat
           (snd (message.CreateMessage main.messageUsecase 1%N "hey" sample.world_chat))
           (Message.mk 302240678275694148452451%N 1%N "hey" 13 14));
    reflexivity.
Defined.

(** The rows [messageRepo.GetByUserID] and [messageRepo.GetAll] return are
    those of their statements; the tables stay as they are. *)
Lemma messageRepo_GetByUserID_spec (userID : UUID) (w : World) :
  db (snd (postgres.messageRepo.GetByUserID userID w)) = db w
  /\ forall l, fst (postgres.messageRepo.GetByUserID userID w) = Ok l ->
               l = sql.select_messages_by_user userID (db w).
Proof.
  unfold postgres.messageRepo.GetByUserID.
  destruct (uuid.eqb userID uuid.Nil); [split; [reflexivity|discriminate]|].
  unfold bind.
  pose proof (Query_spec (sql.select_messages_by_user userID) w) as Q.
  destruct (postgres.Query (sql.select_messages_by_user userID) w) as [q w1].
  cbn [fst snd] in Q. destruct Q as (Hq & Hdb & _).
  destruct (hd false (faults w)); subst q; [split; [exact Hdb|discriminate]|].
  unfold postgres.scan_rows, bind, ret, next_fault. cbn [fst snd db].
  destruct (hd false (faults w1)); cbn [fst snd db]; (split; [exact Hdb|]).
  - discriminate.
  - intros l H. now inversion H.
Qed.

Lemma messageRepo_GetAll_spec (w : World) :
  db (snd (postgres.messageRepo.GetAll w)) = db w
  /\ forall l, fst (postgres.messageRepo.GetAll w) = Ok l ->
               l = sql.select_messages (db w).
Proof.
  unfold postgres.messageRepo.GetAll, bind.
  pose proof (Query_spec sql.select_messages w) as Q.
  destruct (postgres.Query sql.select_messages w) as [q w1].
  cbn [fst snd] in Q. destruct Q as (Hq & Hdb & _).
  destruct (hd false (faults w)); subst q; [split; [exact Hdb|discriminate]|].
  unfold postgres.scan_rows, bind, ret, next_fault. cbn [fst snd db].
  destruct (hd false (faults w1)); cbn [fst snd db]; (split; [exact Hdb|]).
  - discriminate.
  - intros l H. now inversion H.
Qed.

Lemma GetMessagesByUser_spec (userID : UUID) (w : World) :
  db (snd (message.GetMessagesByUser main.messageUsecase userID w)) = db w
  /\ forall l, fst (message.GetMessagesByUser main.messageUsecase userID w) = inr l ->
               l = sql.select_messages_by_user userID (db w)
               /\ exists u, In u (users (db w)) /\ User.ID u = userID.
Proof.
  unfold message.GetMessagesByUser. wire. unfold bind, ret.
  pose proof (userRepo_GetByID_spec userID w) as G.
  destruct (postgres.userRepo.GetByID userID w) as [[u|e] w1]; cbn [fst snd] in G;
    destruct G as (Hdb1 & G); [|split; [exact Hdb1|discriminate]].
  destruct G as (_ & _ & Hfind).
  destruct (messageRepo_GetByUserID_spec userID w1) as [Hdb2 Hl].
  destruct (postgres.messageRepo.GetByUserID userID w1) as [[l|e] w2];
    cbn [fst snd] in *; (split; [now rewrite Hdb2|]); [|discriminate].
  intros l' H. inversion H; subst l'. rewrite (Hl l eq_refl), Hdb1.
  split; [reflexivity|].
  destruct (find_some _ _ Hfind) as [Hin Heq]. exists u. split; [exact Hin|].
  now apply N.eqb_eq in Heq.
Qed.

(** X3. What [GetMessagesByUser] returns is the messages of that user in the
    table, each once and no other, the newest first; the user is in the
    table of users, and the tables are left as they were. *)
Theorem GetMessagesByUser_own_messages_newest_first (userID : UUID) (w : World)
  (l : list Message.t) :
  fst (message.GetMessagesByUser main.messageUsecase userID w) = inr l ->
  Permutation l (filter (fun m => uuid.eqb (Message.UserID m) userID) (messages (db w)))
  /\ Forall (fun m => Message.UserID m = userID) l
  /\ StronglySorted sql.newest_first l
  /\ (exists u, In u (users (db w)) /\ User.ID u = userID)
  /\ db (snd (message.GetMessagesByUser main.messageUsecase userID w)) = db w.
Proof.
  intros H. destruct (GetMessagesByUser_spec userID w) as [Hdb Hl].
  destruct (Hl l H) as [-> Hu]. unfold sql.select_messages_by_user.
  assert (P : Permutation
                (sql.order_by_created_at_desc
                   (filter (fun m => uuid.eqb (Message.UserID m) userID) (messages (db w))))
                (filter (fun m => uuid.eqb (Message.UserID m) userID) (messages (db w))))
    by (apply Permutation_sym, order_by_created_at_desc_perm).
  split; [exact P|]. split.
  - eapply Permutation_Forall; [apply Permutation_sym; exact P|].
    apply Forall_forall. intros m Hin. apply filter_In in Hin.
    destruct Hin as [_ Hm]. now apply N.eqb_eq in Hm.
  - split; [apply order_by_created_at_desc_sorted|]. split; [exact Hu|exact Hdb].
Qed.

Lemma GetMessagesByUser_own_messages_newest_first_witness :
  Permutation [sample.again; sample.hello]
    (filter (fun m => uuid.eqb (Message.UserID m) 1%N) (messages (db sample.world_chat)))
  /\ Forall (fun m => Message.UserID m = 1%N) [sample.again; sample.hello]
  /\ StronglySorted sql.newest_first [sample.again; sample.hello]
  /\ (exists u, In u (users (db sample.world_chat)) /\ User.ID u = 1%N)
  /\ db (snd (message.GetMessagesByUser main.messageUsecase 1%N sample.world_chat)) =
       db sample.world_chat.
Proof.
  apply (@GetMessagesByUser_own_messages_newest_first 1%N sample.world_chat
           [sample.again; sample.hello]).
  reflexivity.
Defined.

(** X4. [GetAllMessages] returns every message of the table once, the
    newest first, and leaves the tables as they were. *)
Theorem GetAllMessages_every_message_newest_first (w : World) (l : list Message.t) :
  fst (message.GetAllMessages main.messageUsecase w) = inr l ->
  Permutation l (messages (db w))
  /\ StronglySorted sql.newest_first l
  /\ db (snd (message.GetAllMessages main.messageUsecase w)) = db w.
Proof.
  unfold message.GetAllMessages. wire. unfold bind, ret.
  destruct (messageRepo_GetAll_spec w) as [Hdb Hl].
  destruct (postgres.messageRepo.GetAll w) as [[l'|e] w1]; cbn [fst snd] in *;
    [|discriminate].
  intros H. inversion H; subst l'. rewrite (Hl l eq_refl).
  split; [apply Permutation_sym, order_by_created_at_desc_perm|].
  split; [apply order_by_created_at_desc_sorted|exact Hdb].
Qed.

Lemma GetAllMessages_every_message_newest_first_witness :
  Permutation [sample.again; sample.hi; sample.hello] (messages (db sample.world_chat))
  /\ StronglySorted sql.newest_first [sample.again; sample.hi; sample.hello]
  /\ db (snd (message.GetAllMessages main.messageUsecase sample.world_chat)) =
       db sample.world_chat.
Proof.
  apply (@GetAllMessages_every_message_newest_first sample.world_chat
           [sample.again; sample.hi; sample.hello]).
  reflexivity.
Defined.

(** [messageRepo.Delete], by its answer. *)
Lemma messageRepo_Delete_spec (id : UUID) (w : World) :
  match fst (postgres.messageRepo.Delete id w) with
  | None =>
      id <> uuid.Nil
      /\ (exists m, In m (messages (db w)) /\ Message.ID m = id)
      /\ db (snd (postgres.messageRepo.Delete id w)) =
           mkDatabase (users (db w)) (sessions (db w))
             (filter (fun m => negb (uuid.eqb (Message.ID m) id)) (messages (db w)))
  | Some _ => db (snd (postgres.messageRepo.Delete id w)) = db w
  end.
Proof.
  unfold postgres.messageRepo.Delete.
  destruct (uuid.eqb id uuid.Nil) eqn:E; [reflexivity|].
  apply N.eqb_neq in E. unfold bind, ret.
  pose proof (QueryRow_spec (sql.delete_message_by_id id) w) as Q.
  destruct (postgres.QueryRow (sql.delete_message_by_id id) w) as [r w1].
  cbn [fst snd] in Q. destruct Q as (Hr & Hdb & _).
  unfold sql.delete_message_by_id in Hr, Hdb.
  destruct (hd false (faults w)).
  { subst r. cbn. exact Hdb. }
  destruct (find _ (messages (db w))) as [m|] eqn:Hfind; cbn in Hr, Hdb; subst r; cbn.
  - destruct (find_some _ _ Hfind) as [Hin Heq]. apply N.eqb_eq in Heq.
    split; [exact E|]. split; [now exists m|exact Hdb].
  - exact Hdb.
Qed.

Lemma DeleteMessage_spec (messageID : UUID) (w : World) :
  match fst (message.DeleteMessage main.messageUsecase messageID w) with
  | None =>
      messageID <> uuid.Nil
      /\ (exists m, In m (messages (db w)) /\ Message.ID m = messageID)
      /\ db (snd (message.DeleteMessage main.messageUsecase messageID w)) =
           mkDatabase (users (db w)) (sessions (db w))
             (filter (fun m => negb (uuid.eqb (Message.ID m) messageID)) (messages (db w)))
  | Some _ => db (snd (message.DeleteMessage main.messageUsecase messageID w)) = db w
  end.
Proof.
  unfold message.DeleteMessage. wire. unfold bind, ret.
  pose proof (messageRepo_Delete_spec messageID w) as D.
  destruct (postgres.messageRepo.Delete messageID w) as [[e|] w1]; exact D.
Qed.

(** X5. [DeleteMessage] either removes the messages under that identifier,
    of which there was one, and nothing else, after which [GetMessageByID]
    answers that the message is not found; or it fails and leaves the
    tables as they were. *)
Theorem DeleteMessage_removes_that_message (messageID : UUID) (w : World) :
  let r := message.DeleteMessage main.messageUsecase messageID w in
  match fst r with
  | None =>
      (exists m, In m (messages (db w)) /\ Message.ID m = messageID)
      /\ users (db (snd r)) = users (db w)
      /\ sessions (db (snd r)) = sessions (db w)
      /\ messages (db (snd r)) =
           filter (fun m => negb (uuid.eqb (Message.ID m) messageID)) (messages (db w))
      /\ (forall w2, db w2 = db (snd r) -> hd false (faults w2) = false ->
            fst (message.GetMessageByID main.messageUsecase messageID w2) =
              inl (message.passed (postgres_NotFoundError "message not found")))
  | Some _ => db (snd r) = db w
  end.
Proof.
  cbv zeta. pose proof (DeleteMessage_spec messageID w) as D.
  destruct (message.DeleteMessage main.messageUsecase messageID w) as [[e|] w1];
    cbn [fst snd] in *; [exact D|].
  destruct D as (Hnil & Hin & Hdb). rewrite Hdb. cbn [users sessions messages].
  repeat split; try assumption.
  intros w2 Hw2 Hf. unfold message.GetMessageByID. wire. unfold bind, ret.
  pose proof (messageRepo_GetByID_spec w2 Hnil Hf) as G.
  destruct (postgres.messageRepo.GetByID messageID w2) as [r w3].
  cbn [fst] in G. subst r. rewrite Hw2. cbn [messages].
  now rewrite (find_filter_negb (fun m => uuid.eqb (Message.ID m) messageID)).
Qed.

(** X6. When no user of the table has the identifier given, [CreateMessage]
    and [GetMessagesByUser] fail with the business error "user not found",
    and [CreateMessage] writes nothing. *)
Theorem message_use_case_needs_the_user (userID : UUID) (content : string) (w : World) :
  (forall u, In u (users (db w)) -> User.ID u <> userID) ->
  fst (message.CreateMessage main.messageUsecase userID content w) =
    inl (message.BusinessError "user not found")
  /\ fst (message.GetMessagesByUser main.messageUsecase userID w) =
       inl (message.BusinessError "user not found")
  /\ db (snd (message.CreateMessage main.messageUsecase userID content w)) = db w.
Proof.
  intros Hno.
  assert (G : exists e w1, postgres.userRepo.GetByID userID w = (Err e, w1)).
  { pose proof (userRepo_GetByID_spec userID w) as G.
    destruct (postgres.userRepo.GetByID userID w) as [[u|e] w1]; cbn [fst snd] in G;
      [|now exists e, w1].
    destruct G as (_ & _ & _ & Hfind). destruct (find_some _ _ Hfind) as [Hin Heq].
    apply N.eqb_eq in Heq. elim (Hno u Hin Heq). }
  destruct G as (e & w1 & G).
  pose proof (CreateMessage_spec userID content w) as C. cbv zeta in C.
  unfold message.CreateMessage, message.GetMessagesByUser in *. wire.
  unfold bind, ret in *. rewrite G in *. cbn [fst snd] in *. auto.
Qed.

Lemma message_use_case_needs_the_user_witness :
  fst (message.CreateMessage main.messageUsecase 3%N "hey" sample.world_chat) =
    inl (message.BusinessError "user not found")
  /\ fst (message.GetMessagesByUser main.messageUsecase 3%N sample.world_chat) =
       inl (message.BusinessError "user not found")
  /\ db (snd (message.CreateMessage main.messageUsecase 3%N "hey" sample.world_chat)) =
       db sample.world_chat.
Proof.
  apply (@message_use_case_needs_the_user 3%N "hey" sample.world_chat).
  intros u [<-|[<-|[]]]; discriminate.
Defined.

(** X7. The repository repeats the validation of the entity: it turns down
    a user, or a message, exactly when [Validate] does, with the same
    text. *)
Theorem repository_validation_repeats_entity :
  (forall u : User.t,
     option_map handler.Error_of (postgres.userRepo.validateUser u) =
     option_map handler.Error_of (User.Validate u))
  /\ (forall m : Message.t,
        option_map handler.Error_of (postgres.messageRepo.validateMessage m) =
        option_map handler.Error_of (Message.Validate m)).
Proof.
  split.
  - intros u. unfold postgres.userRepo.validateUser, User.Validate.
    repeat match goal with |- context [if ?b then _ else _] => destruct b end; reflexivity.
  - intros m. unfold postgres.messageRepo.validateMessage, Message.Validate.
    repeat match goal with |- context [if ?b then _ else _] => destruct b end; reflexivity.
Qed.


(** ** Sessions: the table, the repository and the use case *)

Lemma time_Now_spec (w : World) :
  clock w <= fst (time_Now w)
  /\ clock (snd (time_Now w)) = fst (time_Now w)
  /\ db (snd (time_Now w)) = db w
  /\ faults (snd (time_Now w)) = faults w
  /\ entropy (snd (time_Now w)) = entropy w.
Proof. unfold time_Now; cbn. repeat split; lia. Qed.

(** [Session.Validate] reads the clock at most once and nothing else. *)
Lemma Session_Validate_spec (s : Session.t) (w : World) :
  clock w <= clock (snd (Session_Validate s w))
  /\ db (snd (Session_Validate s w)) = db w
  /\ faults (snd (Session_Validate s w)) = faults w
  /\ (fst (Session_Validate s w) = None ->
      Session.UserID s <> uuid.Nil /\ Session.Token s <> ""
      /\ clock (snd (Session_Validate s w)) <= Session.ExpiresAt s).
Proof.
  unfold Session_Validate.
  destruct (uuid.eqb (Session.UserID s) uuid.Nil) eqn:E1;
    [cbn; repeat split; try lia; discriminate|].
  destruct (Session.Token s =? "")%string eqn:E2;
    [cbn; repeat split; try lia; discriminate|].
  destruct (time.IsZero (Session.ExpiresAt s));
    [cbn; repeat split; try lia; discriminate|].
  unfold bind, ret. destruct (time_Now_spec w) as (H1 & H2 & H3 & H4 & _).
  destruct (time_Now w) as [now w1]. cbn [fst snd] in *.
  apply N.eqb_neq in E1. apply String.eqb_neq in E2.
  destruct (time.Before (Session.ExpiresAt s) now) eqn:B; cbn [fst snd];
    repeat split; try lia; try assumption; try discriminate.
  unfold time.Before in B. apply Z.ltb_ge in B. lia.
Qed.

Lemma validateSession_spec (s : Session.t) (w : World) :
  clock w <= clock (snd (postgres.sessionRepo.validateSession s w))
  /\ db (snd (postgres.sessionRepo.validateSession s w)) = db w
  /\ faults (snd (postgres.sessionRepo.validateSession s w)) = faults w.
Proof.
  unfold postgres.sessionRepo.validateSession.
  destruct (uuid.eqb (Session.UserID s) uuid.Nil); [cbn; repeat split; lia|].
  destruct (Session.Token s =? "")%string; [cbn; repeat split; lia|].
  destruct (time.IsZero (Session.ExpiresAt s)); [cbn; repeat split; lia|].
  unfold bind, ret. destruct (time_Now_spec w) as (H1 & H2 & H3 & H4 & _).
  destruct (time_Now w) as [now w1]. cbn [fst snd] in *.
  destruct (time.Before (Session.ExpiresAt s) now); cbn [fst snd]; repeat split;
    try lia; assumption.
Qed.

(** [sessionRepo.Create], by its answer. *)
Lemma sessionRepo_Create_spec (s : Session.t) (w : World) :
  clock w <= clock (snd (postgres.sessionRepo.Create s w))
  /\ match fst (postgres.sessionRepo.Create s w) with
     | None =>
         hd false (faults w) = false
         /\ existsb (fun v => uuid.eqb (Session.ID v) (Session.ID s)
                              || (Session.Token v =? Session.Token s)%string)
              (sessions (db w)) = false
         /\ existsb (fun u => uuid.eqb (User.ID u) (Session.UserID s)) (users (db w)) = true
         /\ db (snd (postgres.sessionRepo.Create s w)) =
              mkDatabase (users (db w)) (sessions (db w) ++ [s])%list (messages (db w))
     | Some _ => db (snd (postgres.sessionRepo.Create s w)) = db w
     end.
Proof.
  unfold postgres.sessionRepo.Create, bind, ret.
  destruct (validateSession_spec s w) as (Hc1 & Hd1 & Hf1).
  destruct (postgres.sessionRepo.validateSession s w) as [[e|] w1]; cbn [fst snd] in *;
    [split; [lia|exact Hd1]|].
  pose proof (QueryRow_spec (sql.insert_session s) w1) as Q.
  destruct (postgres.QueryRow (sql.insert_session s) w1) as [r w2].
  cbn [fst snd] in Q. destruct Q as (Hr & Hdb & Hclock & _).
  assert (Hc2 : clock w <= clock w2) by lia.
  rewrite Hf1, Hd1 in *.
  destruct (hd false (faults w)).
  { subst r. cbn. split; [exact Hc2|exact Hdb]. }
  unfold sql.insert_session in Hr, Hdb.
  destruct (512 <? sql.char_length (Session.Token s)).
  { subst r. cbn in *. split; [exact Hc2|exact Hdb]. }
  destruct (existsb _ (sessions (db w))) eqn:Hdup.
  { subst r. cbn in *. split; [exact Hc2|exact Hdb]. }
  destruct (existsb _ (users (db w))) eqn:Hfk; cbn in Hr, Hdb; subst r; cbn;
    (split; [exact Hc2|]); auto.
Qed.

(** [GenerateToken] signs the claims of [newClaims]. *)
Lemma GenerateToken_spec (L : jwt.Lib) (secretKey : string) (userID : UUID) (w : World) :
  service.GenerateToken L (service.mk secretKey) userID w =
    (match jwt.SignedString L jwt.HS256 (fst (service.newClaims userID w)) secretKey with
     | Ok token => Ok token
     | Err err => Err err
     end, snd (service.newClaims userID w)).
Proof.
  unfold service.GenerateToken, bind, ret. cbn [service.secretKey].
  destruct (service.newClaims userID w) as [claims w0]. cbn [fst snd].
  destruct (jwt.SignedString L jwt.HS256 claims secretKey); reflexivity.
Qed.

Lemma newClaims_world (userID : UUID) (w : World) :
  fst (time_Now w) <= clock (snd (service.newClaims userID w))
  /\ db (snd (service.newClaims userID w)) = db w
  /\ faults (snd (service.newClaims userID w)) = faults w.
Proof.
  unfold service.newClaims, bind, ret, time_Now. cbn. repeat split; lia.
Qed.

(** What [CreateSession] returns and what it does to the tables. *)
Lemma CreateSession_spec (L : jwt.Lib) (secretKey : string) (userID : UUID) (w : World) :
  let r := session.CreateSession (main.sessionUsecase L secretKey) userID w in
  clock (snd (service.newClaims userID w)) <= clock (snd r)
  /\ match fst r with
     | Ok sess =>
         jwt.SignedString L jwt.HS256 (fst (service.newClaims userID w)) secretKey =
           Ok (Session.Token sess)
         /\ Session.UserID sess = userID
         /\ userID <> uuid.Nil
         /\ Session.Token sess <> ""
         /\ Session.ID sess <> uuid.Nil
         /\ clock (snd (service.newClaims userID w)) + 24 * time.Hour
              <= Session.ExpiresAt sess
         /\ Session.ExpiresAt sess <= Session.CreatedAt sess + 24 * time.Hour
         /\ Session.CreatedAt sess <= clock (snd r)
         /\ existsb (fun v => uuid.eqb (Session.ID v) (Session.ID sess)
                              || (Session.Token v =? Session.Token sess)%string)
              (sessions (db w)) = false
         /\ existsb (fun u => uuid.eqb (User.ID u) userID) (users (db w)) = true
         /\ db (snd r) =
              mkDatabase (users (db w)) (sessions (db w) ++ [sess])%list (messages (db w))
     | Err _ => db (snd r) = db w
     end.
Proof.
  cbv zeta. unfold session.CreateSession. wire. unfold bind, ret.
  rewrite GenerateToken_spec.
  destruct (newClaims_world userID w) as (_ & Hdb0 & _).
  destruct (service.newClaims userID w) as [claims w0]. cbn [fst snd] in *.
  destruct (jwt.SignedString L jwt.HS256 claims secretKey) as [token|e];
    [|cbn [fst snd]; split; [lia|exact Hdb0]].
  destruct (uuid_New_spec w0) as (Hnil & Hdb1 & Hc1 & _).
  destruct (uuid_New w0) as [id w1]. cbn [fst snd] in *.
  destruct (time_Now_spec w1) as (Ha1 & Ha2 & Ha3 & _).
  destruct (time_Now w1) as [t1 w2]. cbn [fst snd] in *.
  destruct (time_Now_spec w2) as (Hb1 & Hb2 & Hb3 & _).
  destruct (time_Now w2) as [t2 w3]. cbn [fst snd] in *.
  destruct (Session_Validate_spec (Session.mk id userID token (time.Add t1 (24 * time.Hour)) t2) w3)
    as (Hv1 & Hv2 & _ & Hv4).
  destruct (Session_Validate (Session.mk id userID token (time.Add t1 (24 * time.Hour)) t2) w3)
    as [[e|] w4]; cbn [fst snd] in *.
  { split; [lia|]. congruence. }
  destruct (Hv4 eq_refl) as (Hu & Ht & _). cbn [Session.UserID Session.Token] in Hu, Ht.
  destruct (sessionRepo_Create_spec (Session.mk id userID token (time.Add t1 (24 * time.Hour)) t2) w4)
    as (Hs1 & Hs2).
  destruct (postgres.sessionRepo.Create
              (Session.mk id userID token (time.Add t1 (24 * time.Hour)) t2) w4)
    as [[e|] w5]; cbn [fst snd] in *.
  { split; [lia|]. congruence. }
  destruct Hs2 as (_ & Hdup & Hfk & Hdb5).
  assert (E : db w4 = db w) by congruence. rewrite E in *.
  cbn [Session.UserID Session.Token Session.ID Session.ExpiresAt Session.CreatedAt] in *.
  unfold time.Add. repeat split; try assumption; try lia.
Qed.

(** The token service on a token it signed: the outcome is that of the
    check of the two dates at the next reading of the clock. *)
Lemma ValidateToken_signed (L : jwt.Lib) (secretKey : string) (claims : jwt.Claims)
  (token : string) (w : World) :
  jwt.unmarshalHeader L (jwt.marshalHeader L jwt.HS256) = Some (Some "HS256") ->
  jwt.unmarshalClaims L (jwt.marshalClaims L claims) = Some claims ->
  jwt.SignedString L jwt.HS256 claims secretKey = Ok token ->
  clock (snd (service.ValidateToken L (service.mk secretKey) token w)) = fst (time_Now w)
  /\ ((forall exp, jwt.ExpiresAt claims = Some exp -> fst (time_Now w) < exp) ->
      (forall nbf, jwt.NotBefore claims = Some nbf -> nbf <= fst (time_Now w)) ->
      fst (service.ValidateToken L (service.mk secretKey) token w) =
        Ok (jwt.UserID claims)).
Proof.
  intros Hh Hc Hs.
  destruct (@ParseWithClaims_SignedString L claims secretKey w Hh Hc) as (token' & Hs' & Hp).
  rewrite Hs in Hs'. apply Ok_inj in Hs'. subst token'.
  unfold service.ValidateToken, bind. cbn [service.secretKey]. rewrite Hp.
  unfold jwt.Validate, bind, ret.
  destruct (time_Now_spec w) as (_ & Hclock & _).
  destruct (time_Now w) as [now w1]. cbn [fst snd] in *. unfold time.Before.
  destruct (jwt.ExpiresAt claims) as [exp|]; destruct (jwt.NotBefore claims) as [nbf|];
    repeat match goal with
      | |- context [now <? ?x] => destruct (Z.ltb_spec now x); cbn [negb fst snd]
      end; (split; [exact Hclock|]); intros He Hn; try reflexivity;
    try (specialize (He _ eq_refl)); try (specialize (Hn _ eq_refl)); lia.
Qed.

(** The clock only moves forward during a delete. *)
Lemma DeleteByToken_clock (token : string) (w : World) :
  clock w <= clock (snd (postgres.sessionRepo.DeleteByToken token w)).
Proof.
  unfold postgres.sessionRepo.DeleteByToken.
  destruct (token =? "")%string; [cbn; lia|].
  unfold bind, ret.
  pose proof (QueryRow_spec (sql.delete_session_by_token token) w) as Q.
  destruct (postgres.QueryRow (sql.delete_session_by_token token) w) as [r w1].
  cbn [fst snd] in Q. destruct Q as (_ & _ & Hclock & _).
  destruct r as [s|e]; [cbn; lia|]. destruct e; cbn; lia.
Qed.

(** A session of the table under its token: the store returns it unless it
    has expired at the reading of the clock the store makes. *)
Lemma GetByToken_found (token : string) (w : World) (sess : Session.t) :
  token <> "" -> hd false (faults w) = false ->
  find (fun s => (Session.Token s =? token)%string) (sessions (db w)) = Some sess ->
  clock w <= clock (snd (postgres.sessionRepo.GetByToken token w))
  /\ ((fst (postgres.sessionRepo.GetByToken token w) = Ok sess
       /\ clock (snd (postgres.sessionRepo.GetByToken token w)) <= Session.ExpiresAt sess)
      \/ ((exists e, fst (postgres.sessionRepo.GetByToken token w) = Err e)
          /\ Session.ExpiresAt sess < clock (snd (postgres.sessionRepo.GetByToken token w)))).
Proof.
  intros Htok Hf Hfind. split; [apply GetByToken_clock|].
  unfold postgres.sessionRepo.GetByToken.
  apply String.eqb_neq in Htok. rewrite Htok. unfold bind, ret.
  pose proof (QueryRow_spec (sql.select_session_by_token token) w) as Q.
  destruct (postgres.QueryRow (sql.select_session_by_token token) w) as [r w1].
  cbn [fst snd] in Q. destruct Q as (Hr & _).
  rewrite Hf in Hr. destruct (select_session_by_token_spec token (db w)) as [_ Hfst].
  rewrite Hfst, Hfind in Hr. subst r.
  destruct (time_Now_spec w1) as (_ & Hclock & _).
  destruct (time_Now w1) as [now w2]. cbn [fst snd] in *. unfold time.Before.
  destruct (Z.ltb_spec (Session.ExpiresAt sess) now); cbn [fst snd].
  - right. split; [eexists; reflexivity|lia].
  - left. split; [reflexivity|lia].
Qed.

(** X8. [CreateSession] either adds one session to the table, the one it
    returns: of the user given, who is in the table of users, with the
    token [GenerateToken] made for that user, under an identifier and a
    token no session had, expiring no earlier than 24 hours after the call
    began and no later than 24 hours after its [CreatedAt]; or it fails and
    leaves the tables as they were. *)
Theorem CreateSession_adds_one_or_nothing (L : jwt.Lib) (secretKey : string)
  (userID : UUID) (w : World) :
  let r := session.CreateSession (main.sessionUsecase L secretKey) userID w in
  match fst r with
  | Ok sess =>
      Session.UserID sess = userID
      /\ userID <> uuid.Nil
      /\ Session.ID sess <> uuid.Nil
      /\ fst (service.GenerateToken L (service.mk secretKey) userID w) =
           Ok (Session.Token sess)
      /\ Session.Token sess <> ""
      /\ clock w + 24 * time.Hour <= Session.ExpiresAt sess
      /\ Session.ExpiresAt sess <= Session.CreatedAt sess + 24 * time.Hour
      /\ (exists u, In u (users (db w)) /\ User.ID u = userID)
      /\ (forall s, In s (sessions (db w)) ->
                    Session.ID s <> Session.ID sess
                    /\ Session.Token s <> Session.Token sess)
      /\ users (db (snd r)) = users (db w)
      /\ messages (db (snd r)) = messages (db w)
      /\ (exists s, sessions (db (snd r)) = (sessions (db w) ++ [s])%list
                    /\ Session.ID s = Session.ID sess
                    /\ Session.UserID s = userID
                    /\ Session.Token s = Session.Token sess)
  | Err _ => db (snd r) = db w
  end.
Proof.
  cbv zeta. destruct (CreateSession_spec L secretKey userID w) as [_ C].
  rewrite GenerateToken_spec. cbn [fst].
  destruct (newClaims_world userID w) as (Hc0 & _).
  pose proof (time_Now_spec w) as (Hc1 & _).
  destruct (session.CreateSession (main.sessionUsecase L secretKey) userID w)
    as [[sess|e] w']; cbn [fst snd] in *; [|exact C].
  destruct C as (Hs & Hu & Hnil & Ht & Hid & He1 & He2 & _ & Hdup & Hfk & Hdb).
  rewrite Hs, Hdb. cbn [users sessions messages].
  repeat split; try assumption; try lia.
  - apply existsb_exists in Hfk. destruct Hfk as (u & Hin & Hx).
    exists u. split; [exact Hin|]. now apply N.eqb_eq in Hx.
  - intros Hx.
    assert (X : existsb (fun v => uuid.eqb (Session.ID v) (Session.ID sess)
                                  || (Session.Token v =? Session.Token sess)%string)
                  (sessions (db w)) = true).
    { apply existsb_exists. exists s. split; [assumption|].
      apply orb_true_iff. left. now apply N.eqb_eq. }
    congruence.
  - intros Hx.
    assert (X : existsb (fun v => uuid.eqb (Session.ID v) (Session.ID sess)
                                  || (Session.Token v =? Session.Token sess)%string)
                  (sessions (db w)) = true).
    { apply existsb_exists. exists s. split; [assumption|].
      apply orb_true_iff. right. now apply String.eqb_eq. }
    congruence.
  - exists sess. auto.
Qed.

(** X9. A session that [CreateSession] returned passes [ValidateSession]
    under its token, and comes back with its identifier, user and token:
    whenever the table of sessions is as [CreateSession] left it, the clock
    has not gone back, the round trip of the lookup does not fail, and the
    check ends before the expiry written in the token (24 hours after the
    first reading of the clock by [CreateSession], cut to the second);
    provided the JSON coding gives back the header and the claims it was
    given. *)
Theorem created_session_validates (L : jwt.Lib) (secretKey : string) (userID : UUID)
  (w w2 : World) (sess : Session.t) :
  let s := main.sessionUsecase L secretKey in
  jwt.unmarshalHeader L (jwt.marshalHeader L jwt.HS256) = Some (Some "HS256") ->
  jwt.unmarshalClaims L (jwt.marshalClaims L (fst (service.newClaims userID w))) =
    Some (fst (service.newClaims userID w)) ->
  fst (session.CreateSession s userID w) = Ok sess ->
  sessions (db w2) = sessions (db (snd (session.CreateSession s userID w))) ->
  clock (snd (session.CreateSession s userID w)) <= clock w2 ->
  hd false (faults w2) = false ->
  clock (snd (session.ValidateSession s (Session.Token sess) w2))
    < jwt.NewNumericDate (fst (time_Now w) + 24 * time.Hour) ->
  exists s',
    fst (session.ValidateSession s (Session.Token sess) w2) = Ok s'
    /\ Session.ID s' = Session.ID sess
    /\ Session.UserID s' = userID
    /\ Session.Token s' = Session.Token sess.
Proof.
  intros s Hh Hc Hok Hdb2 Hclock2 Hf Hend. subst s.
  destruct (CreateSession_spec L secretKey userID w) as [Hc0 C].
  rewrite Hok in C.
  destruct C as (Hs & Hu & Hnil & Ht & Hid & He1 & He2 & _ & Hdup & Hfk & Hdb).
  destruct (newClaims_spec userID w) as (t2 & t3 & Ht23 & Hclk & Hclaims).
  cbv zeta in Ht23, Hclaims.
  pose proof (NewNumericDate_le (fst (time_Now w) + 24 * time.Hour)) as Hdead.
  pose proof (NewNumericDate_le t3) as Hnbf.
  set (deadline := jwt.NewNumericDate (fst (time_Now w) + 24 * time.Hour)) in *.
  assert (Hfind : find (fun x => (Session.Token x =? Session.Token sess)%string)
                    (sessions (db w2)) = Some sess).
  { rewrite Hdb2, Hdb. cbn [sessions]. apply find_app_last.
    - apply not_true_is_false. intros X. apply existsb_exists in X.
      destruct X as (x & Hin & Hx).
      assert (Y : existsb (fun v => uuid.eqb (Session.ID v) (Session.ID sess)
                                    || (Session.Token v =? Session.Token sess)%string)
                    (sessions (db w)) = true).
      { apply existsb_exists. exists x. split; [exact Hin|].
        apply orb_true_iff. now right. }
      congruence.
    - apply String.eqb_refl. }
  exists sess.
  pose proof (ValidateSession_cases (main.sessionUsecase L secretKey) (Session.Token sess) w2)
    as V.
  wire.
  destruct (GetByToken_found w2 Ht Hf Hfind) as [Hg1 Hg2].
  destruct (postgres.sessionRepo.GetByToken (Session.Token sess) w2) as [r w3].
  cbn [fst snd] in Hg1, Hg2.
  destruct Hg2 as [[-> Hg2]|[[e ->] Hg2]].
  2:{ rewrite V in Hend. cbn [snd] in Hend. lia. }
  destruct (time_Now_spec w3) as (Hn1 & Hn2 & _).
  destruct (time_Now w3) as [now w4]. cbn [fst snd] in *. unfold time.Before in V.
  destruct (Z.ltb_spec (Session.ExpiresAt sess) now).
  { rewrite V in Hend. cbn [snd] in Hend.
    pose proof (DeleteByToken_clock (Session.Token sess) w4). lia. }
  destruct (@ValidateToken_signed L secretKey _ _ w4 Hh Hc Hs) as [Hv1 Hv2].
  destruct (time_Now_spec w4) as (Hm1 & _).
  destruct (service.ValidateToken L (service.mk secretKey) (Session.Token sess) w4)
    as [v w5]. cbn [fst snd] in *.
  assert (Hv : v = Ok userID).
  { assert (Hlt : fst (time_Now w4) < deadline).
    { destruct v as [uid|e].
      - destruct (uuid.eqb uid (Session.UserID sess)); rewrite V in Hend;
          cbn [snd] in Hend; lia.
      - rewrite V in Hend. cbn [snd] in Hend. lia. }
    rewrite Hclaims in Hv2. cbn [jwt.ExpiresAt jwt.NotBefore jwt.UserID] in Hv2.
    apply Hv2; intros x Hx; inversion Hx; subst; fold deadline; lia. }
  subst v. rewrite Hu, N.eqb_refl in V. rewrite V. cbn [fst]. auto.
Qed.

(** A session made for alice at time 10 and checked at once. *)
Lemma created_session_validates_witness :
  exists s',
    fst (session.ValidateSession (main.sessionUsecase sample.lib "secret")
           (Session.Token
              (Session.mk 302240678275694148452451%N 1%N
              "SFMyNTY.MSw4NjQwMDAwMDAwMDAwMCwwLDA.fm0-AtYqTL1UohbccVhURjX8yn72nk9rbaQh8JdUTaA"
              86400000000014 15))
           (snd (session.CreateSession (main.sessionUsecase sample.lib "secret") 1%N
                   sample.world_chat))) = Ok s'
    /\ Session.ID s' =
         Session.ID
           (Session.mk 302240678275694148452451%N 1%N
              "SFMyNTY.MSw4NjQwMDAwMDAwMDAwMCwwLDA.fm0-AtYqTL1UohbccVhURjX8yn72nk9rbaQh8JdUTaA"
              86400000000014 15)
    /\ Session.UserID s' = 1%N
    /\ Session.Token s' =
         Session.Token
           (Session.mk 302240678275694148452451%N 1%N
              "SFMyNTY.MSw4NjQwMDAwMDAwMDAwMCwwLDA.fm0-AtYqTL1UohbccVhURjX8yn72nk9rbaQh8JdUTaA"
              86400000000014 15).
Proof.
  apply (@created_session_validates sample.lib "secret" 1%N sample.world_chat
           (snd (session.CreateSession (main.sessionUsecase sample.lib "secret") 1%N
                   sample.world_chat))
           (Session.mk 302240678275694148452451%N 1%N
              "SFMyNTY.MSw4NjQwMDAwMDAwMDAwMCwwLDA.fm0-AtYqTL1UohbccVhURjX8yn72nk9rbaQh8JdUTaA"
              86400000000014 15)).
  - reflexivity.
  - vm_compute. reflexivity.
  - vm_compute. reflexivity.
  - reflexivity.
  - vm_compute. discriminate.
  - reflexivity.
  - vm_compute. reflexivity.
Defined.

(** Two times of the same second are cut to the same second, and so are
    the times 24 hours after them. *)
Lemma NewNumericDate_div (t : Time) :
  jwt.NewNumericDate t = time.Second * (t / time.Second).
Proof.
  unfold jwt.NewNumericDate. rewrite Z.mod_eq by (unfold time.Second; discriminate).
  unfold Time in *. ring.
Qed.

Lemma NewNumericDate_same_second (t u : Time) :
  t / time.Second = u / time.Second ->
  jwt.NewNumericDate t = jwt.NewNumericDate u
  /\ jwt.NewNumericDate (t + 24 * time.Hour) = jwt.NewNumericDate (u + 24 * time.Hour).
Proof.
  intros H. rewrite !NewNumericDate_div.
  replace (24 * time.Hour) with (86400 * time.Second) by reflexivity.
  rewrite !Z.div_add by (unfold time.Second; discriminate). rewrite H. split; reflexivity.
Qed.

Lemma same_second_between (a t b : Time) :
  a <= t -> t <= b -> b / time.Second = a / time.Second ->
  t / time.Second = a / time.Second.
Proof.
  intros H1 H2 H. apply Z.le_antisymm.
  - rewrite <- H. apply Z.div_le_mono; [reflexivity|exact H2].
  - apply Z.div_le_mono; [reflexivity|exact H1].
Qed.

(** X10. A second [CreateSession] for the same user that ends within the
    second in which the first one began fails and stores nothing: the
    token carries its dates to the second, so the two tokens are the same,
    and the table of sessions takes a token once. *)
Theorem CreateSession_twice_in_one_second (L : jwt.Lib) (secretKey : string)
  (userID : UUID) (w : World) (sess : Session.t) :
  let s := main.sessionUsecase L secretKey in
  let w1 := snd (session.CreateSession s userID w) in
  fst (session.CreateSession s userID w) = Ok sess ->
  clock (snd (session.CreateSession s userID w1)) / time.Second =
    fst (time_Now w) / time.Second ->
  (exists e, fst (session.CreateSession s userID w1) = Err e)
  /\ db (snd (session.CreateSession s userID w1)) = db w1.
Proof.
  intros s w1 Hok. subst s w1.
  destruct (CreateSession_spec L secretKey userID w) as [Hc0 C].
  rewrite Hok in C.
  destruct C as (Hs & _ & _ & _ & _ & _ & _ & _ & _ & _ & Hdb).
  set (w1 := snd (session.CreateSession (main.sessionUsecase L secretKey) userID w)) in *.
  destruct (CreateSession_spec L secretKey userID w1) as [Hc1 C1].
  destruct (newClaims_spec userID w) as (a2 & a3 & Ha & Hclka & Hca).
  destruct (newClaims_spec userID w1) as (b2 & b3 & Hb & Hclkb & Hcb).
  cbv zeta in Ha, Hca, Hb, Hcb.
  pose proof (time_Now_spec w1) as (Hn1 & _).
  set (a1 := fst (time_Now w)) in *. set (b1 := fst (time_Now w1)) in *.
  set (B := clock (snd (session.CreateSession (main.sessionUsecase L secretKey) userID w1)))
    in *.
  assert (O : a1 <= a2 /\ a2 <= a3 /\ a3 <= b1 /\ b1 <= b2 /\ b2 <= b3 /\ b3 <= B) by lia.
  destruct O as (O1 & O2 & O3 & O4 & O5 & O6).
  clear Ha Hb Hclka Hclkb Hc0 Hc1 Hn1.
  intros Hsec.
  assert (Hclaims : fst (service.newClaims userID w1) = fst (service.newClaims userID w)).
  { rewrite Hca, Hcb.
    assert (F2 : a2 / time.Second = a1 / time.Second).
    { apply same_second_between with (b := B); [exact O1| |exact Hsec].
      repeat (eapply Z.le_trans; [eassumption|]). apply Z.le_refl. }
    assert (F3 : a3 / time.Second = a1 / time.Second).
    { apply same_second_between with (b := B); [|  |exact Hsec].
      - eapply Z.le_trans; eassumption.
      - repeat (eapply Z.le_trans; [eassumption|]). apply Z.le_refl. }
    assert (E1 : b1 / time.Second = a1 / time.Second).
    { apply same_second_between with (b := B); [| |exact Hsec].
      - eapply Z.le_trans; [exact O1|]. eapply Z.le_trans; eassumption.
      - repeat (eapply Z.le_trans; [eassumption|]). apply Z.le_refl. }
    assert (E2 : b2 / time.Second = a1 / time.Second).
    { apply same_second_between with (b := B); [| |exact Hsec].
      - eapply Z.le_trans; [exact O1|]. eapply Z.le_trans; [exact O2|].
        eapply Z.le_trans; eassumption.
      - eapply Z.le_trans; eassumption. }
    assert (E3 : b3 / time.Second = a1 / time.Second).
    { apply same_second_between with (b := B); [|exact O6|exact Hsec].
      eapply Z.le_trans; [exact O1|]. eapply Z.le_trans; [exact O2|].
      eapply Z.le_trans; [exact O3|]. eapply Z.le_trans; eassumption. }
    destruct (@NewNumericDate_same_second b1 a1 E1) as [_ ->].
    destruct (@NewNumericDate_same_second b2 a2 (eq_trans E2 (eq_sym F2))) as [-> _].
    destruct (@NewNumericDate_same_second b3 a3 (eq_trans E3 (eq_sym F3))) as [-> _].
    reflexivity. }
  clear Hsec.
  destruct (session.CreateSession (main.sessionUsecase L secretKey) userID w1)
    as [[sess2|e] w2]; cbn [fst snd] in *.
  - exfalso. destruct C1 as (Hs2 & _ & _ & _ & _ & _ & _ & _ & Hdup & _).
    rewrite Hclaims, Hs in Hs2. apply Ok_inj in Hs2.
    rewrite Hdb in Hdup. cbn [sessions] in Hdup.
    rewrite existsb_app in Hdup. apply orb_false_iff in Hdup. destruct Hdup as [_ Hdup].
    cbn in Hdup. rewrite Hs2, String.eqb_refl, orb_true_r in Hdup. discriminate.
  - split; [now exists e|exact C1].
Qed.

(** Two sessions for alice, made between the times 10 and 16. *)
Lemma CreateSession_twice_in_one_second_witness :
  (exists e,
      fst (session.CreateSession (main.sessionUsecase sample.lib "secret") 1%N
             (snd (session.CreateSession (main.sessionUsecase sample.lib "secret") 1%N
                     sample.world_chat))) = Err e)
  /\ db (snd (session.CreateSession (main.sessionUsecase sample.lib "secret") 1%N
                (snd (session.CreateSession (main.sessionUsecase sample.lib "secret") 1%N
                        sample.world_chat)))) =
       db (snd (session.CreateSession (main.sessionUsecase sample.lib "secret") 1%N
                  sample.world_chat)).
Proof.
  apply (@CreateSession_twice_in_one_second sample.lib "secret" 1%N sample.world_chat
           (Session.mk 302240678275694148452451%N 1%N
              "SFMyNTY.MSw4NjQwMDAwMDAwMDAwMCwwLDA.fm0-AtYqTL1UohbccVhURjX8yn72nk9rbaQh8JdUTaA"
              86400000000014 15)).
  - vm_compute. reflexivity.
  - vm_compute. reflexivity.
Defined.

(** After a delete that went through, no session has the token. *)
Lemma DeleteByToken_None (token : string) (w : World) :
  fst (postgres.sessionRepo.DeleteByToken token w) = None ->
  token <> ""
  /\ find (fun s => (Session.Token s =? token)%string)
       (sessions (db (snd (postgres.sessionRepo.DeleteByToken token w)))) = None.
Proof.
  unfold postgres.sessionRepo.DeleteByToken.
  destruct (String.eqb_spec token ""); [discriminate|].
  unfold bind, ret.
  pose proof (QueryRow_spec (sql.delete_session_by_token token) w) as Q.
  destruct (postgres.QueryRow (sql.delete_session_by_token token) w) as [r w1].
  cbn [fst snd] in Q. destruct Q as (Hr & Hdb & _).
  destruct (hd false (faults w)); [subst r; discriminate|].
  unfold sql.delete_session_by_token in Hr, Hdb.
  destruct (find _ (sessions (db w))) as [s|] eqn:Hfind; cbn in Hr, Hdb; subst r;
    [|discriminate].
  intros _. split; [assumption|]. cbn [snd]. rewrite Hdb. cbn [sessions].
  apply find_filter_negb.
Qed.

(** A token that selects no session gets an error from the store, whether
    the round trip fails or not. *)
Lemma GetByToken_none (token : string) (w : World) :
  find (fun s => (Session.Token s =? token)%string) (sessions (db w)) = None ->
  exists e, fst (postgres.sessionRepo.GetByToken token w) = Err e.
Proof.
  intros Hfind.
  destruct (postgres.sessionRepo.GetByToken token w) as [[s|e] w'] eqn:G;
    [|now exists e].
  apply GetByToken_Ok in G. destruct G as (_ & _ & G & _). congruence.
Qed.

(** X11. After a [DeleteSession] that succeeded, [ValidateSession] turns the
    token down as an invalid session, whatever the token service says of
    it, as long as the table of sessions is as the delete left it. *)
Theorem deleted_session_does_not_validate (j : JWTService.t) (token : string)
  (w w2 : World) :
  let s := session.mk postgres.NewSessionRepository j in
  fst (session.DeleteSession s token w) = None ->
  sessions (db w2) = sessions (db (snd (session.DeleteSession s token w))) ->
  fst (session.ValidateSession s token w2) =
    Err (session_BusinessError "invalid session").
Proof.
  intros s H Hdb. subst s. rewrite DeleteSession_is_DeleteByToken in H, Hdb.
  cbn [session.sessionRepo SessionRepository.DeleteByToken postgres.NewSessionRepository]
    in H, Hdb.
  destruct (DeleteByToken_None token w H) as [_ Hfind]. rewrite <- Hdb in Hfind.
  destruct (GetByToken_none token w2 Hfind) as [e He].
  pose proof (ValidateSession_cases (session.mk postgres.NewSessionRepository j) token w2)
    as V.
  cbn [session.sessionRepo SessionRepository.GetByToken postgres.NewSessionRepository] in V.
  destruct (postgres.sessionRepo.GetByToken token w2) as [r w3]. cbn [fst] in He.
  subst r. now rewrite V.
Qed.

(** The session of alice under the token "tok", deleted and then checked. *)
Lemma deleted_session_does_not_validate_witness :
  fst (session.ValidateSession
         (session.mk postgres.NewSessionRepository sample.jwtService) "tok"
         (snd (session.DeleteSession
                 (session.mk postgres.NewSessionRepository sample.jwtService) "tok"
                 sample.world_two))) =
    Err (session_BusinessError "invalid session").
Proof.
  apply (@deleted_session_does_not_validate sample.jwtService "tok" sample.world_two
           (snd (session.DeleteSession
                   (session.mk postgres.NewSessionRepository sample.jwtService) "tok"
                   sample.world_two))).
  - reflexivity.
  - reflexivity.
Defined.


(** ** Accounts: registration, login and removal *)

(** [userRepo.GetByEmail], by its answer. *)
Lemma userRepo_GetByEmail_spec (email : string) (w : World) :
  db (snd (postgres.userRepo.GetByEmail email w)) = db w
  /\ entropy (snd (postgres.userRepo.GetByEmail email w)) = entropy w
  /\ match fst (postgres.userRepo.GetByEmail email w) with
     | Ok u =>
         email <> "" /\ hd false (faults w) = false
         /\ find (fun u => (User.Email u =? email)%string) (users (db w)) = Some u
     | Err _ =>
         email = "" \/ hd false (faults w) = true
         \/ find (fun u => (User.Email u =? email)%string) (users (db w)) = None
     end.
Proof.
  unfold postgres.userRepo.GetByEmail.
  destruct (String.eqb_spec email ""); [cbn; auto|].
  unfold bind, ret.
  pose proof (QueryRow_spec (sql.select_user_by_email email) w) as Q.
  destruct (postgres.QueryRow (sql.select_user_by_email email) w) as [r w1].
  cbn [fst snd] in Q. destruct Q as (Hr & Hdb & _ & _ & _ & Hent).
  unfold sql.select_user_by_email in Hr, Hdb.
  destruct (hd false (faults w)) eqn:Hf.
  { subst r. cbn. auto. }
  destruct (find _ (users (db w))) as [u|] eqn:Hfind; cbn in Hr, Hdb; subst r; cbn; auto.
Qed.








(** X14. [Login] and [GetProfile] leave the tables as they were, whatever
    they answer. *)
Theorem Login_and_GetProfile_read_only (L : jwt.Lib) (cipher : bcrypt.Blowfish)
  (secretKey : string) (email password : string) (userID : UUID) (w : World) :
  let u := main.userUsecase L cipher secretKey in
  db (snd (user.Login u email password w)) = db w
  /\ db (snd (user.GetProfile u userID w)) = db w.
Proof.
  cbv zeta. split.
  - unfold user.Login. wire. unfold bind, ret.
    destruct (userRepo_GetByEmail_spec email w) as (Hdb & _).
    destruct (postgres.userRepo.GetByEmail email w) as [[x|e] w1]; cbn [fst snd] in *;
      [|exact Hdb].
    unfold service.CheckPasswordHash.
    destruct (bcrypt.CompareHashAndPassword cipher (User.Password x) password);
      exact Hdb.
  - unfold user.GetProfile. wire. unfold bind, ret.
    destruct (userRepo_GetByID_spec userID w) as (Hdb & _).
    destruct (postgres.userRepo.GetByID userID w) as [[x|e] w1]; exact Hdb.
Qed.

(** X15. After a [DeleteUser] that succeeded, and as long as the tables are
    as it left them: [GetProfile] of the account fails, with the error of
    the repository "user not found" when its round trip goes through;
    [ValidateSession] turns down, as an invalid session, the token of every
    session the account had (a token being that of one account only); and
    [CreateMessage] in the name of the account fails with "user not
    found". *)
Theorem deleted_user_is_gone (L : jwt.Lib) (cipher : bcrypt.Blowfish) (secretKey : string)
  (userID : UUID) (w w2 : World) :
  let u := main.userUsecase L cipher secretKey in
  fst (user.DeleteUser u userID w) = None ->
  db w2 = db (snd (user.DeleteUser u userID w)) ->
  (exists e, fst (user.GetProfile u userID w2) = Err e)
  /\ (hd false (faults w2) = false ->
      fst (user.GetProfile u userID w2) = Err (postgres_NotFoundError "user not found"))
  /\ (forall s,
         In s (sessions (db w)) -> Session.UserID s = userID ->
         (forall s', In s' (sessions (db w)) -> Session.Token s' = Session.Token s ->
                     Session.UserID s' = userID) ->
         fst (session.ValidateSession (main.sessionUsecase L secretKey)
                (Session.Token s) w2) = Err (session_BusinessError "invalid session"))
  /\ (forall content,
         fst (message.CreateMessage main.messageUsecase userID content w2) =
           inl (message.BusinessError "user not found")).
Proof.
  intros u H Hdb. subst u.
  assert (D : userID <> uuid.Nil
              /\ db (snd (user.DeleteUser (main.userUsecase L cipher secretKey) userID w)) =
                 mkDatabase
                   (filter (fun u => negb (uuid.eqb (User.ID u) userID)) (users (db w)))
                   (filter (fun s => negb (uuid.eqb (Session.UserID s) userID))
                      (sessions (db w)))
                   (filter (fun m => negb (uuid.eqb (Message.UserID m) userID))
                      (messages (db w)))).
  { revert H. unfold user.DeleteUser. wire. unfold bind, ret.
    pose proof (GetByUserID_db userID w) as Hdb1.
    destruct (postgres.sessionRepo.GetByUserID userID w) as [r w1]. cbn [snd] in Hdb1.
    pose proof (userRepo_Delete_spec userID w1) as S.
    assert (Hnil : fst (postgres.userRepo.Delete userID w1) = None -> userID <> uuid.Nil).
    { unfold postgres.userRepo.Delete.
      destruct (uuid.eqb userID uuid.Nil) eqn:E; [discriminate|].
      intros _. now apply N.eqb_neq in E. }
    destruct (postgres.userRepo.Delete userID w1) as [[e|] w3]; cbn [fst snd] in *;
      [discriminate|].
    intros _. split; [now apply Hnil|]. now rewrite S, Hdb1. }
  destruct D as [Hnil D]. rewrite D in Hdb. clear D H.
  assert (Hnone : find (fun x => uuid.eqb (User.ID x) userID) (users (db w2)) = None)
    by (rewrite Hdb; cbn [users]; apply find_filter_negb).
  assert (G : (exists e, fst (postgres.userRepo.GetByID userID w2) = Err e)
              /\ (hd false (faults w2) = false ->
                  fst (postgres.userRepo.GetByID userID w2) =
                    Err (postgres_NotFoundError "user not found"))).
  { split.
    - destruct (userRepo_GetByID_spec userID w2) as (_ & G).
      destruct (postgres.userRepo.GetByID userID w2) as [[x|e] w3]; cbn [fst] in *;
        [|now exists e].
      destruct G as (_ & _ & G). congruence.
    - intros Hf. unfold postgres.userRepo.GetByID.
      destruct (uuid.eqb userID uuid.Nil) eqn:E; [apply N.eqb_eq in E; contradiction|].
      unfold bind, ret.
      pose proof (QueryRow_spec (sql.select_user_by_id userID) w2) as Q.
      destruct (postgres.QueryRow (sql.select_user_by_id userID) w2) as [r w3].
      cbn [fst snd] in Q. destruct Q as (Hr & _). rewrite Hf in Hr.
      unfold sql.select_user_by_id in Hr. rewrite Hnone in Hr. cbn in Hr. subst r.
      reflexivity. }
  destruct G as [[e Ge] Gnf].
  split; [|split; [|split]].
  - exists e. unfold user.GetProfile. wire. unfold bind, ret.
    destruct (postgres.userRepo.GetByID userID w2) as [r w3]. cbn [fst] in Ge. subst r.
    reflexivity.
  - intros Hf. specialize (Gnf Hf). unfold user.GetProfile. wire. unfold bind, ret.
    destruct (postgres.userRepo.GetByID userID w2) as [r w3]. cbn [fst] in Gnf. subst r.
    reflexivity.
  - intros s Hin Hs Huniq.
    assert (Hfind : find (fun x => (Session.Token x =? Session.Token s)%string)
                      (sessions (db w2)) = None).
    { rewrite Hdb. cbn [sessions].
      destruct (find _ (filter _ (sessions (db w)))) as [x|] eqn:F; [|reflexivity].
      exfalso. apply find_some in F. destruct F as [Hx Ht].
      apply filter_In in Hx. destruct Hx as [Hx Hu].
      apply String.eqb_eq in Ht. rewrite (Huniq x Hx Ht) in Hu.
      unfold uuid.eqb in Hu. rewrite N.eqb_refl in Hu. discriminate. }
    destruct (GetByToken_none (Session.Token s) w2 Hfind) as [e' He'].
    pose proof (ValidateSession_cases (main.sessionUsecase L secretKey) (Session.Token s) w2)
      as V.
    wire.
    destruct (postgres.sessionRepo.GetByToken (Session.Token s) w2) as [r w3].
    cbn [fst] in He'. subst r. now rewrite V.
  - intros content. unfold message.CreateMessage. wire. unfold bind, ret.
    destruct (postgres.userRepo.GetByID userID w2) as [r w3]. cbn [fst] in Ge. subst r.
    reflexivity.
Qed.

(** Alice is deleted from the tables of alice and bob: her profile is not
    found, her token is an invalid session, and no message is written in
    her name. *)
Lemma deleted_user_is_gone_witness :
  fst (user.GetProfile (main.userUsecase sample.lib sample.cipher "secret") 1%N
         (snd (user.DeleteUser (main.userUsecase sample.lib sample.cipher "secret") 1%N
                 sample.world_two))) = Err (postgres_NotFoundError "user not found")
  /\ fst (session.ValidateSession (main.sessionUsecase sample.lib "secret") "tok"
            (snd (user.DeleteUser (main.userUsecase sample.lib sample.cipher "secret") 1%N
                    sample.world_two))) = Err (session_BusinessError "invalid session")
  /\ fst (message.CreateMessage main.messageUsecase 1%N "hello"
            (snd (user.DeleteUser (main.userUsecase sample.lib sample.cipher "secret") 1%N
                    sample.world_two))) = inl (message.BusinessError "user not found").
Proof.
  pose proof (@deleted_user_is_gone sample.lib sample.cipher "secret" 1%N sample.world_two
                (snd (user.DeleteUser (main.userUsecase sample.lib sample.cipher "secret")
                        1%N sample.world_two))
                eq_refl eq_refl) as (_ & P & V & C).
  split; [exact (P eq_refl)|split; [|exact (C "hello")]].
  apply (V sample.expiring).
  - left; reflexivity.
  - reflexivity.
  - intros s' [<-|[<-|[]]]; [reflexivity|discriminate].
Defined.
